(** * Absence register (Streamlit CRUD over a pandas DataFrame)

    Shallow embedding of [main.py]: the date arithmetic used by
    [calcular_datas], the record store held in [st.session_state.df_atestados]
    with its operations [add_record], [update_record], [delete_record] and
    [load_data], the cached lookup [pesquisar_cid], the form handlers that
    call them, and the default ordering of the complete table. *)

From Stdlib Require Import ZArith List String Ascii Bool Lia.
From Stdlib Require Import Sorting.Sorted Sorting.Permutation.
From Stdlib Require Import DecimalString.
Import ListNotations.

#[local] Open Scope string_scope.
#[local] Open Scope Z_scope.

(** ** Python exceptions and results *)

Inductive exn : Type :=
  | OverflowError
  | ValueError
  | KeyError.

Inductive result (A : Type) : Type :=
  | Ok (a : A)
  | Raise (e : exn).

Arguments Ok {A} a.
Arguments Raise {A} e.

Definition bind {A B : Type} (r : result A) (k : A -> result B) : result B :=
  match r with
  | Ok a => k a
  | Raise e => Raise e
  end.

Notation "x <- r ;; k" := (bind r (fun x => k))
  (at level 61, r at next level, right associativity).

(** ** [datetime.date] and [datetime.timedelta]

    [calcular_datas] relies on the date arithmetic of Python's [datetime]
    module.  The definitions below follow its reference implementation
    (ordinal conversion through 400/100/4/1 year cycles). *)

Module PyDate.

Record date : Type := mkdate { year : Z; month : Z; day : Z }.

Definition MINYEAR : Z := 1.
Definition MAXYEAR : Z := 9999.
Definition _MAXORDINAL : Z := 3652059.

(** [_DAYS_IN_MONTH] and [_DAYS_BEFORE_MONTH], indexed from 1. *)
Definition _DAYS_IN_MONTH : list Z :=
  [-1; 31; 28; 31; 30; 31; 30; 31; 31; 30; 31; 30; 31].

Definition _DAYS_BEFORE_MONTH : list Z :=
  [-1; 0; 31; 59; 90; 120; 151; 181; 212; 243; 273; 304; 334].

Definition tbl (t : list Z) (i : Z) : Z := nth (Z.to_nat i) t (-1).

Definition _is_leap (y : Z) : bool :=
  (y mod 4 =? 0) && (negb (y mod 100 =? 0) || (y mod 400 =? 0)).

Definition _days_before_year (y : Z) : Z :=
  let y' := y - 1 in
  y' * 365 + y' / 4 - y' / 100 + y' / 400.

Definition _days_in_month (y m : Z) : Z :=
  if (m =? 2) && _is_leap y then 29 else tbl _DAYS_IN_MONTH m.

Definition _days_before_month (y m : Z) : Z :=
  tbl _DAYS_BEFORE_MONTH m + (if (2 <? m) && _is_leap y then 1 else 0).

Definition _ymd2ord (y m d : Z) : Z :=
  _days_before_year y + _days_before_month y m + d.

Definition _DI400Y : Z := 146097.
Definition _DI100Y : Z := 36524.
Definition _DI4Y : Z := 1461.

Definition _ord2ymd (n0 : Z) : date :=
  let n := n0 - 1 in
  let n400 := n / _DI400Y in
  let n := n mod _DI400Y in
  let y := n400 * 400 + 1 in
  let n100 := n / _DI100Y in
  let n := n mod _DI100Y in
  let n4 := n / _DI4Y in
  let n := n mod _DI4Y in
  let n1 := n / 365 in
  let n := n mod 365 in
  let y := y + n100 * 100 + n4 * 4 + n1 in
  if (n1 =? 4) || (n100 =? 4) then mkdate (y - 1) 12 31
  else
    let leapyear := (n1 =? 3) && (negb (n4 =? 24) || (n100 =? 3)) in
    let m := Z.shiftr (n + 50) 5 in
    let preceding :=
      tbl _DAYS_BEFORE_MONTH m + (if (2 <? m) && leapyear then 1 else 0) in
    if n <? preceding then
      let m' := m - 1 in
      let preceding' :=
        preceding
        - (tbl _DAYS_IN_MONTH m' + (if (m' =? 2) && leapyear then 1 else 0)) in
      mkdate y m' (n - preceding' + 1)
    else mkdate y m (n - preceding + 1).

(** The last part of [_ord2ymd] on its own: from the day [n] of the year
    (counted from 0) to month and day.  Used to reason about [_ord2ymd]. *)
Definition locate (leapyear : bool) (y n : Z) : date :=
  let m := Z.shiftr (n + 50) 5 in
  let preceding :=
    tbl _DAYS_BEFORE_MONTH m + (if (2 <? m) && leapyear then 1 else 0) in
  if n <? preceding then
    let m' := m - 1 in
    let preceding' :=
      preceding
      - (tbl _DAYS_IN_MONTH m' + (if (m' =? 2) && leapyear then 1 else 0)) in
    mkdate y m' (n - preceding' + 1)
  else mkdate y m (n - preceding + 1).

(** Leap years by position in the 400-year cycle: year 100*b + 4*c + e + 1. *)
Definition cycle_leap (b c e : Z) : bool :=
  (e =? 3) && (negb (c =? 24) || (b =? 3)).

(** The checks of the [date] constructor ([_check_date_fields]). *)
Definition valid_date (d : date) : bool :=
  (MINYEAR <=? year d) && (year d <=? MAXYEAR)
  && (1 <=? month d) && (month d <=? 12)
  && (1 <=? day d) && (day d <=? _days_in_month (year d) (month d)).

Definition toordinal (d : date) : Z := _ymd2ord (year d) (month d) (day d).
Definition fromordinal (n : Z) : date := _ord2ymd n.

(** [timedelta(days=n)]: the day count is limited to nine digits. *)
Definition timedelta (days : Z) : result Z :=
  if (-999999999 <=? days) && (days <=? 999999999) then Ok days
  else Raise OverflowError.

(** [date.__add__]: the sum must stay between 0001-01-01 and 9999-12-31. *)
Definition date_add (d : date) (days : Z) : result date :=
  let o := toordinal d + days in
  if (0 <? o) && (o <=? _MAXORDINAL) then Ok (fromordinal o)
  else Raise OverflowError.

(** *** Text form: [str(date)], [strftime('%Y-%m-%d')], [strptime] *)

Definition digit (n : Z) : ascii := ascii_of_nat (48 + Z.to_nat n).

Definition digit_val (c : ascii) : option Z :=
  let k := Z.of_nat (nat_of_ascii c) in
  if (48 <=? k) && (k <=? 57) then Some (k - 48) else None.

Definition pad2 (n : Z) : string :=
  String (digit (n / 10 mod 10)) (String (digit (n mod 10)) EmptyString).

Definition pad4 (n : Z) : string :=
  String (digit (n / 1000 mod 10)) (String (digit (n / 100 mod 10)) (pad2 n)).

(** [date.isoformat], which is also [str(date)]: ["%04d-%02d-%02d"]. *)
Definition isoformat (d : date) : string :=
  pad4 (year d) ++ "-" ++ pad2 (month d) ++ "-" ++ pad2 (day d).

(** [d.strftime('%Y-%m-%d')], for the four-digit years of [valid_date]
    written with leading zeros. *)
Definition strftime_Ymd (d : date) : string := isoformat d.

Definition num2 (a b : ascii) : option Z :=
  match digit_val a, digit_val b with
  | Some x, Some y => Some (10 * x + y)
  | _, _ => None
  end.

(** [datetime.strptime(s, '%Y-%m-%d').date()] on the fixed-width text that
    [str(date)] produces; any other shape is rejected, as is a date that the
    constructor refuses. *)
Definition strptime_Ymd (s : string) : result date :=
  match s with
  | String y1 (String y2 (String y3 (String y4 (String "-"
      (String m1 (String m2 (String "-"
      (String d1 (String d2 EmptyString))))))))) =>
      match num2 y1 y2, num2 y3 y4, num2 m1 m2, num2 d1 d2 with
      | Some yh, Some yl, Some m, Some d =>
          let r := mkdate (100 * yh + yl) m d in
          if valid_date r then Ok r else Raise ValueError
      | _, _, _, _ => Raise ValueError
      end
  | _ => Raise ValueError
  end.

(** Calendar successor, written directly from the calendar rules: the next
    day of the month, else the first of the next month, else New Year. *)
Definition next_day (d : date) : date :=
  if day d <? _days_in_month (year d) (month d)
  then mkdate (year d) (month d) (day d + 1)
  else if month d <? 12 then mkdate (year d) (month d + 1) 1
  else mkdate (year d + 1) 1 1.

Fixpoint add_days (k : nat) (d : date) : date :=
  match k with
  | O => d
  | S k' => add_days k' (next_day d)
  end.

End PyDate.

Import PyDate.

(** ** [calcular_datas] *)

Definition calcular_datas (data_inicio : date) (dias : Z)
  : result (date * date) :=
  (* a [datetime.date] is not an instance of [datetime] *)
  data_inicio <- strptime_Ymd (isoformat data_inicio) ;;
  td <- timedelta (dias - 1) ;;
  data_final <- date_add data_inicio td ;;
  td1 <- timedelta 1 ;;
  data_retorno <- date_add data_final td1 ;;
  Ok (data_final, data_retorno).

(** ** Python strings: [str.strip], [str.upper], [in], truthiness

    A text is held as the bytes of its UTF-8 form.  [strip] removes the
    white space of Python's [str.strip]: the ASCII bytes 9 to 13, 28 to 31
    and 32, and the characters U+0085, U+00A0, U+1680, U+2000 to U+200A,
    U+2028, U+2029, U+202F, U+205F and U+3000.  [str.upper] is written out
    for ASCII text ([upper_ascii]); for a text with a character outside
    ASCII it is taken from Unicode's case tables (see [upper] below). *)

Definition is_space (c : ascii) : bool :=
  let n := nat_of_ascii c in
  ((n =? 32) || ((9 <=? n) && (n <=? 13)) || ((28 <=? n) && (n <=? 31)))%nat.

(** The value of a byte outside ASCII, and 0 for an ASCII byte. *)
Definition high (c : ascii) : nat :=
  let n := nat_of_ascii c in
  if (128 <=? n)%nat then n else 0%nat.

(** The white space outside ASCII, in UTF-8: U+0085 and U+00A0 take two
    bytes; U+1680, U+2000 to U+200A, U+2028, U+2029, U+202F, U+205F and
    U+3000 take three. *)
Definition space2 (c1 c2 : ascii) : bool :=
  let a := high c1 in
  let b := high c2 in
  ((a =? 194) && ((b =? 133) || (b =? 160)))%nat.

Definition space3 (c1 c2 c3 : ascii) : bool :=
  let a := high c1 in
  let b := high c2 in
  let c := high c3 in
  (((a =? 225) && (b =? 154) && (c =? 128))
   || ((a =? 226) && (b =? 128)
       && (((128 <=? c) && (c <=? 138)) || (c =? 168) || (c =? 169) || (c =? 175)))
   || ((a =? 226) && (b =? 129) && (c =? 159))
   || ((a =? 227) && (b =? 128) && (c =? 128)))%nat.

Fixpoint lstrip (s : string) : string :=
  match s with
  | EmptyString => EmptyString
  | String c1 s1 =>
      if is_space c1 then lstrip s1
      else
        match s1 with
        | EmptyString => s
        | String c2 s2 =>
            if space2 c1 c2 then lstrip s2
            else
              match s2 with
              | EmptyString => s
              | String c3 s3 => if space3 c1 c2 c3 then lstrip s3 else s
              end
        end
  end.

(** The byte [c] put before a text [r] that does not end with white space:
    together they may be one white-space character. *)
Definition before_stripped (c : ascii) (r : string) : string :=
  match r with
  | EmptyString => if is_space c then EmptyString else String c EmptyString
  | String c2 EmptyString =>
      if space2 c c2 then EmptyString else String c r
  | String c2 (String c3 EmptyString) =>
      if space3 c c2 c3 then EmptyString else String c r
  | _ => String c r
  end.

Fixpoint rstrip (s : string) : string :=
  match s with
  | EmptyString => EmptyString
  | String c s' => before_stripped c (rstrip s')
  end.

Definition strip (s : string) : string := rstrip (lstrip s).

(** Whether a text starts with a white-space character. *)
Definition starts_space (s : string) : bool :=
  match s with
  | EmptyString => false
  | String c1 s1 =>
      is_space c1
      || match s1 with
         | EmptyString => false
         | String c2 s2 =>
             space2 c1 c2
             || match s2 with
                | EmptyString => false
                | String c3 _ => space3 c1 c2 c3
                end
         end
  end.

Definition upper_char (c : ascii) : ascii :=
  let n := nat_of_ascii c in
  if ((97 <=? n) && (n <=? 122))%nat then ascii_of_nat (n - 32) else c.

Fixpoint upper_ascii (s : string) : string :=
  match s with
  | EmptyString => EmptyString
  | String c s' => String (upper_char c) (upper_ascii s')
  end.

Fixpoint ascii_text (s : string) : bool :=
  match s with
  | EmptyString => true
  | String c s' => (nat_of_ascii c <? 128)%nat && ascii_text s'
  end.

(** [pat in s] *)
Definition contains (pat s : string) : bool :=
  match index 0 pat s with
  | Some _ => true
  | None => false
  end.

(** Truth value of a string: non-empty. *)
Definition truthy (s : string) : bool :=
  match s with
  | EmptyString => false
  | String _ _ => true
  end.

(** ** The DataFrame of absences *)

(** The values a cell holds: text, a whole number, a [date] object, or one
    of the missing values [NaN] / [NaT].  [Int z] is the number by its
    value: in the frame of absences pandas holds a column of whole numbers
    as integers, and as floats of the same value (3.0 for 3) once the column
    has had a missing value in it; the operations below never look at that
    difference. *)
Inductive cell : Type :=
  | NaN
  | NaT
  | Str (s : string)
  | Int (z : Z)
  | Date (d : date).

(** [pd.isna] *)
Definition isna (c : cell) : bool :=
  match c with
  | NaN | NaT => true
  | _ => false
  end.

(** [c == s] and [c != s] for a cell and a Python string. *)
Definition cell_eq_str (c : cell) (s : string) : bool :=
  match c with
  | Str t => String.eqb t s
  | _ => false
  end.

Definition cell_ne_str (c : cell) (s : string) : bool := negb (cell_eq_str c s).

(** [COLUMNS] *)
Inductive column : Type :=
  | Nome_do_Colaborador
  | Data_de_Inicio
  | Dias
  | Data_Final
  | CID
  | Tipo
  | Motivo.

Definition column_name (c : column) : string :=
  match c with
  | Nome_do_Colaborador => "Nome_do_Colaborador"
  | Data_de_Inicio => "Data_de_Inicio"
  | Dias => "Dias"
  | Data_Final => "Data_Final"
  | CID => "CID"
  | Tipo => "Tipo"
  | Motivo => "Motivo"
  end.

Definition COLUMNS : list column :=
  [Nome_do_Colaborador; Data_de_Inicio; Dias; Data_Final; CID; Tipo; Motivo].

Record Row : Type := mkRow {
  row_nome : cell;
  row_inicio : cell;
  row_dias : cell;
  row_final : cell;
  row_cid : cell;
  row_tipo : cell;
  row_motivo : cell
}.

Definition get (c : column) (r : Row) : cell :=
  match c with
  | Nome_do_Colaborador => row_nome r
  | Data_de_Inicio => row_inicio r
  | Dias => row_dias r
  | Data_Final => row_final r
  | CID => row_cid r
  | Tipo => row_tipo r
  | Motivo => row_motivo r
  end.

Definition set (c : column) (v : cell) (r : Row) : Row :=
  match c with
  | Nome_do_Colaborador =>
      mkRow v (row_inicio r) (row_dias r) (row_final r) (row_cid r) (row_tipo r) (row_motivo r)
  | Data_de_Inicio =>
      mkRow (row_nome r) v (row_dias r) (row_final r) (row_cid r) (row_tipo r) (row_motivo r)
  | Dias =>
      mkRow (row_nome r) (row_inicio r) v (row_final r) (row_cid r) (row_tipo r) (row_motivo r)
  | Data_Final =>
      mkRow (row_nome r) (row_inicio r) (row_dias r) v (row_cid r) (row_tipo r) (row_motivo r)
  | CID =>
      mkRow (row_nome r) (row_inicio r) (row_dias r) (row_final r) v (row_tipo r) (row_motivo r)
  | Tipo =>
      mkRow (row_nome r) (row_inicio r) (row_dias r) (row_final r) (row_cid r) v (row_motivo r)
  | Motivo =>
      mkRow (row_nome r) (row_inicio r) (row_dias r) (row_final r) (row_cid r) (row_tipo r) v
  end.

(** A row in which nothing has been set yet. *)
Definition nan_row : Row := mkRow NaN NaN NaN NaN NaN NaN NaN.

(** A DataFrame with the seven [COLUMNS]: its rows in order, each under its
    index label. *)
Definition DataFrame : Type := list (Z * Row).

Definition labels (df : DataFrame) : list Z := map fst df.
Definition records (df : DataFrame) : list Row := map snd df.

Definition has_label (df : DataFrame) (index : Z) : bool :=
  existsb (Z.eqb index) (labels df).

Fixpoint number_from (k : Z) (rs : list Row) : DataFrame :=
  match rs with
  | [] => []
  | r :: rs' => (k, r) :: number_from (k + 1) rs'
  end.

(** [df.reset_index(drop=True)] *)
Definition reset_index (df : DataFrame) : DataFrame := number_from 0 (records df).

(** [pd.concat([df, pd.DataFrame([novo_registro])], ignore_index=True)] *)
Definition concat_ignore_index (df : DataFrame) (novo_registro : Row) : DataFrame :=
  number_from 0 (records df ++ [novo_registro])%list.

(** [df.drop(index)]: the rows under that label go; an unknown label raises. *)
Definition drop (df : DataFrame) (index : Z) : result DataFrame :=
  if has_label df index
  then Ok (filter (fun p => negb (fst p =? index)) df)
  else Raise KeyError.

(** [df.loc[index, c]] read: the cell of the one row under that label. *)
Definition loc (df : DataFrame) (index : Z) (c : column) : result cell :=
  match filter (fun p => fst p =? index) df with
  | [] => Raise KeyError
  | [p] => Ok (get c (snd p))
  | _ :: _ :: _ => Raise ValueError
  end.

(** [df.loc[index, c] = v]: sets the cell in the rows under that label; under
    a label the frame does not have, pandas enlarges the frame by a new row
    with that label, missing everywhere else.  (The other columns receive a
    missing value by it, so pandas holds their whole numbers as floats from
    then on: the day counts 3, 1 become 3.0, 1.0, which [Int] does not tell
    apart.) *)
Definition at_label (index : Z) (f : Row -> Row) (p : Z * Row) : Z * Row :=
  if fst p =? index then (fst p, f (snd p)) else p.

Definition loc_set (df : DataFrame) (index : Z) (c : column) (v : cell) : DataFrame :=
  if has_label df index
  then map (at_label index (set c v)) df
  else (df ++ [(index, set c v nan_row)])%list.

(** ** The session: in-memory frame, data file, lookup cache, service calls *)

Record session : Type := mkSession {
  df_atestados : DataFrame;
  (** what [save_data] wrote to [DATA_FILE], latest first *)
  saved : list DataFrame;
  (** entries of [st.cache_data] for [pesquisar_cid]: argument, time stored, value *)
  cache : list (string * (Z * string));
  (** codes sent to the text-generation service, latest first *)
  calls : list string
}.

(** [save_data] *)
Definition save_data (s : session) : session :=
  mkSession (df_atestados s) (df_atestados s :: saved s) (cache s) (calls s).

(** [st.cache_data.clear()] *)
Definition cache_clear (s : session) : session :=
  mkSession (df_atestados s) (saved s) [] (calls s).

Definition ttl : Z := 3600.

(** An entry answers until [ttl] seconds after it was stored. *)
Fixpoint cache_get (now : Z) (k : string) (c : list (string * (Z * string)))
  : option string :=
  match c with
  | [] => None
  | (k', (t, v)) :: c' =>
      if String.eqb k' k && (now <? t + ttl) then Some v else cache_get now k c'
  end.

(** What [model.generate_content(prompt)] comes to. *)
Inductive reply : Type :=
  | Text (text : string)
  | APIError (detail : string)
  | OtherException (detail : string).

(** What a form submission comes to. *)
Inductive outcome : Type :=
  | Success (data_retorno : date)
  | Error (message : string)
  | Exception (e : exn).

(** A service for examples: it knows two codes. *)
Definition demo_service (_ : list string) (codigo : string) : reply :=
  if String.eqb codigo "M54" then Text "Dor nas costas"
  else if String.eqb codigo "J11" then Text "Gripe"
  else Text "CÓDIGO INVÁLIDO".

(** Case tables for examples: no letter outside ASCII has an upper case. *)
Definition demo_upper_wide (s : string) : string := upper_ascii s.

(** The no-break space U+00A0, and a blank text made of it, a space and
    the em space U+2003. *)
Definition nbsp : string :=
  String (ascii_of_nat 194) (String (ascii_of_nat 160) EmptyString).

Definition blank_text : string :=
  nbsp ++ " "
  ++ String (ascii_of_nat 226) (String (ascii_of_nat 128)
               (String (ascii_of_nat 131) EmptyString)).

(** Nanoseconds from 1970-01-01 to midnight of a date. *)
Definition midnight (d : date) : Z := (toordinal d - 719163) * 86400000000000.

(** A [pd.to_datetime] for examples: it reads [date] objects and ISO texts. *)
Definition demo_to_datetime (l : list cell) : list (option Z) :=
  map (fun c =>
         match c with
         | Date d => Some (midnight d)
         | Str s => match strptime_Ymd s with
                    | Ok d => Some (midnight d)
                    | Raise _ => None
                    end
         | _ => None
         end) l.

(** Sessions for examples: the empty one, and one of five records at
    positions 0 to 4 with nothing cached and nothing written yet. *)
Definition empty_session : session := mkSession [] [] [] [].

Definition demo_rows : list Row :=
  [ mkRow (Str "Ana") (Str "2024-01-30") (Int 3) (Str "2024-02-01")
      (Str "M54") (Str "Atestado") (Str "M54 - Dor nas costas");
    mkRow (Str "Bia") (Str "2024-02-05") (Int 1) (Str "2024-02-05")
      (Str "M54") (Str "Atestado") (Str "M54 - Dor nas costas");
    mkRow (Str "Caio") (Str "2024-03-01") (Int 2) (Str "2024-03-02")
      (Str EmptyString) (Str "Banco de Horas")
      (Str "Compensação de Banco de Horas");
    mkRow (Str "Duda") (Str "2024-03-04") (Int 1) (Str "2024-03-04")
      (Str EmptyString) (Str "Falta") (Str "Falta");
    mkRow (Str "Edu") (Str "2024-03-11") (Int 1) (Str "2024-03-11")
      (Str EmptyString) (Str "Folga") (Str "Abono") ].

Definition demo_session : session :=
  mkSession (number_from 0 demo_rows) [] [] [].

(** The session an operation leaves, the one it started from if it raised. *)
Definition after {A : Type} (r : result (session * A)) (s : session) : session :=
  match r with
  | Ok (s', _) => s'
  | Raise _ => s
  end.

(** ** Frames as [pd.read_csv] returns them: any columns, by name *)

Record Frame : Type := mkFrame {
  nrows : nat;
  fcolumns : list (string * (nat -> cell))
}.

Definition names (f : Frame) : list string := map fst (fcolumns f).

(** A file for examples: a certificate, and a 'Falta' whose code field is
    empty and so read as missing. *)
Definition demo_file : Frame :=
  mkFrame 2
    [("Nome_do_Colaborador", fun i => nth i [Str "Ana"; Str "Duda"] NaN);
     ("Data_de_Inicio", fun _ => Str "2024-03-04");
     ("Dias", fun _ => Int 1);
     ("Data_Final", fun _ => Str "2024-03-04");
     ("CID", fun i => nth i [Str "M54"] NaN);
     ("Tipo", fun i => nth i [Str "Atestado"; Str "Falta"] NaN);
     ("Motivo", fun i => nth i [Str "M54 - Dor nas costas"; Str "Falta"] NaN)].

Definition has_column (f : Frame) (name : string) : bool :=
  existsb (String.eqb name) (names f).

Definition col_mapping : list (string * string) :=
  [ ("Nome do Colaborador", "Nome_do_Colaborador");
    ("Data de Início", "Data_de_Inicio");
    ("Data Final", "Data_Final");
    ("Descricao CID", "Motivo");
    ("Descricao_CID", "Motivo");
    ("Descricao_do_CID", "Motivo") ].

Definition rename_col (c : string) : string :=
  match find (fun kv => String.eqb (fst kv) c) col_mapping with
  | Some kv => snd kv
  | None => c
  end.

(** [df.rename(columns=renomear, inplace=True)] *)
Definition rename (f : Frame) : Frame :=
  mkFrame (nrows f) (map (fun p => (rename_col (fst p), snd p)) (fcolumns f)).

(** [df[name]] read as one column. *)
Definition getitem (f : Frame) (name : string) : result (nat -> cell) :=
  match filter (fun p => String.eqb (fst p) name) (fcolumns f) with
  | [] => Raise KeyError
  | [p] => Ok (snd p)
  | _ :: _ :: _ => Raise ValueError
  end.

(** [df[name] = values] for a name the frame does not have yet. *)
Definition add_column (f : Frame) (name : string) (values : nat -> cell) : Frame :=
  mkFrame (nrows f) (fcolumns f ++ [(name, values)])%list.

Fixpoint unique (l : list string) : bool :=
  match l with
  | [] => true
  | x :: l' => negb (existsb (String.eqb x) l') && unique l'
  end.

(** [df.reindex(columns=expected_columns, fill_value='')]: refused on
    duplicate column names; a column the frame lacks is filled with ''. *)
Definition reindex (f : Frame) : result (column -> nat -> cell) :=
  if unique (names f)
  then Ok (fun c =>
             match find (fun p => String.eqb (fst p) (column_name c)) (fcolumns f) with
             | Some p => snd p
             | None => fun _ => Str EmptyString
             end)
  else Raise ValueError.

Definition series (n : nat) (values : nat -> cell) : list cell :=
  map values (seq 0 n).

(** [.dt.date] of an instant. *)
Definition dt_date (t : option Z) : cell :=
  match t with
  | Some ns => Date (fromordinal (ns / 86400000000000 + 719163))
  | None => NaT
  end.

(** ** Sorting as [sort_values(ascending=False, na_position='last')] does

    pandas sets the missing keys aside, reverses the others, sorts them in
    ascending order, reverses the outcome and puts the missing ones last.
    The ascending sort is written as an insertion sort; the default sort of
    pandas may place records of equal key in another order. *)

Fixpoint insert {A : Type} (x : Z * A) (l : list (Z * A)) : list (Z * A) :=
  match l with
  | [] => [x]
  | y :: l' => if fst x <=? fst y then x :: l else y :: insert x l'
  end.

Fixpoint argsort {A : Type} (l : list (Z * A)) : list (Z * A) :=
  match l with
  | [] => []
  | x :: l' => insert x (argsort l')
  end.

Definition non_nans {A : Type} (l : list (option Z * A)) : list (Z * A) :=
  flat_map (fun p => match fst p with
                     | Some k => [(k, snd p)]
                     | None => []
                     end) l.

Definition nans {A : Type} (l : list (option Z * A)) : list (option Z * A) :=
  filter (fun p => match fst p with Some _ => false | None => true end) l.

Definition sort_values {A : Type} (l : list (option Z * A)) : list (option Z * A) :=
  (map (fun p => (Some (fst p), snd p)) (rev (argsort (rev (non_nans l))))
   ++ nans l)%list.

(** ** Coherence of category and medical code *)

(** Whether a cell of the 'CID' column holds a code, as [load_data] asks
    it ([pd.notna(x) and x != '']): the empty text is none, nor is the
    missing value, which is what [pd.read_csv] reads an empty field as. *)
Definition has_code (c : cell) : bool :=
  negb (isna c) && cell_ne_str c EmptyString.

(** A record that holds a code is an 'Atestado'. *)
Definition coherent (r : Row) : bool :=
  cell_eq_str (row_tipo r) "Atestado" || negb (has_code (row_cid r)).

(** ** The register: its operations over the services they call *)

Section Register.

(** [str.upper] of a text that has a character outside ASCII, in UTF-8:
    Python takes it from Unicode's case tables, which this repository does
    not hold. *)
Variable upper_wide : string -> string.

(** [str.upper] *)
Definition upper (s : string) : string :=
  if ascii_text s then upper_ascii s else upper_wide s.

Definition blank_code (codigo_cid : string) : bool :=
  negb (truthy (upper (strip codigo_cid))).

(** What the cache can hold for a blank code: the answer given without
    calling the service. *)
Definition cache_sound (c : list (string * (Z * string))) : Prop :=
  Forall (fun e => blank_code (fst e) = true ->
                   snd (snd e) = "N/A - Nenhum CID fornecido.") c.

(** ** Positions, sent codes *)

(** The labels of a frame are the positions 0, 1, ... (a RangeIndex). *)
Definition range_index (df : DataFrame) : Prop :=
  labels df = map Z.of_nat (seq 0 (List.length df)).

(** A code as the lookup sends it to the service: not empty, upper case,
    trimmed. *)
Definition sent_ok (c : string) : bool :=
  truthy c && String.eqb (upper (strip c)) c.

(** ** [load_colaboradores] *)

(** [str(x)] of a cell, as [astype(str)] applies it. *)
Definition cell_str (c : cell) : string :=
  match c with
  | Str s => s
  | Int z => NilZero.string_of_int (Z.to_int z)
  | Date d => isoformat d
  | NaN => "nan"
  | NaT => "NaT"
  end.

(** [Series.unique()]: the values in order of first appearance. *)
Fixpoint unique_values (l : list string) : list string :=
  match l with
  | [] => []
  | x :: l' => x :: filter (fun y => negb (String.eqb x y)) (unique_values l')
  end.

Fixpoint insert_name (x : string) (l : list string) : list string :=
  match l with
  | [] => [x]
  | y :: l' => if String.leb x y then x :: l else y :: insert_name x l'
  end.

(** [sorted(names)] *)
Fixpoint sorted_names (l : list string) : list string :=
  match l with
  | [] => []
  | x :: l' => insert_name x (sorted_names l')
  end.

(** What [load_colaboradores] shows besides its result. *)
Inductive notice : Type :=
  | Quiet
  | ErrorNoColumn
  | ErrorReading (e : exn)
  | WarningNoFile.

(** [file] is [None] when [COLABORADORES_FILE] does not exist, else what
    [pd.read_excel] comes to. *)
Definition load_colaboradores (file : option (result Frame))
  : list string * notice :=
  match file with
  | Some (Ok df_colaboradores) =>
      if has_column df_colaboradores "Nome_do_Colaborador" then
        match getitem df_colaboradores "Nome_do_Colaborador" with
        | Ok col =>
            (sorted_names
               (unique_values
                  (map cell_str (series (nrows df_colaboradores) col))),
             Quiet)
        | Raise e => ([], ErrorReading e)
        end
      else ([], ErrorNoColumn)
  | Some (Raise e) => ([], ErrorReading e)
  | None => ([], WarningNoFile)
  end.

(** ** The operations, over a text-generation service and a date parser *)

(** The service: its reply to a code, given the codes it was sent before. *)
Variable generate_content : list string -> string -> reply.

(** [pd.to_datetime(column, errors='coerce')]: the instant of each row in
    nanoseconds, [None] where the value is missing or cannot be read. *)
Variable to_datetime : list cell -> list (option Z).

(** *** [load_data] *)

Definition to_date_column (n : nat) (values : nat -> cell) : nat -> cell :=
  fun i => dt_date (nth i (to_datetime (series n values)) None).

Definition read_frame (df : Frame) : result DataFrame :=
  let df := rename df in
  df <- (if negb (has_column df "Tipo")
         then cid <- getitem df "CID" ;;
              Ok (add_column df "Tipo"
                    (fun i => if negb (isna (cid i)) && cell_ne_str (cid i) EmptyString
                              then Str "Atestado" else Str "Atestado"))
         else Ok df) ;;
  let df := if negb (has_column df "Motivo")
            then add_column df "Motivo" (fun _ => Str EmptyString) else df in
  let df := if negb (has_column df "CID")
            then add_column df "CID" (fun _ => Str EmptyString) else df in
  let n := nrows df in
  col <- reindex df ;;
  let inicio := to_date_column n (col Data_de_Inicio) in
  let final := to_date_column n (col Data_Final) in
  let rows :=
    map (fun i => mkRow (col Nome_do_Colaborador i) (inicio i) (col Dias i)
                    (final i) (col CID i) (col Tipo i) (col Motivo i))
        (seq 0 n) in
  (* dropna(subset=['Nome_do_Colaborador']).reset_index(drop=True) *)
  Ok (number_from 0 (filter (fun r => negb (isna (row_nome r))) rows)).

(** [file] is [None] when [DATA_FILE] does not exist, else what
    [pd.read_csv] comes to.  The second component is the exception shown by
    [st.warning], if any. *)
Definition load_data (file : option (result Frame)) : DataFrame * option exn :=
  match file with
  | Some read =>
      match df <- read ;; read_frame df with
      | Ok df => (df, None)
      | Raise e => ([], Some e)
      end
  | None => ([], None)
  end.

(** *** [pesquisar_cid] *)

Definition pesquisar_cid_uncached (sent : list string) (codigo_cid : string)
  : string * list string :=
  let codigo_cid := upper (strip codigo_cid) in
  if negb (truthy codigo_cid) then ("N/A - Nenhum CID fornecido.", sent)
  else
    (match generate_content sent codigo_cid with
     | Text text =>
         let descricao := strip text in
         if contains "CÓDIGO INVÁLIDO" descricao || contains "NÃO ENCONTRADO" descricao
         then "Código não encontrado ou inválido."
         else descricao
     | APIError e =>
         "Erro na API do Gemini: Verifique sua chave e cota. Detalhe: " ++ e
     | OtherException e => "Erro inesperado na pesquisa do CID: " ++ e
     end, codigo_cid :: sent).

(** The function under [@st.cache_data(ttl=3600)]: an answer is stored
    under the argument as passed, with the time of the call. *)
Definition pesquisar_cid (now : Z) (s : session) (codigo_cid : string)
  : string * session :=
  match cache_get now codigo_cid (cache s) with
  | Some v => (v, s)
  | None =>
      let (v, sent) := pesquisar_cid_uncached (calls s) codigo_cid in
      (v, mkSession (df_atestados s) (saved s)
            ((codigo_cid, (now, v)) :: cache s) sent)
  end.

(** *** [add_record], [delete_record], [update_record]

    Each returns the session it leaves; [Raise] means the exception left the
    function before anything was assigned or written.  [now] is the time of
    the call in seconds, which only the cache reads.  The messages shown
    ([st.success]) and the rerun of the page are left out. *)

Definition add_record (now : Z) (s : session) (nome : string)
    (data_inicio : date) (dias : Z) (tipo : string)
    (cid : string) (motivo_texto : string) : result (session * date) :=
  let df := df_atestados s in
  datas <- calcular_datas data_inicio dias ;;
  let (data_final, data_retorno) := datas in
  let '(descricao_final, cid_final, s) :=
    if String.eqb tipo "Atestado" then
      let (descricao_cid, s) := pesquisar_cid now s cid in
      (cid ++ " - " ++ descricao_cid, cid, s)
    else if String.eqb tipo "Folga" then (motivo_texto, EmptyString, s)
    else if String.eqb tipo "Banco de Horas" then
      ("Compensação de Banco de Horas", EmptyString, s)
    else if String.eqb tipo "Falta" then ("Falta", EmptyString, s)
    else (EmptyString, EmptyString, s) in
  let novo_registro :=
    mkRow (Str nome) (Str (strftime_Ymd data_inicio)) (Int dias)
      (Str (strftime_Ymd data_final)) (Str cid_final) (Str tipo)
      (Str descricao_final) in
  let s := mkSession (concat_ignore_index df novo_registro)
             (saved s) (cache s) (calls s) in
  let s := save_data s in
  let s := cache_clear s in
  Ok (s, data_retorno).

Definition delete_record (s : session) (index : Z) : result session :=
  df <- drop (df_atestados s) index ;;
  let s := mkSession (reset_index df) (saved s) (cache s) (calls s) in
  let s := save_data s in
  let s := cache_clear s in
  Ok s.

Definition update_record (now : Z) (s : session) (index : Z) (nome : cell)
    (data_inicio : date) (dias : Z) (cid : string)
    (tipo_original motivo_original : cell) : result (session * date) :=
  let df := df_atestados s in
  datas <- calcular_datas data_inicio dias ;;
  let (data_final, data_retorno) := datas in
  r <- (if cell_eq_str tipo_original "Atestado" then
          stored <- loc df index CID ;;
          if cell_ne_str stored cid then
            let (descricao_cid, s) := pesquisar_cid now s cid in
            Ok (Str (cid ++ " - " ++ descricao_cid), Str cid, s)
          else Ok (motivo_original, Str cid, s)
        else Ok (motivo_original, Str EmptyString, s)) ;;
  let '(new_motive, cid_to_save, s) := r in
  let df := loc_set df index Nome_do_Colaborador nome in
  let df := loc_set df index Data_de_Inicio (Str (strftime_Ymd data_inicio)) in
  let df := loc_set df index Dias (Int dias) in
  let df := loc_set df index Data_Final (Str (strftime_Ymd data_final)) in
  let df := loc_set df index CID cid_to_save in
  let df := loc_set df index Tipo tipo_original in
  let df := loc_set df index Motivo new_motive in
  let s := mkSession df (saved s) (cache s) (calls s) in
  let s := save_data s in
  Ok (s, data_retorno).

(** *** The forms that add a record

    What each form does when it is submitted (the block under
    [if submitted:]), from the values typed in: a name, the start date and
    the day count of its widgets, and the code or the reason as text.  The
    preview of the dates drawn above the button is left out. *)

Definition run (s : session) (r : result (session * date)) : session * outcome :=
  match r with
  | Ok (s', data_retorno) => (s', Success data_retorno)
  | Raise e => (s, Exception e)
  end.

(** [nome.strip() if nome else None]; the name comes from a select box
    ([None] when nothing is chosen) or a text input. *)
Definition nome_final (nome : option string) : option string :=
  match nome with
  | Some n => if truthy n then Some (strip n) else None
  | None => None
  end.

Definition is_filled (nome_final : option string) : bool :=
  match nome_final with
  | Some n => truthy n
  | None => false
  end.

Definition the_name (nome_final : option string) : string :=
  match nome_final with
  | Some n => n
  | None => EmptyString
  end.

Definition new_record_atestado_form (now : Z) (s : session)
    (nome : option string) (data_inicio : date) (dias : Z) (cid_input : string)
  : session * outcome :=
  let cid := strip (upper cid_input) in
  let nome_final := nome_final nome in
  if is_filled nome_final && truthy cid
  then run s (add_record now s (the_name nome_final) data_inicio dias
                "Atestado" cid EmptyString)
  else (s, Error "Por favor, preencha o Nome do Colaborador e o Código CID.").

Definition new_record_banco_form (now : Z) (s : session)
    (nome : option string) (data_inicio : date) (dias : Z)
  : session * outcome :=
  let nome_final := nome_final nome in
  if is_filled nome_final
  then run s (add_record now s (the_name nome_final) data_inicio dias
                "Banco de Horas" EmptyString EmptyString)
  else (s, Error "Por favor, preencha o Nome do Colaborador.").

Definition new_record_falta_form_simple (now : Z) (s : session)
    (nome : option string) (data_inicio : date) (dias : Z)
  : session * outcome :=
  let nome_final := nome_final nome in
  if is_filled nome_final
  then run s (add_record now s (the_name nome_final) data_inicio dias
                "Falta" EmptyString EmptyString)
  else (s, Error "Por favor, preencha o Nome do Colaborador.").

Definition new_record_folga_form_motivo (now : Z) (s : session)
    (nome : option string) (data_inicio : date) (dias : Z) (motivo_input : string)
  : session * outcome :=
  let motivo_livre := strip motivo_input in
  let nome_final := nome_final nome in
  if negb (truthy motivo_livre)
  then (s, Error "Por favor, preencha o Motivo da Folga.")
  else if is_filled nome_final
  then run s (add_record now s (the_name nome_final) data_inicio dias
                "Folga" EmptyString motivo_livre)
  else (s, Error "Por favor, preencha o Nome do Colaborador.").

(** *** The form that edits a record (tab 6)

    What the edit form of the record [row] shown under [index] does when it
    is submitted: the name, the category and the reason go to
    [update_record] as the row has them, the code as typed. *)
Definition edit_form (now : Z) (s : session) (index : Z) (row : Row)
    (edited_data_inicio : date) (edited_dias : Z) (cid_input : string)
  : session * outcome :=
  let edited_cid := strip (upper cid_input) in
  run s (update_record now s index (row_nome row) edited_data_inicio
           edited_dias edited_cid (row_tipo row) (row_motivo row)).

(** *** The complete table (tab 5): most recent first *)

(** [df_display] with its added column [Data_para_Ordenar]. *)
Definition with_sort_key (df : DataFrame) : list (option Z * (Z * Row)) :=
  let keys := to_datetime (map (fun p => row_inicio (snd p)) df) in
  map (fun ip => (nth (fst ip) keys None, snd ip))
      (combine (seq 0 (List.length df)) df).

Definition df_display_sorted (df : DataFrame) : list (option Z * (Z * Row)) :=
  sort_values (with_sort_key df).


(** * Properties *)

(** ** Calendar arithmetic *)

Lemma shiftr5 n : Z.shiftr n 5 = n / 32.
Proof. rewrite Z.shiftr_div_pow2 by lia. reflexivity. Qed.

Lemma div_eq n m q r : n = q * m + r -> 0 <= r < m -> n / m = q.
Proof. intros -> Hr. symmetry. apply Z.div_unique with r; lia. Qed.

Lemma mod_eq n m q r : n = q * m + r -> 0 <= r < m -> n mod m = r.
Proof. intros -> Hr. symmetry. apply Z.mod_unique with q; lia. Qed.

Ltac is_Zlit k :=
  lazymatch k with
  | Z0 => idtac
  | Zpos ?p => is_poslit p
  | Zneg ?p => is_poslit p
  end
with is_poslit p :=
  lazymatch p with
  | xH => idtac
  | xO ?q => is_poslit q
  | xI ?q => is_poslit q
  end.

(** Evaluates table look-ups and comparisons between numerals. *)
Ltac eval_closed :=
  repeat match goal with
  | |- context [tbl ?t ?k] =>
      is_Zlit k; let v := eval vm_compute in (tbl t k) in change (tbl t k) with v
  | H : context [tbl ?t ?k] |- _ =>
      is_Zlit k; let v := eval vm_compute in (tbl t k) in change (tbl t k) with v in H
  | |- context [Z.eqb ?a ?b] =>
      is_Zlit a; is_Zlit b;
      let v := eval vm_compute in (Z.eqb a b) in change (Z.eqb a b) with v
  | H : context [Z.eqb ?a ?b] |- _ =>
      is_Zlit a; is_Zlit b;
      let v := eval vm_compute in (Z.eqb a b) in change (Z.eqb a b) with v in H
  | |- context [Z.ltb ?a ?b] =>
      is_Zlit a; is_Zlit b;
      let v := eval vm_compute in (Z.ltb a b) in change (Z.ltb a b) with v
  | H : context [Z.ltb ?a ?b] |- _ =>
      is_Zlit a; is_Zlit b;
      let v := eval vm_compute in (Z.ltb a b) in change (Z.ltb a b) with v in H
  | |- context [Z.sub ?a ?b] =>
      is_Zlit a; is_Zlit b;
      let v := eval vm_compute in (Z.sub a b) in change (Z.sub a b) with v
  end; cbn [andb orb negb] in *; cbv iota in *.

Ltac month_cases m :=
  let Hc := fresh "Hc" in
  assert (Hc : m = 1 \/ m = 2 \/ m = 3 \/ m = 4 \/ m = 5 \/ m = 6 \/ m = 7
               \/ m = 8 \/ m = 9 \/ m = 10 \/ m = 11 \/ m = 12) by lia;
  repeat (destruct Hc as [Hc | Hc]); subst m.

Lemma locate_ok (lp : bool) (y m d : Z) :
  1 <= m <= 12 ->
  1 <= d <= (if (m =? 2) && lp then 29 else tbl _DAYS_IN_MONTH m) ->
  locate lp y
    (tbl _DAYS_BEFORE_MONTH m + (if (2 <? m) && lp then 1 else 0) + d - 1)
  = mkdate y m d.
Proof.
  intros Hm Hd. unfold locate. cbv zeta.
  month_cases m; destruct lp; eval_closed; rewrite shiftr5.
  all: match goal with
    |- context [ (?e + 50) / 32 ] =>
      let q := fresh "q" in
      remember ((e + 50) / 32) as q eqn:Hq;
      assert (Hq' : 32 * q <= e + 50 < 32 * q + 32) by
        (subst q; pose proof (Z.mul_div_le (e + 50) 32);
         pose proof (Z.mul_succ_div_gt (e + 50) 32); lia);
      clear Hq; month_cases q; try lia; eval_closed
    end.
  all: match goal with
       | |- (if ?a <? ?b then _ else _) = _ =>
           destruct (Z.ltb_spec a b); try lia
       end.
  all: eval_closed; f_equal; lia.
Qed.

Lemma ord2ymd_cycle a b c e r :
  0 <= b < 4 -> 0 <= c < 25 -> 0 <= e < 4 ->
  0 <= r < (if cycle_leap b c e then 366 else 365) ->
  _ord2ymd (146097 * a + 36524 * b + 1461 * c + 365 * e + r + 1)
  = if r =? 365 then mkdate (400 * a + 100 * b + 4 * c + e + 1) 12 31
    else locate (cycle_leap b c e) (400 * a + 100 * b + 4 * c + e + 1) r.
Proof.
  intros Hb Hc He Hr.
  assert (Hlp : cycle_leap b c e = true -> e = 3 /\ (c <> 24 \/ b = 3)).
  { unfold cycle_leap. intros H. apply andb_prop in H as [H1 H2].
    apply orb_prop in H2. rewrite negb_true_iff in H2. lia. }
  unfold _ord2ymd, _DI400Y, _DI100Y, _DI4Y. cbv zeta.
  set (X := 36524 * b + 1461 * c + 365 * e + r).
  assert (HX : 0 <= X < 146097).
  { subst X. destruct (cycle_leap b c e); [specialize (Hlp eq_refl)|]; lia. }
  rewrite (div_eq _ 146097 a X) by (subst X; lia).
  rewrite (mod_eq _ 146097 a X) by (subst X; lia).
  destruct (Z.eqb_spec r 365) as [E365 | N365].
  - (* the last day of a leap year *)
    destruct (cycle_leap b c e) eqn:El; [specialize (Hlp eq_refl)|lia].
    destruct Hlp as [-> Hcb].
    destruct (Z.eq_dec c 24) as [-> | Hc24].
    + assert (b = 3) by lia. subst b r. subst X.
      change (36524 * 3 + 1461 * 24 + 365 * 3 + 365) with 146096.
      change (146096 / 36524) with 4. change (4 =? 4) with true.
      rewrite orb_true_r. change (146096 mod 36524) with 0.
      change (0 mod 1461) with 0. change (0 / 1461) with 0.
      change (0 / 365) with 0. f_equal. lia.
    + set (Y := 1461 * c + 365 * 3 + r).
      rewrite (div_eq X 36524 b Y) by (subst X Y; lia).
      rewrite (mod_eq X 36524 b Y) by (subst X Y; lia).
      rewrite (div_eq Y 1461 c 1460) by (subst Y; lia).
      rewrite (mod_eq Y 1461 c 1460) by (subst Y; lia).
      change (1460 / 365) with 4. change (1460 mod 365) with 0.
      change (4 =? 4) with true. cbn [orb]. f_equal. lia.
  - assert (Hr' : 0 <= r < 365) by (destruct (cycle_leap b c e); lia).
    set (Y := 1461 * c + 365 * e + r).
    assert (HY : 0 <= Y < 36524).
    { subst Y. destruct (cycle_leap b c e); [specialize (Hlp eq_refl)|]; lia. }
    rewrite (div_eq X 36524 b Y) by (subst X Y; lia).
    rewrite (mod_eq X 36524 b Y) by (subst X Y; lia).
    rewrite (div_eq Y 1461 c (365 * e + r)) by (subst Y; lia).
    rewrite (mod_eq Y 1461 c (365 * e + r)) by (subst Y; lia).
    rewrite (div_eq (365 * e + r) 365 e r) by lia.
    rewrite (mod_eq (365 * e + r) 365 e r) by lia.
    destruct (Z.eqb_spec e 4); [lia|].
    destruct (Z.eqb_spec b 4); [lia|].
    cbn [orb]. unfold locate, cycle_leap. cbv zeta.
    replace (a * 400 + 1 + b * 100 + c * 4 + e)
      with (400 * a + 100 * b + 4 * c + e + 1) by lia.
    reflexivity.
Qed.

Lemma year_cycle (y : Z) :
  exists a b c e,
    0 <= b < 4 /\ 0 <= c < 25 /\ 0 <= e < 4 /\
    y = 400 * a + 100 * b + 4 * c + e + 1 /\
    _days_before_year y = 146097 * a + 36524 * b + 1461 * c + 365 * e /\
    _is_leap y = cycle_leap b c e.
Proof.
  exists ((y - 1) / 400), ((y - 1) mod 400 / 100),
    ((y - 1) mod 100 / 4), ((y - 1) mod 4).
  unfold _days_before_year, _is_leap, cycle_leap. cbv zeta.
  repeat split; Z.div_mod_to_equations; lia.
Qed.

Lemma day_of_year_bound (y m d : Z) :
  1 <= m <= 12 -> 1 <= d <= _days_in_month y m ->
  0 <= _days_before_month y m + d - 1 < (if _is_leap y then 366 else 365).
Proof.
  unfold _days_in_month, _days_before_month. intros Hm Hd.
  month_cases m; destruct (_is_leap y); eval_closed; lia.
Qed.

Lemma last_day_of_leap_year (y m d : Z) :
  1 <= m <= 12 -> 1 <= d <= _days_in_month y m ->
  _days_before_month y m + d - 1 = 365 -> m = 12 /\ d = 31.
Proof.
  unfold _days_in_month, _days_before_month. intros Hm Hd.
  month_cases m; destruct (_is_leap y); eval_closed; lia.
Qed.

(** [_ord2ymd] inverts [_ymd2ord] on every date of the calendar. *)
Lemma ord2ymd_ymd2ord (y m d : Z) :
  1 <= m <= 12 -> 1 <= d <= _days_in_month y m ->
  _ord2ymd (_ymd2ord y m d) = mkdate y m d.
Proof.
  intros Hm Hd.
  destruct (year_cycle y) as (a & b & c & e & Hb & Hc & He & Ey & Ed & El).
  pose proof (day_of_year_bound y m d Hm Hd) as Hr.
  unfold _ymd2ord. rewrite Ed.
  replace (146097 * a + 36524 * b + 1461 * c + 365 * e
           + _days_before_month y m + d)
    with (146097 * a + 36524 * b + 1461 * c + 365 * e
          + (_days_before_month y m + d - 1) + 1) by lia.
  rewrite ord2ymd_cycle by (rewrite <- ?El; assumption).
  rewrite <- Ey, <- El.
  destruct (Z.eqb_spec (_days_before_month y m + d - 1) 365) as [E | E].
  - destruct (last_day_of_leap_year y m d Hm Hd E) as [-> ->]. reflexivity.
  - unfold _days_before_month. apply locate_ok; [assumption|].
    unfold _days_in_month in Hd. exact Hd.
Qed.

Lemma valid_date_spec (d : date) :
  valid_date d = true <->
  1 <= year d <= 9999 /\ 1 <= month d <= 12
  /\ 1 <= day d <= _days_in_month (year d) (month d).
Proof. unfold valid_date, MINYEAR, MAXYEAR. lia. Qed.

Lemma days_in_month_range (y m : Z) :
  1 <= m <= 12 -> 28 <= _days_in_month y m <= 31.
Proof.
  intros Hm. unfold _days_in_month.
  month_cases m; destruct (_is_leap y); eval_closed; lia.
Qed.

Lemma next_day_calendar (d : date) :
  1 <= month d <= 12 -> 1 <= day d <= _days_in_month (year d) (month d) ->
  1 <= month (next_day d) <= 12
  /\ 1 <= day (next_day d)
          <= _days_in_month (year (next_day d)) (month (next_day d)).
Proof.
  destruct d as [y m dd]. unfold next_day. cbn [year month day]. intros Hm Hd.
  destruct (Z.ltb_spec dd (_days_in_month y m)); cbn [year month day].
  - lia.
  - destruct (Z.ltb_spec m 12); cbn [year month day].
    + pose proof (days_in_month_range y (m + 1)). lia.
    + pose proof (days_in_month_range (y + 1) 1). lia.
Qed.

Lemma days_before_next_month (y m : Z) :
  1 <= m < 12 ->
  _days_before_month y (m + 1) = _days_before_month y m + _days_in_month y m.
Proof.
  intros Hm. unfold _days_before_month, _days_in_month.
  month_cases m; try lia; destruct (_is_leap y);
    repeat match goal with
    | |- context [Z.add ?a ?b] =>
        is_Zlit a; is_Zlit b;
        let v := eval vm_compute in (Z.add a b) in change (Z.add a b) with v
    end; eval_closed; reflexivity.
Qed.

Lemma days_before_next_year (y : Z) :
  _days_before_year (y + 1)
  = _days_before_year y + _days_before_month y 12 + _days_in_month y 12.
Proof.
  unfold _days_before_month, _days_in_month. eval_closed.
  unfold _days_before_year, _is_leap. cbv zeta.
  replace (y + 1 - 1) with y by lia.
  destruct ((y mod 4 =? 0) && (negb (y mod 100 =? 0) || (y mod 400 =? 0)))
    eqn:E; Z.div_mod_to_equations; lia.
Qed.

(** The ordinal of the day after is the next ordinal. *)
Lemma toordinal_next_day (d : date) :
  1 <= month d <= 12 -> 1 <= day d <= _days_in_month (year d) (month d) ->
  toordinal (next_day d) = toordinal d + 1.
Proof.
  destruct d as [y m dd]. unfold toordinal, next_day, _ymd2ord.
  cbn [year month day]. intros Hm Hd.
  destruct (Z.ltb_spec dd (_days_in_month y m)); cbn [year month day].
  - lia.
  - destruct (Z.ltb_spec m 12); cbn [year month day].
    + rewrite days_before_next_month by lia. lia.
    + assert (m = 12) by lia. subst m.
      rewrite days_before_next_year.
      change (_days_before_month (y + 1) 1) with (0 + 0).
      lia.
Qed.

(** Adding [k] days through ordinals is taking the next day [k] times. *)
Lemma fromordinal_add_days (k : nat) (d : date) :
  1 <= month d <= 12 -> 1 <= day d <= _days_in_month (year d) (month d) ->
  fromordinal (toordinal d + Z.of_nat k) = add_days k d.
Proof.
  revert d. induction k as [|k IH]; intros d Hm Hd.
  - cbn [add_days]. rewrite Z.add_0_r. destruct d as [y m dd].
    apply ord2ymd_ymd2ord; assumption.
  - cbn [add_days].
    destruct (next_day_calendar d Hm Hd) as [Hm' Hd'].
    rewrite <- IH by assumption.
    rewrite toordinal_next_day by assumption. f_equal. lia.
Qed.

Lemma toordinal_range (d : date) :
  valid_date d = true -> 1 <= toordinal d <= _MAXORDINAL.
Proof.
  rewrite valid_date_spec. intros (Hy & Hm & Hd).
  pose proof (day_of_year_bound _ _ _ Hm Hd) as Hb.
  unfold toordinal, _ymd2ord, _MAXORDINAL.
  assert (0 <= _days_before_year (year d)
          /\ _days_before_year (year d)
             + (if _is_leap (year d) then 366 else 365) <= 3652059).
  { unfold _days_before_year, _is_leap. cbv zeta.
    destruct ((year d mod 4 =? 0)
              && (negb (year d mod 100 =? 0) || (year d mod 400 =? 0))) eqn:E;
      Z.div_mod_to_equations; lia. }
  destruct (_is_leap (year d)); lia.
Qed.

(** *** Text form *)

Lemma digit_val_digit (v : Z) : 0 <= v <= 9 -> digit_val (digit v) = Some v.
Proof.
  intros Hv. rewrite <- (Z2Nat.id v) by lia.
  assert (Hk : (Z.to_nat v < 10)%nat) by lia.
  revert Hk. generalize (Z.to_nat v) as k. intros k Hk.
  do 10 (destruct k as [|k]; [reflexivity|]). lia.
Qed.

Lemma num2_digits (a b : Z) :
  0 <= a <= 9 -> 0 <= b <= 9 -> num2 (digit a) (digit b) = Some (10 * a + b).
Proof.
  intros Ha Hb. unfold num2. rewrite !digit_val_digit by assumption.
  reflexivity.
Qed.

(** Reading back the text of a date gives the date. *)
Lemma strptime_isoformat (d : date) :
  valid_date d = true -> strptime_Ymd (isoformat d) = Ok d.
Proof.
  intros Hv. pose proof Hv as Hs. rewrite valid_date_spec in Hs.
  destruct Hs as (Hy & Hm & Hd).
  pose proof (days_in_month_range (year d) (month d) Hm) as Hdim.
  destruct d as [y m dd]. cbn [year month day] in *.
  unfold isoformat, pad4, pad2. cbn [year month day append].
  cbv beta iota delta [strptime_Ymd].
  change (Ascii.eqb "-" "-") with true.
  rewrite !num2_digits by (Z.div_mod_to_equations; lia).
  cbv zeta.
  replace (100 * (10 * (y / 1000 mod 10) + y / 100 mod 10)
           + (10 * (y / 10 mod 10) + y mod 10)) with y
    by (Z.div_mod_to_equations; lia).
  replace (10 * (m / 10 mod 10) + m mod 10) with m
    by (Z.div_mod_to_equations; lia).
  replace (10 * (dd / 10 mod 10) + dd mod 10) with dd
    by (Z.div_mod_to_equations; lia).
  rewrite Hv. reflexivity.
Qed.

Lemma add_days_calendar (k : nat) (d : date) :
  1 <= month d <= 12 -> 1 <= day d <= _days_in_month (year d) (month d) ->
  1 <= month (add_days k d) <= 12
  /\ 1 <= day (add_days k d)
          <= _days_in_month (year (add_days k d)) (month (add_days k d))
  /\ toordinal (add_days k d) = toordinal d + Z.of_nat k.
Proof.
  revert d. induction k as [|k IH]; intros d Hm Hd; cbn [add_days].
  - repeat split; try tauto; lia.
  - destruct (next_day_calendar d Hm Hd) as [Hm' Hd'].
    destruct (IH (next_day d) Hm' Hd') as (H1 & H2 & H3).
    rewrite toordinal_next_day in H3 by assumption.
    repeat split; try tauto; lia.
Qed.

(** A calendar date whose ordinal is in range is a [date]. *)
Lemma valid_of_ordinal_range (d : date) :
  1 <= month d <= 12 -> 1 <= day d <= _days_in_month (year d) (month d) ->
  1 <= toordinal d <= _MAXORDINAL -> valid_date d = true.
Proof.
  intros Hm Hd Ho. apply valid_date_spec. split; [| split; assumption].
  pose proof (day_of_year_bound _ _ _ Hm Hd) as Hb.
  unfold toordinal, _ymd2ord, _MAXORDINAL in Ho.
  assert (Hy : (year d <= 0 ->
                _days_before_year (year d)
                + (if _is_leap (year d) then 366 else 365) <= 0)
               /\ (10000 <= year d -> 3652059 <= _days_before_year (year d))).
  { unfold _days_before_year, _is_leap. cbv zeta.
    destruct ((year d mod 4 =? 0)
              && (negb (year d mod 100 =? 0) || (year d mod 400 =? 0))) eqn:E;
      split; intros; Z.div_mod_to_equations; lia. }
  destruct (_is_leap (year d)); lia.
Qed.

(** ** The date calculator *)

(** C1, as amended: for a start date and a day count of at least 1,
    [calcular_datas] returns the end date [dias - 1] calendar days after the
    start (the next day taken [dias - 1] times, with month, year and leap-year
    rollover) and the return date one day after the end, both dates of the
    calendar, as long as the return date is not after 9999-12-31; beyond
    that it raises [OverflowError].  A one-day absence ends on its start
    date, and the two worked examples of the specification hold. *)
Theorem calcular_datas_spec (data_inicio : date) (dias : Z) :
  valid_date data_inicio = true -> 1 <= dias ->
  let data_final := add_days (Z.to_nat (dias - 1)) data_inicio in
  calcular_datas data_inicio dias
  = (if toordinal data_inicio + dias <=? _MAXORDINAL
     then Ok (data_final, next_day data_final)
     else Raise OverflowError)
  /\ toordinal data_final = toordinal data_inicio + (dias - 1)
  /\ (toordinal data_inicio + dias <= _MAXORDINAL ->
      valid_date data_final = true /\ valid_date (next_day data_final) = true)
  /\ (dias = 1 -> data_final = data_inicio)
  /\ calcular_datas (mkdate 2024 1 30) 3 = Ok (mkdate 2024 2 1, mkdate 2024 2 2)
  /\ calcular_datas (mkdate 2024 2 28) 2 = Ok (mkdate 2024 2 29, mkdate 2024 3 1).
Proof.
  intros Hv Hdias data_final.
  pose proof (toordinal_range _ Hv) as Hord.
  pose proof Hv as Hs. rewrite valid_date_spec in Hs.
  destruct Hs as (_ & Hm & Hd).
  destruct (add_days_calendar (Z.to_nat (dias - 1)) data_inicio Hm Hd)
    as (Hm' & Hd' & Hto).
  fold data_final in Hm', Hd', Hto.
  rewrite Z2Nat.id in Hto by lia.
  split; [| split; [exact Hto | split; [| split; [| split; reflexivity]]]].
  2:{ intros Hin.
      destruct (next_day_calendar data_final Hm' Hd') as [Hm2 Hd2].
      pose proof (toordinal_next_day data_final Hm' Hd') as Hn.
      split; apply valid_of_ordinal_range; try assumption; lia. }
  - unfold calcular_datas. rewrite strptime_isoformat by assumption.
    cbn [bind]. unfold timedelta, date_add, _MAXORDINAL in *.
    destruct (Z.leb_spec (toordinal data_inicio + dias) 3652059) as [Hin | Hout].
    + replace ((-999999999 <=? dias - 1) && (dias - 1 <=? 999999999)) with true
        by lia.
      cbn [bind].
      replace ((0 <? toordinal data_inicio + (dias - 1))
               && (toordinal data_inicio + (dias - 1) <=? 3652059)) with true
        by lia.
      cbn [bind].
      replace (fromordinal (toordinal data_inicio + (dias - 1)))
        with data_final.
      2:{ subst data_final. rewrite <- fromordinal_add_days by assumption.
          rewrite Z2Nat.id by lia. reflexivity. }
      change ((-999999999 <=? 1) && (1 <=? 999999999)) with true. cbn [bind].
      rewrite Hto.
      replace ((0 <? toordinal data_inicio + (dias - 1) + 1)
               && (toordinal data_inicio + (dias - 1) + 1 <=? 3652059))
        with true by lia.
      cbn [bind]. rewrite <- Hto.
      pose proof (fromordinal_add_days 1 data_final Hm' Hd') as Hn.
      change (Z.of_nat 1) with 1 in Hn. rewrite Hn. reflexivity.
    + destruct ((-999999999 <=? dias - 1) && (dias - 1 <=? 999999999));
        cbn [bind]; [| reflexivity].
      destruct ((0 <? toordinal data_inicio + (dias - 1))
                && (toordinal data_inicio + (dias - 1) <=? 3652059)) eqn:E;
        cbn [bind]; [| reflexivity].
      replace (fromordinal (toordinal data_inicio + (dias - 1)))
        with data_final.
      2:{ subst data_final. rewrite <- fromordinal_add_days by assumption.
          rewrite Z2Nat.id by lia. reflexivity. }
      change ((-999999999 <=? 1) && (1 <=? 999999999)) with true. cbn [bind].
      rewrite Hto.
      replace ((0 <? toordinal data_inicio + (dias - 1) + 1)
               && (toordinal data_inicio + (dias - 1) + 1 <=? 3652059))
        with false by lia.
      reflexivity.
  - intros ->. reflexivity.
Qed.

(** ** White space and upper case *)

Lemma before_stripped_cases (c : ascii) (r : string) :
  before_stripped c r = EmptyString \/ before_stripped c r = String c r.
Proof.
  unfold before_stripped. destruct r as [|c2 [|c3 [|c4 r]]].
  - destruct (is_space c); auto.
  - destruct (space2 c c2); auto.
  - destruct (space3 c c2 c3); auto.
  - auto.
Qed.

Lemma before_stripped_fixed (c : ascii) (r : string) :
  before_stripped c r = String c r -> rstrip r = r ->
  rstrip (String c r) = String c r.
Proof. intros H Hr. cbn [rstrip]. rewrite Hr. exact H. Qed.

Lemma rstrip_idem (s : string) : rstrip (rstrip s) = rstrip s.
Proof.
  induction s as [|c s IH]; [reflexivity|]. cbn [rstrip].
  destruct (before_stripped_cases c (rstrip s)) as [E | E]; rewrite E;
    [reflexivity|].
  apply before_stripped_fixed; assumption.
Qed.

(** What [rstrip] returns is the start of its argument. *)
Lemma rstrip_prefix (s : string) : exists t, s = rstrip s ++ t.
Proof.
  induction s as [|c s [t IH]]; [exists EmptyString; reflexivity|].
  cbn [rstrip].
  destruct (before_stripped_cases c (rstrip s)) as [E | E]; rewrite E.
  - exists (String c s). reflexivity.
  - exists t. cbn [append]. rewrite <- IH. reflexivity.
Qed.

Lemma starts_space_app (p t : string) :
  starts_space p = true -> starts_space (p ++ t) = true.
Proof.
  destruct p as [|c1 [|c2 [|c3 p]]]; cbn [starts_space append].
  - discriminate.
  - rewrite orb_false_r. intros ->. reflexivity.
  - rewrite orb_false_r. intros H. apply orb_true_iff in H as [-> | ->];
      [reflexivity|]. destruct t; rewrite ?orb_true_r; reflexivity.
  - trivial.
Qed.

Lemma rstrip_starts_space (s : string) :
  starts_space s = false -> starts_space (rstrip s) = false.
Proof.
  intros H. destruct (starts_space (rstrip s)) eqn:E; [| reflexivity].
  destruct (rstrip_prefix s) as [t Ht].
  apply starts_space_app with (t := t) in E. rewrite <- Ht in E. congruence.
Qed.

Lemma lstrip_fixed (s : string) : starts_space s = false -> lstrip s = s.
Proof.
  destruct s as [|c1 [|c2 [|c3 s]]]; cbn [starts_space lstrip]; intros H.
  - reflexivity.
  - rewrite orb_false_r in H. rewrite H. reflexivity.
  - rewrite orb_false_r in H. apply orb_false_iff in H as [-> ->]. reflexivity.
  - apply orb_false_iff in H as [-> H]. apply orb_false_iff in H as [-> ->].
    reflexivity.
Qed.

(** A property of every text follows from its being kept by the three
    ways [lstrip] goes on: past one, two or three bytes. *)
Lemma lstrip_ind (P : string -> Prop) :
  P EmptyString ->
  (forall c1 s1, is_space c1 = true -> P s1 -> P (String c1 s1)) ->
  (forall c1 c2 s2, is_space c1 = false -> space2 c1 c2 = true ->
                    P s2 -> P (String c1 (String c2 s2))) ->
  (forall c1 c2 c3 s3, is_space c1 = false -> space2 c1 c2 = false ->
                       space3 c1 c2 c3 = true ->
                       P s3 -> P (String c1 (String c2 (String c3 s3)))) ->
  (forall s, s <> EmptyString -> starts_space s = false -> P s) ->
  forall s, P s.
Proof.
  intros H0 H1 H2 H3 Hn.
  assert (H : forall n s, (String.length s <= n)%nat -> P s).
  { induction n as [|n IH]; intros s Hs.
    - destruct s; [exact H0 | cbn in Hs; lia].
    - destruct s as [|c1 s1]; [exact H0|].
      destruct (is_space c1) eqn:E1.
      { apply H1; [exact E1|]. apply IH. cbn in Hs. lia. }
      destruct s1 as [|c2 s2].
      { apply Hn; [discriminate|]. cbn. rewrite E1. reflexivity. }
      destruct (space2 c1 c2) eqn:E2.
      { apply H2; try assumption. apply IH. cbn in Hs. lia. }
      destruct s2 as [|c3 s3].
      { apply Hn; [discriminate|]. cbn. rewrite E1, E2. reflexivity. }
      destruct (space3 c1 c2 c3) eqn:E3.
      { apply H3; try assumption. apply IH. cbn in Hs. lia. }
      apply Hn; [discriminate|]. cbn. rewrite E1, E2, E3. reflexivity. }
  intros s. apply (H (String.length s)). lia.
Qed.

Lemma lstrip_starts_space (s : string) : starts_space (lstrip s) = false.
Proof.
  induction s as [| c1 s1 E1 IH | c1 c2 s2 E1 E2 IH | c1 c2 c3 s3 E1 E2 E3 IH
                  | s Hs Hn] using lstrip_ind.
  - reflexivity.
  - cbn [lstrip]. rewrite E1. exact IH.
  - cbn [lstrip]. rewrite E1, E2. exact IH.
  - cbn [lstrip]. rewrite E1, E2, E3. exact IH.
  - rewrite lstrip_fixed by assumption. assumption.
Qed.

Lemma strip_idem (s : string) : strip (strip s) = strip s.
Proof.
  unfold strip.
  rewrite (lstrip_fixed (rstrip (lstrip s)))
    by apply rstrip_starts_space, lstrip_starts_space.
  apply rstrip_idem.
Qed.

(** *** Upper case of ASCII text *)

Lemma is_space_upper_char (c : ascii) : is_space (upper_char c) = is_space c.
Proof.
  destruct c as [b0 b1 b2 b3 b4 b5 b6 b7].
  destruct b0, b1, b2, b3, b4, b5, b6, b7; reflexivity.
Qed.

Lemma upper_char_idem (c : ascii) : upper_char (upper_char c) = upper_char c.
Proof.
  destruct c as [b0 b1 b2 b3 b4 b5 b6 b7].
  destruct b0, b1, b2, b3, b4, b5, b6, b7; reflexivity.
Qed.

Lemma high_upper_char (c : ascii) : high (upper_char c) = high c.
Proof.
  destruct c as [b0 b1 b2 b3 b4 b5 b6 b7].
  destruct b0, b1, b2, b3, b4, b5, b6, b7; reflexivity.
Qed.

Lemma upper_char_low (c : ascii) :
  (nat_of_ascii (upper_char c) <? 128)%nat = (nat_of_ascii c <? 128)%nat.
Proof.
  destruct c as [b0 b1 b2 b3 b4 b5 b6 b7].
  destruct b0, b1, b2, b3, b4, b5, b6, b7; reflexivity.
Qed.

Lemma space2_upper_char (c1 c2 : ascii) :
  space2 (upper_char c1) (upper_char c2) = space2 c1 c2.
Proof. unfold space2. rewrite !high_upper_char. reflexivity. Qed.

Lemma space3_upper_char (c1 c2 c3 : ascii) :
  space3 (upper_char c1) (upper_char c2) (upper_char c3) = space3 c1 c2 c3.
Proof. unfold space3. rewrite !high_upper_char. reflexivity. Qed.

Lemma upper_ascii_idem (s : string) : upper_ascii (upper_ascii s) = upper_ascii s.
Proof.
  induction s as [|c s IH]; cbn [upper_ascii]; [reflexivity|].
  rewrite upper_char_idem, IH. reflexivity.
Qed.

Lemma starts_space_upper_ascii (s : string) :
  starts_space (upper_ascii s) = starts_space s.
Proof.
  destruct s as [|c1 [|c2 [|c3 s]]]; cbn [upper_ascii starts_space];
    rewrite ?is_space_upper_char, ?space2_upper_char, ?space3_upper_char;
    reflexivity.
Qed.

Lemma upper_ascii_lstrip (s : string) :
  upper_ascii (lstrip s) = lstrip (upper_ascii s).
Proof.
  induction s as [| c1 s1 E1 IH | c1 c2 s2 E1 E2 IH | c1 c2 c3 s3 E1 E2 E3 IH
                  | s Hs Hn] using lstrip_ind.
  - reflexivity.
  - cbn [lstrip upper_ascii]. rewrite is_space_upper_char, E1. exact IH.
  - cbn [lstrip upper_ascii].
    rewrite is_space_upper_char, E1, space2_upper_char, E2. exact IH.
  - cbn [lstrip upper_ascii].
    rewrite is_space_upper_char, E1, space2_upper_char, E2,
      space3_upper_char, E3.
    exact IH.
  - rewrite (lstrip_fixed s Hn). symmetry. apply lstrip_fixed.
    rewrite starts_space_upper_ascii. exact Hn.
Qed.

Lemma upper_ascii_before_stripped (c : ascii) (r : string) :
  upper_ascii (before_stripped c r)
  = before_stripped (upper_char c) (upper_ascii r).
Proof.
  destruct r as [|c2 [|c3 [|c4 r]]]; cbn [before_stripped upper_ascii].
  - rewrite is_space_upper_char. destruct (is_space c); reflexivity.
  - rewrite space2_upper_char. destruct (space2 c c2); reflexivity.
  - rewrite space3_upper_char. destruct (space3 c c2 c3); reflexivity.
  - reflexivity.
Qed.

Lemma upper_ascii_rstrip (s : string) :
  upper_ascii (rstrip s) = rstrip (upper_ascii s).
Proof.
  induction s as [|c s IH]; cbn [upper_ascii rstrip]; [reflexivity|].
  rewrite <- IH. apply upper_ascii_before_stripped.
Qed.

Lemma upper_ascii_strip (s : string) :
  upper_ascii (strip s) = strip (upper_ascii s).
Proof. unfold strip. rewrite upper_ascii_rstrip, upper_ascii_lstrip. reflexivity. Qed.

Lemma ascii_text_upper_ascii (s : string) :
  ascii_text (upper_ascii s) = ascii_text s.
Proof.
  induction s as [|c s IH]; cbn [upper_ascii ascii_text]; [reflexivity|].
  rewrite upper_char_low, IH. reflexivity.
Qed.

Lemma ascii_text_app (p t : string) :
  ascii_text (p ++ t) = ascii_text p && ascii_text t.
Proof.
  induction p as [|c p IH]; cbn [append ascii_text]; [reflexivity|].
  rewrite IH. apply andb_assoc.
Qed.

Lemma ascii_text_lstrip (s : string) :
  ascii_text s = true -> ascii_text (lstrip s) = true.
Proof.
  induction s as [| c1 s1 E1 IH | c1 c2 s2 E1 E2 IH | c1 c2 c3 s3 E1 E2 E3 IH
                  | s Hs Hn] using lstrip_ind; cbn [lstrip ascii_text];
    rewrite ?E1, ?E2, ?E3; intros H.
  - reflexivity.
  - apply IH. apply andb_prop in H as [_ H]. exact H.
  - apply IH. apply andb_prop in H as [_ H]. apply andb_prop in H as [_ H].
    exact H.
  - apply IH. apply andb_prop in H as [_ H]. apply andb_prop in H as [_ H].
    apply andb_prop in H as [_ H]. exact H.
  - rewrite lstrip_fixed by assumption. exact H.
Qed.

Lemma ascii_text_strip (s : string) :
  ascii_text s = true -> ascii_text (strip s) = true.
Proof.
  intros H. unfold strip. apply ascii_text_lstrip in H.
  destruct (rstrip_prefix (lstrip s)) as [t Ht]. rewrite Ht in H.
  rewrite ascii_text_app in H. apply andb_prop in H as [H _]. exact H.
Qed.

(** *** [str.upper]

    Two facts about Unicode's tables, both true of Python's [str.upper]:
    what it returns is in upper case already, and putting a text in upper
    case neither makes nor removes white space at its ends. *)

Section Normalized.

Hypothesis upper_wide_fixed :
  forall s, ascii_text s = false -> upper (upper_wide s) = upper_wide s.
Hypothesis upper_wide_strip :
  forall s, ascii_text s = false -> upper (strip s) = strip (upper_wide s).

Lemma upper_idem (s : string) : upper (upper s) = upper s.
Proof.
  unfold upper at 2 3. destruct (ascii_text s) eqn:E.
  - unfold upper. rewrite ascii_text_upper_ascii, E. apply upper_ascii_idem.
  - apply upper_wide_fixed. exact E.
Qed.

Lemma upper_strip (s : string) : upper (strip s) = strip (upper s).
Proof.
  unfold upper at 2. destruct (ascii_text s) eqn:E.
  - unfold upper. rewrite (ascii_text_strip s E). apply upper_ascii_strip.
  - apply upper_wide_strip. exact E.
Qed.

Lemma normalized_code_fixed (c : string) :
  upper (strip (strip (upper c))) = strip (upper c).
Proof. rewrite strip_idem, upper_strip, upper_idem. reflexivity. Qed.

Lemma normalize_twice (c : string) :
  upper (strip (upper (strip c))) = upper (strip c).
Proof. rewrite <- (upper_strip (strip c)), strip_idem, upper_idem. reflexivity. Qed.

End Normalized.

(** ** Adding records *)

Lemma records_number_from (k : Z) (rs : list Row) :
  records (number_from k rs) = rs.
Proof.
  revert k. induction rs as [|r rs IH]; intros k; cbn; [reflexivity|].
  unfold records in IH. rewrite IH. reflexivity.
Qed.

(** A lookup touches the cache and the service only. *)
Lemma pesquisar_cid_frame (now : Z) (s : session) (codigo_cid : string) :
  df_atestados (snd (pesquisar_cid now s codigo_cid)) = df_atestados s
  /\ saved (snd (pesquisar_cid now s codigo_cid)) = saved s.
Proof.
  unfold pesquisar_cid.
  destruct (cache_get now codigo_cid (cache s)); [split; reflexivity|].
  destruct (pesquisar_cid_uncached (calls s) codigo_cid). split; reflexivity.
Qed.

(** What [add_record] leaves when the dates can be computed. *)
Lemma add_record_ok (now : Z) (s : session) (nome : string) (data_inicio : date)
    (dias : Z) (tipo cid motivo_texto : string) (data_final data_retorno : date) :
  calcular_datas data_inicio dias = Ok (data_final, data_retorno) ->
  exists s' novo,
    add_record now s nome data_inicio dias tipo cid motivo_texto
    = Ok (s', data_retorno)
    /\ records (df_atestados s') = (records (df_atestados s) ++ [novo])%list
    /\ saved s' = df_atestados s' :: saved s
    /\ cache s' = []
    /\ calls s' = (if String.eqb tipo "Atestado"
                   then calls (snd (pesquisar_cid now s cid)) else calls s)
    /\ novo = mkRow (Str nome) (Str (strftime_Ymd data_inicio)) (Int dias)
                (Str (strftime_Ymd data_final))
                (Str (if String.eqb tipo "Atestado" then cid else EmptyString))
                (Str tipo)
                (Str (if String.eqb tipo "Atestado"
                      then cid ++ " - " ++ fst (pesquisar_cid now s cid)
                      else if String.eqb tipo "Folga" then motivo_texto
                      else if String.eqb tipo "Banco de Horas"
                      then "Compensação de Banco de Horas"
                      else if String.eqb tipo "Falta" then "Falta"
                      else EmptyString)).
Proof.
  intros Hd. unfold add_record. rewrite Hd. cbn [bind].
  destruct (String.eqb tipo "Atestado").
  - destruct (pesquisar_cid_frame now s cid) as [_ Hsaved].
    destruct (pesquisar_cid now s cid) as [descricao s1].
    cbn [snd] in Hsaved.
    eexists. eexists. split; [reflexivity|].
    cbn [df_atestados saved cache calls save_data cache_clear fst snd].
    unfold concat_ignore_index. rewrite records_number_from, Hsaved.
    repeat split; reflexivity.
  - destruct (String.eqb tipo "Folga");
      [| destruct (String.eqb tipo "Banco de Horas");
         [| destruct (String.eqb tipo "Falta")]].
    all: eexists; eexists; (split; [reflexivity|]);
      cbn [df_atestados saved cache calls save_data cache_clear fst snd];
      unfold concat_ignore_index; rewrite records_number_from;
      repeat split; reflexivity.
Qed.

Section CertificateForm.

(** The two facts about Unicode's tables, as above. *)
Hypothesis upper_wide_fixed :
  forall s, ascii_text s = false -> upper (upper_wide s) = upper_wide s.
Hypothesis upper_wide_strip :
  forall s, ascii_text s = false -> upper (strip s) = strip (upper_wide s).

(** C2: a certificate added through its form with the code [c] typed in is
    stored with the code in upper case and trimmed ([c.upper().strip()],
    whatever characters it has), and with the reason made of that code,
    [" - "] and the text looked up for it (the lookup's own normalization
    leaves that code as it is); typing [m54] stores the code [M54]. *)
Theorem atestado_form_stores_normalized_code (now : Z) (s : session)
    (nome : option string) (data_inicio : date) (dias : Z) (c : string)
    (data_final data_retorno : date) :
  is_filled (nome_final nome) = true ->
  truthy (strip (upper c)) = true ->
  calcular_datas data_inicio dias = Ok (data_final, data_retorno) ->
  let code := strip (upper c) in
  let lookup := fst (pesquisar_cid now s code) in
  exists s',
    new_record_atestado_form now s nome data_inicio dias c
    = (s', Success data_retorno)
    /\ records (df_atestados s')
       = (records (df_atestados s)
          ++ [mkRow (Str (the_name (nome_final nome)))
                (Str (strftime_Ymd data_inicio)) (Int dias)
                (Str (strftime_Ymd data_final))
                (Str code) (Str "Atestado") (Str (code ++ " - " ++ lookup))])%list
    /\ saved s' = df_atestados s' :: saved s
    /\ upper (strip code) = code
    /\ strip (upper "m54") = "M54".
Proof.
  intros Hn Hc Hd code lookup.
  destruct (add_record_ok now s (the_name (nome_final nome)) data_inicio dias
              "Atestado" code EmptyString data_final data_retorno Hd)
    as (s' & novo & Hadd & Hrec & Hsav & _ & _ & Hnovo).
  exists s'. unfold new_record_atestado_form. cbv zeta.
  fold code in Hc |- *. rewrite Hn, Hc. cbn [andb]. rewrite Hadd. cbn [run].
  rewrite Hrec, Hnovo.
  repeat split; try assumption; try reflexivity.
  apply (normalized_code_fixed upper_wide_fixed upper_wide_strip).
Qed.

End CertificateForm.

(** C6: a form whose name is empty, a certificate form whose code is empty
    and a leave form whose reason is empty report an error and leave the
    session as it was: no record, no write to the file, no lookup. *)
Theorem forms_validate_before_adding (now : Z) (s : session)
    (nome : option string) (data_inicio : date) (dias : Z)
    (cid_input motivo_input : string) :
  (is_filled (nome_final nome) = false ->
     (exists m, new_record_atestado_form now s nome data_inicio dias cid_input
                = (s, Error m))
     /\ (exists m, new_record_banco_form now s nome data_inicio dias
                   = (s, Error m))
     /\ (exists m, new_record_falta_form_simple now s nome data_inicio dias
                   = (s, Error m))
     /\ (exists m, new_record_folga_form_motivo now s nome data_inicio dias
                     motivo_input = (s, Error m)))
  /\ (truthy (strip (upper cid_input)) = false ->
      exists m, new_record_atestado_form now s nome data_inicio dias cid_input
                = (s, Error m))
  /\ (truthy (strip motivo_input) = false ->
      exists m, new_record_folga_form_motivo now s nome data_inicio dias
                  motivo_input = (s, Error m))
  /\ is_filled (nome_final None) = false
  /\ is_filled (nome_final (Some EmptyString)) = false.
Proof.
  unfold new_record_atestado_form, new_record_banco_form,
    new_record_falta_form_simple, new_record_folga_form_motivo. cbv zeta.
  split; [| split; [| split; [| split; reflexivity]]].
  - intros ->. cbn [andb negb].
    destruct (truthy (strip motivo_input)); cbn [negb];
      repeat split; eexists; reflexivity.
  - intros ->. rewrite andb_false_r. eexists. reflexivity.
  - intros ->. eexists. reflexivity.
Qed.

(** ** Updating and deleting records *)

Lemma has_label_map_at (df : DataFrame) (index i : Z) (f : Row -> Row) :
  has_label (map (at_label i f) df) index = has_label df index.
Proof.
  unfold has_label, labels. rewrite map_map. f_equal.
  apply map_ext. intros p. unfold at_label.
  destruct (fst p =? i); reflexivity.
Qed.

Lemma has_label_filter (df : DataFrame) (index : Z) :
  has_label df index = false <-> filter (fun p => fst p =? index) df = [].
Proof.
  unfold has_label, labels. induction df as [|p df IH]; cbn; [tauto|].
  rewrite (Z.eqb_sym index (fst p)).
  destruct (fst p =? index); cbn; [split; discriminate | exact IH].
Qed.

Lemma map_at_absent (df : DataFrame) (index : Z) (f : Row -> Row) :
  has_label df index = false -> map (at_label index f) df = df.
Proof.
  unfold has_label, labels. induction df as [|p df IH]; cbn; [reflexivity|].
  rewrite (Z.eqb_sym index (fst p)). intros H.
  apply orb_false_iff in H as [H1 H2].
  unfold at_label at 1. rewrite H1, IH by assumption. reflexivity.
Qed.

Lemma has_label_app_same (df : DataFrame) (index : Z) (r : Row) :
  has_label (df ++ [(index, r)])%list index = true.
Proof.
  unfold has_label, labels. rewrite map_app, existsb_app. cbn.
  rewrite Z.eqb_refl, orb_true_r. reflexivity.
Qed.

Lemma at_label_at_label (i : Z) (f g : Row -> Row) (p : Z * Row) :
  at_label i f (at_label i g p) = at_label i (fun r => f (g r)) p.
Proof.
  unfold at_label. destruct (fst p =? i) eqn:E; cbn [fst snd]; rewrite E;
    reflexivity.
Qed.

(** The seven assignments of [update_record] on a label the frame has:
    the rows under it become the new record. *)
Lemma seven_sets_present (df : DataFrame) (index : Z) (v1 v2 v3 v4 v5 v6 v7 : cell) :
  has_label df index = true ->
  loc_set (loc_set (loc_set (loc_set (loc_set (loc_set (loc_set df
    index Nome_do_Colaborador v1) index Data_de_Inicio v2) index Dias v3)
    index Data_Final v4) index CID v5) index Tipo v6) index Motivo v7
  = map (at_label index (fun _ => mkRow v1 v2 v3 v4 v5 v6 v7)) df.
Proof.
  intros H. unfold loc_set.
  repeat (rewrite ?has_label_map_at, H).
  rewrite !map_map. apply map_ext. intros p. rewrite !at_label_at_label.
  unfold at_label. destruct (fst p =? index); reflexivity.
Qed.

Lemma loc_set_last (df : DataFrame) (index : Z) (r : Row) (c : column) (v : cell) :
  has_label df index = false ->
  loc_set (df ++ [(index, r)])%list index c v
  = (df ++ [(index, set c v r)])%list.
Proof.
  intros H. unfold loc_set.
  rewrite has_label_app_same, map_app, (map_at_absent df index _ H).
  cbn [map]. unfold at_label. cbn [fst snd]. rewrite Z.eqb_refl. reflexivity.
Qed.

(** ... and on a label the frame lacks: a new row is appended under it. *)
Lemma seven_sets_absent (df : DataFrame) (index : Z) (v1 v2 v3 v4 v5 v6 v7 : cell) :
  has_label df index = false ->
  loc_set (loc_set (loc_set (loc_set (loc_set (loc_set (loc_set df
    index Nome_do_Colaborador v1) index Data_de_Inicio v2) index Dias v3)
    index Data_Final v4) index CID v5) index Tipo v6) index Motivo v7
  = (df ++ [(index, mkRow v1 v2 v3 v4 v5 v6 v7)])%list.
Proof.
  intros H. unfold loc_set at 7. rewrite H.
  rewrite !loc_set_last by assumption. reflexivity.
Qed.

Lemma loc_absent (df : DataFrame) (index : Z) (c : column) :
  has_label df index = false -> loc df index c = Raise KeyError.
Proof.
  intros H. apply has_label_filter in H. unfold loc. rewrite H. reflexivity.
Qed.

Lemma unique_row_has_label (df : DataFrame) (index : Z) (p : Z * Row) :
  filter (fun p => fst p =? index) df = [p] ->
  has_label df index = true /\ fst p = index /\ In p df.
Proof.
  intros H. destruct (has_label df index) eqn:E.
  - assert (Hin : In p (filter (fun p => fst p =? index) df))
      by (rewrite H; left; reflexivity).
    apply filter_In in Hin as [Hin Hp]. repeat split; [lia | assumption].
  - apply has_label_filter in E. congruence.
Qed.

(** [update_record] on the one record under [index]. *)
Lemma update_record_ok (now : Z) (s : session) (index : Z) (nome : cell)
    (data_inicio : date) (dias : Z) (cid : string)
    (tipo_original motivo_original : cell) (r : Row)
    (data_final data_retorno : date) :
  filter (fun p => fst p =? index) (df_atestados s) = [(index, r)] ->
  calcular_datas data_inicio dias = Ok (data_final, data_retorno) ->
  let medical := cell_eq_str tipo_original "Atestado" in
  let looks_up := medical && cell_ne_str (row_cid r) cid in
  let s1 := if looks_up then snd (pesquisar_cid now s cid) else s in
  let r' :=
    mkRow nome (Str (strftime_Ymd data_inicio)) (Int dias)
      (Str (strftime_Ymd data_final))
      (if medical then Str cid else Str EmptyString)
      tipo_original
      (if looks_up then Str (cid ++ " - " ++ fst (pesquisar_cid now s cid))
       else motivo_original) in
  let df' := map (at_label index (fun _ => r')) (df_atestados s) in
  update_record now s index nome data_inicio dias cid tipo_original
    motivo_original
  = Ok (mkSession df' (df' :: saved s) (cache s1) (calls s1), data_retorno).
Proof.
  intros Hrow Hd medical looks_up s1 r' df'.
  destruct (unique_row_has_label _ _ _ Hrow) as (Hlab & _ & _).
  unfold update_record. rewrite Hd. cbn [bind]. fold medical.
  subst s1 r' df' looks_up.
  destruct medical.
  - unfold loc. rewrite Hrow. cbn [bind get snd andb].
    destruct (cell_ne_str (row_cid r) cid).
    + destruct (pesquisar_cid_frame now s cid) as [_ Hsaved].
      destruct (pesquisar_cid now s cid) as [descricao s1].
      cbn [bind fst snd] in *. rewrite seven_sets_present by assumption.
      unfold save_data. cbn [df_atestados saved cache calls].
      rewrite Hsaved. reflexivity.
    + cbn [bind]. rewrite seven_sets_present by assumption. reflexivity.
  - cbn [bind andb]. rewrite seven_sets_present by assumption. reflexivity.
Qed.



Lemma filter_map_at_unique (df : DataFrame) (index : Z) (r r' : Row) :
  filter (fun p => fst p =? index) df = [(index, r)] ->
  filter (fun p => fst p =? index) (map (at_label index (fun _ => r')) df)
  = [(index, r')].
Proof.
  induction df as [|[i r0] df IH]; cbn [filter map]; [discriminate|].
  change (at_label index (fun _ => r') (i, r0))
    with (if i =? index then (i, r') else (i, r0)).
  cbn [fst snd].
  destruct (i =? index) eqn:E; cbn [fst]; rewrite E.
  - intros Hrow. injection Hrow as Hi _ Hrest.
    assert (Hl : has_label df index = false)
      by (apply has_label_filter; assumption).
    rewrite (map_at_absent df index _ Hl), Hrest, Hi. reflexivity.
  - exact IH.
Qed.

(** C3: an update of the one record under [index] stores the category it
    was given as the original one, so the category of a record updated with
    its own category is unchanged; the reason becomes the code, [" - "] and
    the text looked up for the code when that category is 'Atestado' and the
    code differs from the stored one, and is the original reason otherwise;
    under any other category the stored code is empty whatever code was
    passed. *)
Theorem update_record_category_and_reason (now : Z) (s : session) (index : Z)
    (nome : cell) (data_inicio : date) (dias : Z) (cid : string)
    (tipo_original motivo_original : cell) (r : Row)
    (data_final data_retorno : date) :
  filter (fun p => fst p =? index) (df_atestados s) = [(index, r)] ->
  calcular_datas data_inicio dias = Ok (data_final, data_retorno) ->
  exists s' r',
    update_record now s index nome data_inicio dias cid tipo_original
      motivo_original = Ok (s', data_retorno)
    /\ df_atestados s' = map (at_label index (fun _ => r')) (df_atestados s)
    /\ filter (fun p => fst p =? index) (df_atestados s') = [(index, r')]
    /\ row_tipo r' = tipo_original
    /\ (row_tipo r = tipo_original -> row_tipo r' = row_tipo r)
    /\ row_motivo r'
       = (if cell_eq_str tipo_original "Atestado" && cell_ne_str (row_cid r) cid
          then Str (cid ++ " - " ++ fst (pesquisar_cid now s cid))
          else motivo_original)
    /\ (row_motivo r = motivo_original ->
        cell_eq_str tipo_original "Atestado" && cell_ne_str (row_cid r) cid
        = false ->
        row_motivo r' = row_motivo r)
    /\ row_cid r'
       = (if cell_eq_str tipo_original "Atestado" then Str cid
          else Str EmptyString).
Proof.
  intros Hrow Hd.
  pose proof (update_record_ok now s index nome data_inicio dias cid
                tipo_original motivo_original r data_final data_retorno
                Hrow Hd) as H.
  cbv zeta in H. eexists. eexists. split; [exact H|].
  cbn [df_atestados row_tipo row_motivo row_cid].
  split; [reflexivity|]. split.
  - apply filter_map_at_unique with r. assumption.
  - repeat split.
    + intros Ht. symmetry. exact Ht.
    + intros Hm ->. symmetry. exact Hm.
Qed.

(** ** Positions the frame does not have *)


(** ** Category and medical code stay coherent *)

Lemma coherent_map_at (df : DataFrame) (index : Z) (r' : Row) :
  forallb coherent (records df) = true -> coherent r' = true ->
  forallb coherent (records (map (at_label index (fun _ => r')) df)) = true.
Proof.
  intros H Hr. unfold records in *. rewrite map_map.
  rewrite forallb_forall in *. intros x Hx.
  apply in_map_iff in Hx as (p & <- & Hp). unfold at_label.
  destruct (fst p =? index); cbn [snd]; [assumption|].
  apply H. apply in_map. assumption.
Qed.

Lemma coherent_app (df : DataFrame) (index : Z) (r' : Row) :
  forallb coherent (records df) = true -> coherent r' = true ->
  forallb coherent (records (df ++ [(index, r')])%list) = true.
Proof.
  intros H Hr. unfold records in *. rewrite map_app, forallb_app, H.
  cbn. rewrite Hr. reflexivity.
Qed.

Lemma coherent_updated (tipo_original : cell) (v1 v2 v3 v4 v7 : cell) (cid : string) :
  coherent (mkRow v1 v2 v3 v4
              (if cell_eq_str tipo_original "Atestado" then Str cid
               else Str EmptyString) tipo_original v7) = true.
Proof.
  unfold coherent. cbn [row_tipo row_cid].
  destruct (cell_eq_str tipo_original "Atestado"); reflexivity.
Qed.

(** The record under [index] once the seven assignments are made. *)
Lemma seven_sets_row (df : DataFrame) (index : Z) (v1 v2 v3 v4 v5 v6 v7 : cell)
    (r' : Row) :
  In (index, r')
    (loc_set (loc_set (loc_set (loc_set (loc_set (loc_set (loc_set df
       index Nome_do_Colaborador v1) index Data_de_Inicio v2) index Dias v3)
       index Data_Final v4) index CID v5) index Tipo v6) index Motivo v7) ->
  r' = mkRow v1 v2 v3 v4 v5 v6 v7.
Proof.
  destruct (has_label df index) eqn:Hlab.
  - rewrite seven_sets_present by assumption. intros Hin.
    apply in_map_iff in Hin as (p & Hp & _). unfold at_label in Hp.
    destruct (fst p =? index) eqn:E.
    + injection Hp as _ <-. reflexivity.
    + subst p. cbn [fst] in E. rewrite Z.eqb_refl in E. discriminate.
  - rewrite seven_sets_absent by assumption. intros Hin.
    apply in_app_or in Hin as [Hin | [Hin | []]].
    + apply has_label_filter in Hlab.
      assert (H : In (index, r') (filter (fun p => fst p =? index) df))
        by (apply filter_In; split; [exact Hin | apply Z.eqb_refl]).
      rewrite Hlab in H. destruct H.
    + injection Hin as <-. reflexivity.
Qed.

(** C7: [add_record] always stores the empty code with a category other
    than 'Atestado', with the fixed reason for 'Banco de Horas' and for
    'Falta', whatever code and reason text are passed, and [update_record]
    always writes the empty code under such a category; so when no record of
    the session other than an 'Atestado' holds a code, the same is true after
    [add_record], [update_record] and [delete_record]. *)
Theorem operations_keep_records_coherent (now : Z) (s : session) :
  (forall nome data_inicio dias cid motivo_texto data_final data_retorno,
      calcular_datas data_inicio dias = Ok (data_final, data_retorno) ->
      exists s1 s2,
        add_record now s nome data_inicio dias "Banco de Horas" cid
          motivo_texto = Ok (s1, data_retorno)
        /\ records (df_atestados s1)
           = (records (df_atestados s)
              ++ [mkRow (Str nome) (Str (strftime_Ymd data_inicio)) (Int dias)
                    (Str (strftime_Ymd data_final)) (Str EmptyString)
                    (Str "Banco de Horas")
                    (Str "Compensação de Banco de Horas")])%list
        /\ add_record now s nome data_inicio dias "Falta" cid motivo_texto
           = Ok (s2, data_retorno)
        /\ records (df_atestados s2)
           = (records (df_atestados s)
              ++ [mkRow (Str nome) (Str (strftime_Ymd data_inicio)) (Int dias)
                    (Str (strftime_Ymd data_final)) (Str EmptyString)
                    (Str "Falta") (Str "Falta")])%list)
  /\ (forall nome data_inicio dias tipo cid motivo_texto s' data_retorno,
        add_record now s nome data_inicio dias tipo cid motivo_texto
        = Ok (s', data_retorno) ->
        exists novo,
          records (df_atestados s') = (records (df_atestados s) ++ [novo])%list
          /\ row_tipo novo = Str tipo
          /\ row_cid novo
             = Str (if String.eqb tipo "Atestado" then cid else EmptyString))
  /\ (forall index nome data_inicio dias cid tipo_original motivo_original
             s' data_retorno r',
        update_record now s index nome data_inicio dias cid tipo_original
          motivo_original = Ok (s', data_retorno) ->
        In (index, r') (df_atestados s') ->
        row_tipo r' = tipo_original
        /\ row_cid r'
           = (if cell_eq_str tipo_original "Atestado" then Str cid
              else Str EmptyString))
  /\ (forallb coherent (records (df_atestados s)) = true ->
      (forall nome data_inicio dias tipo cid motivo_texto s' data_retorno,
          add_record now s nome data_inicio dias tipo cid motivo_texto
          = Ok (s', data_retorno) ->
          forallb coherent (records (df_atestados s')) = true)
      /\ (forall index nome data_inicio dias cid tipo_original motivo_original
                 s' data_retorno,
            update_record now s index nome data_inicio dias cid tipo_original
              motivo_original = Ok (s', data_retorno) ->
            forallb coherent (records (df_atestados s')) = true)
      /\ (forall index s',
            delete_record s index = Ok s' ->
            forallb coherent (records (df_atestados s')) = true)).
Proof.
  split; [| split; [| split]].
  - intros nome data_inicio dias cid motivo_texto data_final data_retorno Hd.
    destruct (add_record_ok now s nome data_inicio dias "Banco de Horas" cid
                motivo_texto data_final data_retorno Hd)
      as (s1 & n1 & H1 & Hrec1 & _ & _ & _ & Hn1).
    destruct (add_record_ok now s nome data_inicio dias "Falta" cid
                motivo_texto data_final data_retorno Hd)
      as (s2 & n2 & H2 & Hrec2 & _ & _ & _ & Hn2).
    exists s1, s2. rewrite Hrec1, Hrec2, Hn1, Hn2.
    repeat split; assumption.
  - intros nome data_inicio dias tipo cid motivo_texto s' data_retorno Hadd.
    destruct (calcular_datas data_inicio dias) as [[data_final ret]|e] eqn:Hd.
    2:{ unfold add_record in Hadd. rewrite Hd in Hadd. discriminate. }
    destruct (add_record_ok now s nome data_inicio dias tipo cid motivo_texto
                data_final ret Hd) as (s1 & novo & H1 & Hrec & _ & _ & _ & Hn).
    rewrite H1 in Hadd. injection Hadd as <- _.
    exists novo. split; [exact Hrec|]. rewrite Hn. split; reflexivity.
  - intros index nome data_inicio dias cid tipo_original motivo_original
      s' data_retorno r' Hup Hin.
    unfold update_record in Hup.
    destruct (calcular_datas data_inicio dias) as [[data_final ret]|e];
      [| discriminate].
    cbn [bind] in Hup.
    destruct (cell_eq_str tipo_original "Atestado") eqn:Ht.
    + destruct (loc (df_atestados s) index CID) as [stored|e]; [| discriminate].
      cbn [bind] in Hup.
      destruct (cell_ne_str stored cid).
      * destruct (pesquisar_cid now s cid) as [descricao s1].
        cbn [bind] in Hup. injection Hup as <- _.
        cbn [df_atestados save_data] in Hin.
        apply seven_sets_row in Hin. subst r'. split; reflexivity.
      * cbn [bind] in Hup. injection Hup as <- _.
        cbn [df_atestados save_data] in Hin.
        apply seven_sets_row in Hin. subst r'. split; reflexivity.
    + cbn [bind] in Hup. injection Hup as <- _.
      cbn [df_atestados save_data] in Hin.
      apply seven_sets_row in Hin. subst r'. split; reflexivity.
  - intros Hs. split; [| split].
    + intros nome data_inicio dias tipo cid motivo_texto s' data_retorno Hadd.
      destruct (calcular_datas data_inicio dias) as [[data_final ret]|e] eqn:Hd.
      2:{ unfold add_record in Hadd. rewrite Hd in Hadd. discriminate. }
      destruct (add_record_ok now s nome data_inicio dias tipo cid motivo_texto
                  data_final ret Hd) as (s1 & novo & H1 & Hrec & _ & _ & _ & Hn).
      rewrite H1 in Hadd. injection Hadd as <- _.
      rewrite Hrec, forallb_app, Hs. cbn. rewrite andb_true_r.
      rewrite Hn. unfold coherent. cbn [row_tipo row_cid cell_eq_str].
      destruct (String.eqb tipo "Atestado"); reflexivity.
    + intros index nome data_inicio dias cid tipo_original motivo_original
        s' data_retorno Hup.
      unfold update_record in Hup.
      destruct (calcular_datas data_inicio dias) as [[data_final ret]|e];
        [| discriminate].
      cbn [bind] in Hup.
      assert (Hdf : forall v1 v2 v3 v4 v7,
        forallb coherent
          (records
             (loc_set (loc_set (loc_set (loc_set (loc_set (loc_set (loc_set
                (df_atestados s) index Nome_do_Colaborador v1)
                index Data_de_Inicio v2) index Dias v3) index Data_Final v4)
                index CID
                (if cell_eq_str tipo_original "Atestado" then Str cid
                 else Str EmptyString))
                index Tipo tipo_original) index Motivo v7)) = true).
      { intros. destruct (has_label (df_atestados s) index) eqn:Hlab.
        - rewrite seven_sets_present by assumption.
          apply coherent_map_at; [assumption | apply coherent_updated].
        - rewrite seven_sets_absent by assumption.
          apply coherent_app; [assumption | apply coherent_updated]. }
      destruct (cell_eq_str tipo_original "Atestado") eqn:Ht.
      * destruct (loc (df_atestados s) index CID) as [stored|e];
          [| discriminate].
        cbn [bind] in Hup.
        destruct (cell_ne_str stored cid).
        -- destruct (pesquisar_cid now s cid) as [descricao s1].
           cbn [bind] in Hup. injection Hup as <- _.
           cbn [df_atestados save_data]. apply Hdf.
        -- cbn [bind] in Hup. injection Hup as <- _.
           cbn [df_atestados save_data]. apply Hdf.
      * cbn [bind] in Hup. injection Hup as <- _.
        cbn [df_atestados save_data]. apply Hdf.
    + intros index s' Hdel. unfold delete_record, drop in Hdel.
      destruct (has_label (df_atestados s) index); [| discriminate].
      cbn [bind] in Hdel. injection Hdel as <-.
      cbn [df_atestados save_data cache_clear]. unfold reset_index.
      rewrite records_number_from.
      rewrite forallb_forall in *. intros x Hx. apply Hs.
      unfold records in *. apply in_map_iff in Hx as (p & <- & Hp).
      apply filter_In in Hp as [Hp _]. apply in_map. assumption.
Qed.

(** ** The lookup and its cache *)

Lemma cache_get_in (now : Z) (k : string) (c : list (string * (Z * string)))
    (v : string) :
  cache_get now k c = Some v -> exists t, In (k, (t, v)) c.
Proof.
  induction c as [|[k' [t v']] c IH]; cbn [cache_get]; [discriminate|].
  destruct (String.eqb k' k && (now <? t + ttl)) eqn:E.
  - intros Hv. injection Hv as <-. apply andb_prop in E as [E _].
    apply String.eqb_eq in E. subst k'. exists t. left. reflexivity.
  - intros Hv. destruct (IH Hv) as [t' Ht']. exists t'. right. assumption.
Qed.

(** A blank code is answered without calling the service. *)
Lemma pesquisar_cid_blank (now : Z) (s : session) (codigo_cid : string) :
  cache_sound (cache s) -> blank_code codigo_cid = true ->
  fst (pesquisar_cid now s codigo_cid) = "N/A - Nenhum CID fornecido."
  /\ calls (snd (pesquisar_cid now s codigo_cid)) = calls s.
Proof.
  intros Hc Hb. unfold pesquisar_cid.
  destruct (cache_get now codigo_cid (cache s)) as [v|] eqn:E.
  - destruct (cache_get_in _ _ _ _ E) as [t Hin].
    unfold cache_sound in Hc. rewrite Forall_forall in Hc.
    specialize (Hc _ Hin Hb). cbn [fst snd] in *. split; [exact Hc | reflexivity].
  - unfold pesquisar_cid_uncached. unfold blank_code in Hb. rewrite Hb.
    split; reflexivity.
Qed.

(** Lookups keep the cache sound, and a cleared cache is sound. *)
Lemma pesquisar_cid_cache_sound (now : Z) (s : session) (codigo_cid : string) :
  cache_sound (cache s) ->
  cache_sound (cache (snd (pesquisar_cid now s codigo_cid))).
Proof.
  intros Hc. unfold pesquisar_cid.
  destruct (cache_get now codigo_cid (cache s)); [exact Hc|].
  unfold pesquisar_cid_uncached.
  destruct (negb (truthy (upper (strip codigo_cid)))) eqn:Hb; cbn [snd cache].
  - constructor; [| exact Hc]. intros _. reflexivity.
  - constructor; [| exact Hc]. cbn [fst snd]. unfold blank_code.
    rewrite Hb. discriminate.
Qed.

Lemma operations_keep_cache_sound (now : Z) (s : session) :
  cache_sound (cache s) ->
  (forall nome data_inicio dias tipo cid motivo_texto s' data_retorno,
      add_record now s nome data_inicio dias tipo cid motivo_texto
      = Ok (s', data_retorno) -> cache_sound (cache s'))
  /\ (forall index nome data_inicio dias cid tipo_original motivo_original
             s' data_retorno,
        update_record now s index nome data_inicio dias cid tipo_original
          motivo_original = Ok (s', data_retorno) -> cache_sound (cache s'))
  /\ (forall index s', delete_record s index = Ok s' -> cache_sound (cache s')).
Proof.
  intros Hc. split; [| split].
  - intros nome data_inicio dias tipo cid motivo_texto s' ret Hadd.
    destruct (calcular_datas data_inicio dias) as [[data_final ret']|e] eqn:Hd.
    2:{ unfold add_record in Hadd. rewrite Hd in Hadd. discriminate. }
    destruct (add_record_ok now s nome data_inicio dias tipo cid motivo_texto
                data_final ret' Hd) as (s1 & novo & H1 & _ & _ & Hcache & _).
    rewrite H1 in Hadd. injection Hadd as <- _. rewrite Hcache. constructor.
  - intros index nome data_inicio dias cid tipo_original motivo_original
      s' ret Hup.
    unfold update_record in Hup.
    destruct (calcular_datas data_inicio dias) as [[data_final ret']|e];
      [| discriminate].
    cbn [bind] in Hup.
    destruct (cell_eq_str tipo_original "Atestado").
    + destruct (loc (df_atestados s) index CID) as [stored|e]; [| discriminate].
      cbn [bind] in Hup. destruct (cell_ne_str stored cid).
      * pose proof (pesquisar_cid_cache_sound now s cid Hc) as Hs.
        destruct (pesquisar_cid now s cid) as [descricao s1].
        cbn [bind snd] in *. injection Hup as <- _. exact Hs.
      * cbn [bind] in Hup. injection Hup as <- _. exact Hc.
    + cbn [bind] in Hup. injection Hup as <- _. exact Hc.
  - intros index s' Hdel. unfold delete_record in Hdel.
    destruct (drop (df_atestados s) index); [| discriminate].
    cbn [bind] in Hdel. injection Hdel as <-. constructor.
Qed.

(** C10: on the one 'Atestado' record under [index], stored with a code
    that is not empty, [update_record] with the empty code returns normally:
    the lookup of the empty code answers "N/A - Nenhum CID fornecido."
    without a call to the service, and the record is saved with the empty
    code and the reason " - N/A - Nenhum CID fornecido.". *)
Theorem update_record_with_empty_code (now : Z) (s : session) (index : Z)
    (nome : cell) (data_inicio : date) (dias : Z) (motivo_original : cell)
    (r : Row) (stored : string) (data_final data_retorno : date) :
  cache_sound (cache s) ->
  filter (fun p => fst p =? index) (df_atestados s) = [(index, r)] ->
  row_tipo r = Str "Atestado" ->
  row_cid r = Str stored -> truthy stored = true ->
  calcular_datas data_inicio dias = Ok (data_final, data_retorno) ->
  exists s',
    update_record now s index nome data_inicio dias EmptyString (row_tipo r)
      motivo_original = Ok (s', data_retorno)
    /\ calls s' = calls s
    /\ filter (fun p => fst p =? index) (df_atestados s')
       = [(index, mkRow nome (Str (strftime_Ymd data_inicio)) (Int dias)
                    (Str (strftime_Ymd data_final)) (Str EmptyString)
                    (Str "Atestado") (Str " - N/A - Nenhum CID fornecido."))]
    /\ saved s' = df_atestados s' :: saved s.
Proof.
  intros Hc Hrow Ht Hcid Hst Hd.
  pose proof (update_record_ok now s index nome data_inicio dias EmptyString
                (row_tipo r) motivo_original r data_final data_retorno
                Hrow Hd) as H.
  cbv zeta in H. rewrite Ht, Hcid in H.
  assert (Hne : cell_ne_str (Str stored) EmptyString = true)
    by (destruct stored; [discriminate | reflexivity]).
  rewrite Hne in H. cbn [cell_eq_str String.eqb Ascii.eqb Bool.eqb andb] in H.
  destruct (pesquisar_cid_blank now s EmptyString Hc eq_refl) as [Hv Hcalls].
  rewrite Hv, Hcalls in H. rewrite Ht.
  eexists. split; [exact H|]. cbn [df_atestados saved calls].
  split; [reflexivity|]. split; [| reflexivity].
  apply filter_map_at_unique with r. assumption.
Qed.

Lemma uncached_calls (sent : list string) (codigo_cid : string) :
  (List.length (snd (pesquisar_cid_uncached sent codigo_cid))
   <= S (List.length sent))%nat.
Proof.
  unfold pesquisar_cid_uncached.
  destruct (negb (truthy (upper (strip codigo_cid)))); cbn; lia.
Qed.

Lemma pesquisar_cid_calls (now : Z) (s : session) (codigo_cid : string) :
  (List.length (calls (snd (pesquisar_cid now s codigo_cid)))
   <= S (List.length (calls s)))%nat.
Proof.
  unfold pesquisar_cid.
  destruct (cache_get now codigo_cid (cache s)); cbn [snd]; [lia|].
  pose proof (uncached_calls (calls s) codigo_cid) as H.
  destruct (pesquisar_cid_uncached (calls s) codigo_cid). exact H.
Qed.

(** A second lookup of the same argument within the window, started from
    the cache and calls the first one left, adds no call of its own. *)
Lemma pesquisar_cid_again (now now' : Z) (s t : session) (codigo_cid : string) :
  now' < now + ttl ->
  cache t = cache (snd (pesquisar_cid now s codigo_cid)) ->
  calls t = calls (snd (pesquisar_cid now s codigo_cid)) ->
  (List.length (calls (snd (pesquisar_cid now' t codigo_cid)))
   <= S (List.length (calls s)))%nat.
Proof.
  intros Hw Hcache Hcalls. unfold pesquisar_cid in Hcache, Hcalls.
  destruct (cache_get now codigo_cid (cache s)) as [v|] eqn:E.
  - cbn [snd] in *. pose proof (pesquisar_cid_calls now' t codigo_cid).
    rewrite Hcalls in H. exact H.
  - pose proof (uncached_calls (calls s) codigo_cid) as Hu.
    destruct (pesquisar_cid_uncached (calls s) codigo_cid) as [v sent].
    cbn [snd cache calls] in *.
    unfold pesquisar_cid. rewrite Hcache. cbn [cache_get].
    rewrite String.eqb_refl.
    replace (now' <? now + ttl) with true by lia.
    cbn [andb snd]. rewrite Hcalls. exact Hu.
Qed.

(** What [update_record] does to the cache and the calls: nothing, or one
    lookup of the code. *)
Lemma update_record_lookup (now : Z) (s : session) (index : Z) (nome : cell)
    (data_inicio : date) (dias : Z) (cid : string)
    (tipo_original motivo_original : cell) (s' : session) (data_retorno : date) :
  update_record now s index nome data_inicio dias cid tipo_original
    motivo_original = Ok (s', data_retorno) ->
  (cache s' = cache s /\ calls s' = calls s)
  \/ (cache s' = cache (snd (pesquisar_cid now s cid))
      /\ calls s' = calls (snd (pesquisar_cid now s cid))).
Proof.
  unfold update_record.
  destruct (calcular_datas data_inicio dias) as [[data_final ret]|e];
    [| discriminate].
  cbn [bind].
  destruct (cell_eq_str tipo_original "Atestado").
  - destruct (loc (df_atestados s) index CID) as [stored|e]; [| discriminate].
    cbn [bind]. destruct (cell_ne_str stored cid).
    + destruct (pesquisar_cid now s cid) as [descricao s1].
      cbn [bind snd]. intros H. injection H as <- _. right.
      split; reflexivity.
    + cbn [bind]. intros H. injection H as <- _. left. split; reflexivity.
  - cbn [bind]. intros H. injection H as <- _. left. split; reflexivity.
Qed.

(** C9, as amended: two updates in a row that refer to the same code, the
    second less than [ttl] = 3600 seconds after the first, call the service
    at most once between them; [add_record] and [delete_record] leave the
    cache empty, and on an empty cache the lookup of a code that is not
    blank calls the service. *)
Theorem lookup_cached_until_cleared (now now' : Z) (s s1 s2 : session)
    (cid : string) (i j : Z) (nome nome' : cell) (data_inicio data_inicio' : date)
    (dias dias' : Z) (tipo tipo' motivo motivo' : cell) (ret ret' : date) :
  now' < now + ttl ->
  update_record now s i nome data_inicio dias cid tipo motivo = Ok (s1, ret) ->
  update_record now' s1 j nome' data_inicio' dias' cid tipo' motivo'
  = Ok (s2, ret') ->
  (List.length (calls s2) <= S (List.length (calls s)))%nat
  /\ (forall t nome data_inicio dias tipo cid motivo_texto t' ret,
        add_record now t nome data_inicio dias tipo cid motivo_texto
        = Ok (t', ret) -> cache t' = [])
  /\ (forall t index t', delete_record t index = Ok t' -> cache t' = [])
  /\ (forall t codigo_cid,
        cache t = [] -> blank_code codigo_cid = false ->
        calls (snd (pesquisar_cid now' t codigo_cid))
        = upper (strip codigo_cid) :: calls t).
Proof.
  intros Hw H1 H2. split; [| split; [| split]].
  - apply update_record_lookup in H1. apply update_record_lookup in H2.
    destruct H1 as [[Hc1 Hs1] | [Hc1 Hs1]];
      destruct H2 as [[Hc2 Hs2] | [Hc2 Hs2]].
    + rewrite Hs2, Hs1. lia.
    + rewrite Hs2. pose proof (pesquisar_cid_calls now' s1 cid) as H.
      rewrite Hs1 in H. exact H.
    + rewrite Hs2, Hs1. apply pesquisar_cid_calls.
    + rewrite Hs2. apply pesquisar_cid_again with now; assumption.
  - intros t nm di ds tp cd mt t' rt Hadd. unfold add_record in Hadd.
    destruct (calcular_datas di ds) as [[df rt']|e]; [| discriminate].
    cbn [bind] in Hadd.
    destruct (String.eqb tp "Atestado");
      [destruct (pesquisar_cid now t cd) |
       destruct (String.eqb tp "Folga");
       [| destruct (String.eqb tp "Banco de Horas");
          [| destruct (String.eqb tp "Falta")]]];
      injection Hadd as <- _; reflexivity.
  - intros t index t' Hdel. unfold delete_record in Hdel.
    destruct (drop (df_atestados t) index); [| discriminate].
    cbn [bind] in Hdel. injection Hdel as <-. reflexivity.
  - intros t codigo_cid Hc Hb. unfold pesquisar_cid. rewrite Hc.
    cbn [cache_get]. unfold pesquisar_cid_uncached.
    unfold blank_code in Hb. rewrite Hb. reflexivity.
Qed.

(** ** The order of the complete table *)

Lemma insert_perm {A : Type} (x : Z * A) (l : list (Z * A)) :
  Permutation (insert x l) (x :: l).
Proof.
  induction l as [|y l IH]; cbn [insert]; [apply Permutation_refl|].
  destruct (fst x <=? fst y); [apply Permutation_refl|].
  apply perm_trans with (y :: x :: l);
    [apply perm_skip; exact IH | apply perm_swap].
Qed.

Lemma argsort_perm {A : Type} (l : list (Z * A)) : Permutation (argsort l) l.
Proof.
  induction l as [|x l IH]; cbn [argsort]; [apply perm_nil|].
  apply perm_trans with (x :: argsort l);
    [apply insert_perm | apply perm_skip; exact IH].
Qed.

Lemma insert_sorted {A : Type} (x : Z * A) (l : list (Z * A)) :
  StronglySorted (fun a b => fst a <= fst b) l ->
  StronglySorted (fun a b => fst a <= fst b) (insert x l).
Proof.
  induction l as [|y l IH]; intros Hs; cbn [insert].
  - constructor; constructor.
  - apply StronglySorted_inv in Hs as [Hs Hy].
    destruct (Z.leb_spec (fst x) (fst y)) as [Hle | Hgt].
    + constructor; [constructor; assumption|].
      constructor; [assumption|].
      eapply Forall_impl; [| exact Hy]. cbn. intros a Ha. lia.
    + constructor; [apply IH; assumption|].
      apply (Permutation_Forall (Permutation_sym (insert_perm x l))).
      constructor; [lia | assumption].
Qed.

Lemma argsort_sorted {A : Type} (l : list (Z * A)) :
  StronglySorted (fun a b => fst a <= fst b) (argsort l).
Proof.
  induction l as [|x l IH]; cbn [argsort]; [constructor|].
  apply insert_sorted. exact IH.
Qed.

Lemma sorted_snoc {A : Type} (R : A -> A -> Prop) (l : list A) (x : A) :
  StronglySorted R l -> Forall (fun a => R a x) l ->
  StronglySorted R (l ++ [x]).
Proof.
  induction l as [|a l IH]; intros Hs Hx; cbn.
  - constructor; constructor.
  - apply StronglySorted_inv in Hs as [Hs Ha].
    apply Forall_cons_iff in Hx as [Hax Hx].
    constructor; [apply IH; assumption|].
    apply Forall_app. split; [assumption | constructor; [assumption | constructor]].
Qed.

(** An ascending list read backwards is descending. *)
Lemma sorted_rev {A : Type} (l : list (Z * A)) :
  StronglySorted (fun a b => fst a <= fst b) l ->
  StronglySorted (fun a b => fst a >= fst b) (rev l).
Proof.
  induction l as [|x l IH]; intros Hs; cbn [rev]; [constructor|].
  apply StronglySorted_inv in Hs as [Hs Hx].
  apply sorted_snoc; [apply IH; assumption|].
  apply Forall_rev. eapply Forall_impl; [| exact Hx]. cbn. intros a Ha. lia.
Qed.

Lemma non_nans_nans_perm {A : Type} (l : list (option Z * A)) :
  Permutation (map (fun p => (Some (fst p), snd p)) (non_nans l) ++ nans l) l.
Proof.
  induction l as [|[[k|] a] l IH]; cbn; [apply perm_nil | |].
  - apply perm_skip. exact IH.
  - apply Permutation_sym.
    apply perm_trans
      with ((None, a) :: map (fun p => (Some (fst p), snd p)) (non_nans l)
              ++ nans l)%list.
    + apply perm_skip. apply Permutation_sym. exact IH.
    + apply Permutation_middle.
Qed.

Lemma sort_values_perm {A : Type} (l : list (option Z * A)) :
  Permutation (sort_values l) l.
Proof.
  unfold sort_values.
  apply perm_trans
    with (map (fun p => (Some (fst p), snd p)) (non_nans l) ++ nans l)%list;
    [| apply non_nans_nans_perm].
  apply Permutation_app_tail. apply Permutation_map.
  apply perm_trans with (argsort (rev (non_nans l)));
    [apply Permutation_sym, Permutation_rev|].
  apply perm_trans with (rev (non_nans l));
    [apply argsort_perm | apply Permutation_sym, Permutation_rev].
Qed.

Lemma with_sort_key_rows (df : DataFrame) : map snd (with_sort_key df) = df.
Proof.
  unfold with_sort_key. cbv zeta. rewrite map_map. cbn [snd].
  generalize (to_datetime (map (fun p => row_inicio (snd p)) df)) as keys.
  intros keys. generalize 0%nat as k.
  induction df as [|p df IH]; intros k; cbn; [reflexivity|].
  rewrite IH. reflexivity.
Qed.

(** Each record of the frame with the key [to_datetime] gives for its own
    start date: the key at the record's place in the column of start
    dates. *)
Lemma combine_seq {A : Type} (d : A) (l : list A) (k : nat) :
  combine (seq k (List.length l)) l
  = map (fun i => (i, nth (i - k) l d)) (seq k (List.length l)).
Proof.
  revert k. induction l as [|x l IH]; intros k; [reflexivity|].
  cbn [List.length seq combine map]. rewrite Nat.sub_diag. f_equal.
  rewrite IH. apply map_ext_in. intros i Hi. apply in_seq in Hi.
  replace (i - k)%nat with (S (i - S k)) by lia. reflexivity.
Qed.

Lemma with_sort_key_keys (df : DataFrame) :
  with_sort_key df
  = map (fun i => (nth i (to_datetime (map row_inicio (records df))) None,
                   nth i df (0, nan_row)))
        (seq 0 (List.length df)).
Proof.
  unfold with_sort_key, records. cbv zeta.
  rewrite (combine_seq (0, nan_row) df 0), !map_map. cbn [fst snd].
  apply map_ext. intros i. rewrite Nat.sub_0_r. reflexivity.
Qed.

(** C8: the complete table lists every record of the frame once, each with
    the instant [to_datetime] reads from its own start date: first the
    records whose start date can be read, by descending start date, and
    after all of them the records whose start date is missing or cannot be
    read. *)
Theorem df_display_sorted_order (df : DataFrame) :
  let keys := to_datetime (map row_inicio (records df)) in
  let keyed :=
    map (fun i => (nth i keys None, nth i df (0, nan_row)))
        (seq 0 (List.length df)) in
  exists (valid : list (Z * (Z * Row))) (missing : list (option Z * (Z * Row))),
    df_display_sorted df
    = (map (fun p => (Some (fst p), snd p)) valid ++ missing)%list
    /\ StronglySorted (fun a b => fst a >= fst b) valid
    /\ Forall (fun p => fst p = None) missing
    /\ Permutation (df_display_sorted df) keyed
    /\ map snd keyed = df.
Proof.
  intros keys keyed.
  assert (Hk : with_sort_key df = keyed) by apply with_sort_key_keys.
  exists (rev (argsort (rev (non_nans (with_sort_key df))))),
    (nans (with_sort_key df)).
  split; [reflexivity|]. split; [apply sorted_rev, argsort_sorted|].
  split; [| split].
  - unfold nans. apply Forall_forall. intros [[k|] a] Hin;
      apply filter_In in Hin as [_ Hk']; [discriminate | reflexivity].
  - rewrite <- Hk. apply sort_values_perm.
  - rewrite <- Hk. apply with_sort_key_rows.
Qed.

(** ** Loading the data file *)





(** * Further properties *)

(** ** Dates *)

Lemma add_days_one (d : date) : add_days 1 d = next_day d.
Proof. reflexivity. Qed.

(** Every ordinal in range is the ordinal of the date [fromordinal] gives. *)
Lemma fromordinal_in_range (n : Z) :
  1 <= n <= _MAXORDINAL ->
  valid_date (fromordinal n) = true /\ toordinal (fromordinal n) = n
  /\ 1 <= month (fromordinal n) <= 12
  /\ 1 <= day (fromordinal n)
          <= _days_in_month (year (fromordinal n)) (month (fromordinal n)).
Proof.
  intros Hn.
  assert (Hm : 1 <= month (mkdate 1 1 1) <= 12) by (cbn; lia).
  assert (Hd : 1 <= day (mkdate 1 1 1)
               <= _days_in_month (year (mkdate 1 1 1)) (month (mkdate 1 1 1)))
    by (vm_compute; split; discriminate).
  pose proof (fromordinal_add_days (Z.to_nat (n - 1)) _ Hm Hd) as Hf.
  destruct (add_days_calendar (Z.to_nat (n - 1)) _ Hm Hd) as (Hm' & Hd' & Ho).
  change (toordinal (mkdate 1 1 1)) with 1 in Hf, Ho.
  rewrite Z2Nat.id in Hf, Ho by lia.
  replace (1 + (n - 1)) with n in Hf, Ho by lia.
  rewrite Hf. repeat split; try tauto; try lia.
  apply valid_of_ordinal_range; try tauto. lia.
Qed.

(** X1: [calcular_datas] does not check the day count.  For a start date
    and any integer [dias], also zero or negative, it returns the dates at
    [dias - 1] and [dias] days from the start whenever both are dates of the
    calendar, and raises [OverflowError] otherwise; the return date is the
    day after the end date, and with [dias <= 0] the end date is before the
    start. *)
Theorem calcular_datas_any_dias (data_inicio : date) (dias : Z) :
  valid_date data_inicio = true ->
  let o := toordinal data_inicio in
  calcular_datas data_inicio dias
  = (if (1 <=? o + dias - 1) && (o + dias <=? _MAXORDINAL)
     then Ok (fromordinal (o + dias - 1), fromordinal (o + dias))
     else Raise OverflowError)
  /\ (1 <= o + dias - 1 -> o + dias <= _MAXORDINAL ->
      valid_date (fromordinal (o + dias - 1)) = true
      /\ valid_date (fromordinal (o + dias)) = true
      /\ toordinal (fromordinal (o + dias - 1)) = o + dias - 1
      /\ fromordinal (o + dias) = next_day (fromordinal (o + dias - 1))
      /\ (dias <= 0 -> toordinal (fromordinal (o + dias - 1)) < o)).
Proof.
  intros Hv o. pose proof (toordinal_range _ Hv) as Hord. fold o in Hord.
  unfold _MAXORDINAL in *. split.
  - unfold calcular_datas. rewrite strptime_isoformat by assumption.
    cbn [bind]. unfold timedelta, date_add, _MAXORDINAL. fold o.
    destruct (Z.leb_spec 1 (o + dias - 1)) as [Hlo | Hlo];
      destruct (Z.leb_spec (o + dias) 3652059) as [Hhi | Hhi]; cbn [andb].
    + replace ((-999999999 <=? dias - 1) && (dias - 1 <=? 999999999))
        with true by lia.
      cbn [bind].
      replace ((0 <? o + (dias - 1)) && (o + (dias - 1) <=? 3652059))
        with true by lia.
      cbn [bind].
      change ((-999999999 <=? 1) && (1 <=? 999999999)) with true. cbn [bind].
      replace (o + (dias - 1)) with (o + dias - 1) by lia.
      destruct (fromordinal_in_range (o + dias - 1)) as (_ & -> & _);
        [unfold _MAXORDINAL; lia|].
      replace ((0 <? o + dias - 1 + 1) && (o + dias - 1 + 1 <=? 3652059))
        with true by lia.
      cbn [bind]. replace (o + dias - 1 + 1) with (o + dias) by lia.
      reflexivity.
    + destruct ((-999999999 <=? dias - 1) && (dias - 1 <=? 999999999));
        cbn [bind]; [| reflexivity].
      destruct ((0 <? o + (dias - 1)) && (o + (dias - 1) <=? 3652059)) eqn:E;
        cbn [bind]; [| reflexivity].
      change ((-999999999 <=? 1) && (1 <=? 999999999)) with true. cbn [bind].
      destruct (fromordinal_in_range (o + (dias - 1))) as (_ & -> & _);
        [unfold _MAXORDINAL; lia|].
      replace ((0 <? o + (dias - 1) + 1) && (o + (dias - 1) + 1 <=? 3652059))
        with false by lia.
      reflexivity.
    + destruct ((-999999999 <=? dias - 1) && (dias - 1 <=? 999999999));
        cbn [bind]; [| reflexivity].
      replace ((0 <? o + (dias - 1)) && (o + (dias - 1) <=? 3652059))
        with false by lia.
      reflexivity.
    + lia.
  - intros Hlo Hhi.
    destruct (fromordinal_in_range (o + dias - 1)) as (H1 & H2 & H3 & H4);
      [unfold _MAXORDINAL; lia|].
    destruct (fromordinal_in_range (o + dias)) as (H5 & _);
      [unfold _MAXORDINAL; lia|].
    split; [exact H1|]. split; [exact H5|]. split; [exact H2|]. split.
    2:{ intros Hneg. rewrite H2. lia. }
    pose proof (fromordinal_add_days 1 _ H3 H4) as Hn.
    rewrite H2, add_days_one in Hn.
    replace (o + dias - 1 + Z.of_nat 1) with (o + dias) in Hn by lia.
    exact Hn.
Qed.

(** X2: the text of a date ([str(date)], which [calcular_datas] reads back
    with [strptime]) has ten characters, reads back to the same date, and
    differs between different dates. *)
Theorem date_text_round_trip (d : date) :
  valid_date d = true ->
  String.length (isoformat d) = 10%nat
  /\ strptime_Ymd (isoformat d) = Ok d
  /\ (forall d', valid_date d' = true -> isoformat d' = isoformat d -> d' = d).
Proof.
  intros Hv. split; [reflexivity|]. split.
  - apply strptime_isoformat. assumption.
  - intros d' Hv' E. pose proof (strptime_isoformat d' Hv') as H'.
    rewrite E, strptime_isoformat in H' by assumption. congruence.
Qed.

(** ** Positions *)

Lemma length_number_from (k : Z) (rs : list Row) :
  List.length (number_from k rs) = List.length rs.
Proof.
  revert k. induction rs as [|r rs IH]; intros k; cbn; [reflexivity|].
  rewrite IH. reflexivity.
Qed.

Lemma labels_number_from (k : Z) (rs : list Row) :
  labels (number_from k rs)
  = map (fun i => k + Z.of_nat i) (seq 0 (List.length rs)).
Proof.
  revert k. induction rs as [|r rs IH]; intros k; [reflexivity|].
  cbn [number_from labels map fst List.length seq].
  unfold labels in IH. rewrite IH, <- seq_shift, map_map.
  f_equal; [lia|]. apply map_ext. intros i. lia.
Qed.

Lemma range_index_number_from (rs : list Row) : range_index (number_from 0 rs).
Proof.
  unfold range_index. rewrite labels_number_from, length_number_from.
  apply map_ext. intros i. lia.
Qed.

Lemma numbered_frame (k : Z) (df : DataFrame) :
  labels df = map (fun i => k + Z.of_nat i) (seq 0 (List.length df)) ->
  df = number_from k (records df).
Proof.
  revert k. induction df as [|[l r] df IH]; intros k H; [reflexivity|].
  cbn [labels records map fst snd List.length seq number_from] in *.
  injection H as Hl Hrest. rewrite <- seq_shift, map_map in Hrest.
  f_equal; [f_equal; lia|]. apply IH. unfold labels. rewrite Hrest.
  apply map_ext. intros i. lia.
Qed.

Lemma range_index_numbered (df : DataFrame) :
  range_index df -> df = number_from 0 (records df).
Proof.
  intros H. apply numbered_frame. unfold range_index in H. rewrite H.
  apply map_ext. intros i. lia.
Qed.

Lemma has_label_number_from (k : Z) (rs : list Row) (index : Z) :
  has_label (number_from k rs) index = true
  <-> k <= index < k + Z.of_nat (List.length rs).
Proof.
  revert k. induction rs as [|r rs IH]; intros k.
  - cbn. split; [discriminate | lia].
  - unfold has_label in *. cbn [number_from labels map fst existsb List.length].
    rewrite orb_true_iff. unfold labels in IH. rewrite IH. lia.
Qed.

Lemma filter_keeps_later (k k' : Z) (rs : list Row) :
  k < k' ->
  filter (fun p => negb (fst p =? k)) (number_from k' rs) = number_from k' rs.
Proof.
  revert k'. induction rs as [|r rs IH]; intros k' H; [reflexivity|].
  cbn [number_from filter fst]. replace (k' =? k) with false by lia.
  cbn [negb]. rewrite IH by lia. reflexivity.
Qed.

Lemma filter_number_from (k : Z) (rs : list Row) (i : nat) :
  (i < List.length rs)%nat ->
  records (filter (fun p => negb (fst p =? k + Z.of_nat i)) (number_from k rs))
  = (firstn i rs ++ skipn (S i) rs)%list.
Proof.
  revert k i. induction rs as [|r rs IH]; intros k i Hi; [cbn in Hi; lia|].
  cbn [number_from filter fst]. destruct i as [|i].
  - destruct (Z.eqb_spec k (k + Z.of_nat 0)) as [_|N]; [| lia].
    cbn [negb firstn skipn app].
    replace (k + Z.of_nat 0) with k by lia.
    rewrite filter_keeps_later by lia. apply records_number_from.
  - destruct (Z.eqb_spec k (k + Z.of_nat (S i))) as [E|_]; [lia|].
    cbn [negb records map snd firstn skipn app]. f_equal.
    replace (k + Z.of_nat (S i)) with (k + 1 + Z.of_nat i) by lia.
    apply IH. cbn in Hi. lia.
Qed.

Lemma filter_last_number_from (novo : Row) (rs : list Row) (k : Z) :
  filter (fun p => fst p =? k + Z.of_nat (List.length rs))
    (number_from k (rs ++ [novo])%list)
  = [(k + Z.of_nat (List.length rs), novo)].
Proof.
  revert k. induction rs as [|r rs IH]; intros k.
  - cbn [app number_from filter fst List.length].
    destruct (Z.eqb_spec k (k + Z.of_nat 0)) as [_|N]; [| lia].
    f_equal. f_equal. lia.
  - cbn [app number_from filter fst List.length].
    destruct (Z.eqb_spec k (k + Z.of_nat (S (List.length rs)))) as [E|_];
      [lia|].
    replace (k + Z.of_nat (S (List.length rs)))
      with (k + 1 + Z.of_nat (List.length rs)) by lia.
    apply IH.
Qed.

(** [drop] of a position of a frame numbered 0..n-1. *)
Lemma drop_in_range (df : DataFrame) (index : Z) :
  range_index df ->
  0 <= index < Z.of_nat (List.length df) ->
  drop df index = Ok (filter (fun p => negb (fst p =? index)) df)
  /\ records (filter (fun p => negb (fst p =? index)) df)
     = (firstn (Z.to_nat index) (records df)
        ++ skipn (S (Z.to_nat index)) (records df))%list.
Proof.
  intros Hr Hi. pose proof (range_index_numbered _ Hr) as Hdf.
  assert (Hlen : List.length (records df) = List.length df)
    by (unfold records; apply length_map).
  split.
  - unfold drop. replace (has_label df index) with true; [reflexivity|].
    symmetry. rewrite Hdf. apply has_label_number_from. rewrite Hlen. lia.
  - pose proof (filter_number_from 0 (records df) (Z.to_nat index)) as H.
    replace (0 + Z.of_nat (Z.to_nat index)) with index in H by lia.
    rewrite <- Hdf in H. apply H. rewrite Hlen. lia.
Qed.

(** X3: deleting a position of a frame whose positions are 0..n-1 removes
    that one record and closes the gap: the records before it stay, the
    ones after it move down by one, the positions are again 0..n-2, the
    file is written once, the cache is emptied and no code is sent. *)
Theorem delete_record_compacts (s : session) (index : Z) :
  range_index (df_atestados s) ->
  0 <= index < Z.of_nat (List.length (df_atestados s)) ->
  exists s',
    delete_record s index = Ok s'
    /\ records (df_atestados s')
       = (firstn (Z.to_nat index) (records (df_atestados s))
          ++ skipn (S (Z.to_nat index)) (records (df_atestados s)))%list
    /\ range_index (df_atestados s')
    /\ S (List.length (df_atestados s')) = List.length (df_atestados s)
    /\ saved s' = df_atestados s' :: saved s
    /\ cache s' = [] /\ calls s' = calls s.
Proof.
  intros Hr Hi. destruct (drop_in_range _ _ Hr Hi) as [Hdrop Hrec].
  unfold delete_record. rewrite Hdrop. cbn [bind].
  eexists. split; [reflexivity|].
  cbn [df_atestados saved cache calls save_data cache_clear].
  unfold reset_index. rewrite records_number_from, length_number_from, Hrec.
  split; [reflexivity|].
  split; [apply range_index_number_from|].
  split; [| repeat split].
  rewrite length_app, length_firstn, length_skipn.
  unfold records. rewrite length_map. lia.
Qed.

(** X4: a record added and then deleted at the position it was given (the
    number of records before) leaves the records as they were; each of the
    two steps writes the file. *)
Theorem add_then_delete_restores (now : Z) (s : session) (nome : string)
    (data_inicio : date) (dias : Z) (tipo cid motivo_texto : string)
    (data_final data_retorno : date) :
  calcular_datas data_inicio dias = Ok (data_final, data_retorno) ->
  exists s1 s2,
    add_record now s nome data_inicio dias tipo cid motivo_texto
    = Ok (s1, data_retorno)
    /\ loc (df_atestados s1) (Z.of_nat (List.length (df_atestados s)))
         Nome_do_Colaborador = Ok (Str nome)
    /\ delete_record s1 (Z.of_nat (List.length (df_atestados s))) = Ok s2
    /\ records (df_atestados s2) = records (df_atestados s)
    /\ saved s2 = df_atestados s2 :: df_atestados s1 :: saved s.
Proof.
  intros Hd.
  destruct (add_record_ok now s nome data_inicio dias tipo cid motivo_texto
              data_final data_retorno Hd)
    as (s1 & novo & Hadd & Hrec & Hsav & _ & _ & Hnovo).
  assert (Hlen : List.length (records (df_atestados s))
                 = List.length (df_atestados s))
    by (unfold records; apply length_map).
  assert (Hdf1 : df_atestados s1
                 = number_from 0 (records (df_atestados s) ++ [novo])%list).
  { unfold add_record in Hadd. rewrite Hd in Hadd. cbn [bind] in Hadd.
    destruct (String.eqb tipo "Atestado");
      [destruct (pesquisar_cid now s cid) |
       destruct (String.eqb tipo "Folga");
       [| destruct (String.eqb tipo "Banco de Horas");
          [| destruct (String.eqb tipo "Falta")]]];
      injection Hadd as <-;
      cbn [df_atestados save_data cache_clear] in *;
      unfold concat_ignore_index in *; rewrite records_number_from in Hrec;
      apply app_inv_head in Hrec; injection Hrec as <-; reflexivity. }
  assert (Hr1 : range_index (df_atestados s1))
    by (rewrite Hdf1; apply range_index_number_from).
  assert (Hl1 : List.length (df_atestados s1)
                = S (List.length (df_atestados s))).
  { rewrite Hdf1, length_number_from, length_app, Hlen. cbn. lia. }
  destruct (drop_in_range (df_atestados s1)
              (Z.of_nat (List.length (df_atestados s))) Hr1)
    as [Hdrop Hrec2']; [lia|].
  assert (Hdel : exists s2,
             delete_record s1 (Z.of_nat (List.length (df_atestados s))) = Ok s2
             /\ records (df_atestados s2)
                = (firstn (Z.to_nat (Z.of_nat (List.length (df_atestados s))))
                     (records (df_atestados s1))
                   ++ skipn (S (Z.to_nat (Z.of_nat (List.length (df_atestados s)))))
                        (records (df_atestados s1)))%list
             /\ saved s2 = df_atestados s2 :: saved s1).
  { unfold delete_record. rewrite Hdrop. cbn [bind]. eexists.
    split; [reflexivity|].
    cbn [df_atestados saved save_data cache_clear]. unfold reset_index.
    rewrite records_number_from. split; [exact Hrec2' | reflexivity]. }
  destruct Hdel as (s2 & Hdel & Hrec2 & Hsav2).
  exists s1, s2. split; [exact Hadd|]. split; [| split; [exact Hdel | split]].
  - rewrite Hdf1. clear - Hlen Hnovo. rewrite <- Hlen.
    generalize (records (df_atestados s)) as rs. intros rs.
    unfold loc.
    pose proof (filter_last_number_from novo rs) as H.
    specialize (H 0). cbn [Z.add] in H. rewrite H. cbn [snd get].
    rewrite Hnovo. reflexivity.
  - rewrite Hrec2, Hrec, Nat2Z.id, <- Hlen.
    rewrite firstn_app, firstn_all, Nat.sub_diag. cbn [firstn].
    rewrite app_nil_r.
    rewrite skipn_all2; [apply app_nil_r|].
    rewrite length_app. cbn. lia.
  - rewrite Hsav2, Hsav. reflexivity.
Qed.

Lemma labels_map_at (df : DataFrame) (index : Z) (f : Row -> Row) :
  labels (map (at_label index f) df) = labels df.
Proof.
  unfold labels. rewrite map_map. apply map_ext. intros p. unfold at_label.
  destruct (fst p =? index); reflexivity.
Qed.

(** What [update_record] leaves in the frame and the file. *)
(** Picks the record the seven assignments of the goal write. *)
Ltac use_sets Hsets :=
  match goal with
  | |- context [loc_set (loc_set ?a ?i CID ?v5) ?j Tipo ?t] =>
      match goal with
      | |- context [loc_set (loc_set (loc_set a i CID v5) j Tipo t) ?k Motivo ?v7] =>
          let r' := fresh "r'" in
          destruct (Hsets v5 v7) as (r' & Hn & Hty & Hdf); exists r'
      end
  end.

Lemma update_record_frame (now : Z) (s : session) (index : Z) (nome : cell)
    (data_inicio : date) (dias : Z) (cid : string)
    (tipo_original motivo_original : cell) (s' : session) (data_retorno : date) :
  update_record now s index nome data_inicio dias cid tipo_original
    motivo_original = Ok (s', data_retorno) ->
  exists r',
    saved s' = df_atestados s' :: saved s
    /\ row_nome r' = nome /\ row_tipo r' = tipo_original
    /\ (if has_label (df_atestados s) index
        then df_atestados s' = map (at_label index (fun _ => r')) (df_atestados s)
        else df_atestados s' = (df_atestados s ++ [(index, r')])%list
             /\ cell_eq_str tipo_original "Atestado" = false).
Proof.
  unfold update_record.
  destruct (calcular_datas data_inicio dias) as [[data_final ret]|e];
    [| discriminate].
  cbn [bind].
  assert (Hsets : forall v5 v7,
    exists r', row_nome r' = nome /\ row_tipo r' = tipo_original
      /\ (if has_label (df_atestados s) index
          then loc_set (loc_set (loc_set (loc_set (loc_set (loc_set (loc_set
                 (df_atestados s) index Nome_do_Colaborador nome)
                 index Data_de_Inicio (Str (strftime_Ymd data_inicio)))
                 index Dias (Int dias))
                 index Data_Final (Str (strftime_Ymd data_final)))
                 index CID v5) index Tipo tipo_original) index Motivo v7
               = map (at_label index (fun _ => r')) (df_atestados s)
          else loc_set (loc_set (loc_set (loc_set (loc_set (loc_set (loc_set
                 (df_atestados s) index Nome_do_Colaborador nome)
                 index Data_de_Inicio (Str (strftime_Ymd data_inicio)))
                 index Dias (Int dias))
                 index Data_Final (Str (strftime_Ymd data_final)))
                 index CID v5) index Tipo tipo_original) index Motivo v7
               = (df_atestados s ++ [(index, r')])%list)).
  { intros v5 v7.
    exists (mkRow nome (Str (strftime_Ymd data_inicio)) (Int dias)
              (Str (strftime_Ymd data_final)) v5 tipo_original v7).
    split; [reflexivity|]. split; [reflexivity|].
    destruct (has_label (df_atestados s) index) eqn:Hlab;
      [apply seven_sets_present | apply seven_sets_absent]; assumption. }
  destruct (cell_eq_str tipo_original "Atestado") eqn:Ht.
  - destruct (loc (df_atestados s) index CID) as [stored|e] eqn:Hloc;
      [| discriminate].
    assert (Hlab : has_label (df_atestados s) index = true).
    { destruct (has_label (df_atestados s) index) eqn:E; [reflexivity|].
      rewrite loc_absent in Hloc by assumption. discriminate. }
    cbn [bind]. destruct (cell_ne_str stored cid).
    + destruct (pesquisar_cid_frame now s cid) as [_ Hsaved].
      destruct (pesquisar_cid now s cid) as [descricao s1].
      cbn [bind snd] in *. intros H. injection H as <- _.
      cbn [df_atestados saved save_data]. rewrite Hsaved.
      use_sets Hsets.
      rewrite Hlab in *. rewrite Hdf. repeat split; assumption.
    + cbn [bind]. intros H. injection H as <- _.
      cbn [df_atestados saved save_data].
      use_sets Hsets.
      rewrite Hlab in *. rewrite Hdf. repeat split; assumption.
  - cbn [bind]. intros H. injection H as <- _.
    cbn [df_atestados saved save_data].
    use_sets Hsets.
    destruct (has_label (df_atestados s) index);
      rewrite Hdf; repeat split; assumption.
Qed.

(** X5: additions and deletions leave the positions 0..n-1 whatever they
    were before, [load_data] returns them so, and an update of a position
    the frame has keeps all positions; with positions 0..n-1 a position
    exists exactly when it is at least 0 and below the number of records. *)
Theorem positions_are_contiguous (now : Z) (s : session) :
  (forall nome data_inicio dias tipo cid motivo_texto,
      match add_record now s nome data_inicio dias tipo cid motivo_texto with
      | Ok (s', _) =>
          range_index (df_atestados s')
          /\ List.length (df_atestados s') = S (List.length (df_atestados s))
      | Raise _ => True
      end)
  /\ (forall index,
        match delete_record s index with
        | Ok s' => range_index (df_atestados s')
        | Raise _ => True
        end)
  /\ (forall index nome data_inicio dias cid tipo_original motivo_original,
        has_label (df_atestados s) index = true ->
        match update_record now s index nome data_inicio dias cid
                tipo_original motivo_original with
        | Ok (s', _) => labels (df_atestados s') = labels (df_atestados s)
        | Raise _ => True
        end)
  /\ (forall file, range_index (fst (load_data file)))
  /\ (range_index (df_atestados s) ->
      forall index,
        has_label (df_atestados s) index = true
        <-> 0 <= index < Z.of_nat (List.length (df_atestados s))).
Proof.
  split; [| split; [| split; [| split]]].
  - intros nome data_inicio dias tipo cid motivo_texto.
    unfold add_record.
    destruct (calcular_datas data_inicio dias) as [[data_final ret]|e];
      [| exact I].
    cbn [bind].
    assert (H : forall novo,
               range_index (concat_ignore_index (df_atestados s) novo)
               /\ List.length (concat_ignore_index (df_atestados s) novo)
                  = S (List.length (df_atestados s))).
    { intros novo. unfold concat_ignore_index.
      split; [apply range_index_number_from|].
      rewrite length_number_from, length_app. unfold records.
      rewrite length_map. cbn. lia. }
    destruct (String.eqb tipo "Atestado");
      [destruct (pesquisar_cid now s cid) |
       destruct (String.eqb tipo "Folga");
       [| destruct (String.eqb tipo "Banco de Horas");
          [| destruct (String.eqb tipo "Falta")]]];
      cbn [df_atestados save_data cache_clear]; apply H.
  - intros index. unfold delete_record.
    destruct (drop (df_atestados s) index); [| exact I].
    cbn [bind df_atestados save_data cache_clear].
    apply range_index_number_from.
  - intros index nome data_inicio dias cid tipo_original motivo_original Hlab.
    destruct (update_record now s index nome data_inicio dias cid
                tipo_original motivo_original) as [[s' ret]|e] eqn:E;
      [| exact I].
    destruct (update_record_frame _ _ _ _ _ _ _ _ _ _ _ E)
      as (r' & _ & _ & _ & Hdf).
    rewrite Hlab in Hdf. rewrite Hdf. apply labels_map_at.
  - intros file. unfold load_data. destruct file as [[raw|e]|].
    + cbn [bind]. destruct (read_frame raw) as [df|e] eqn:E; cbn [fst].
      * unfold read_frame in E.
        destruct (if negb (has_column (rename raw) "Tipo") then _ else _)
          as [df1|e]; [| discriminate].
        cbn [bind] in E. destruct (reindex _) as [col|e]; [| discriminate].
        cbn [bind] in E. injection E as <-. apply range_index_number_from.
      * reflexivity.
    + reflexivity.
    + reflexivity.
  - intros Hr index. rewrite (range_index_numbered _ Hr) at 1.
    rewrite has_label_number_from. unfold records. rewrite length_map. lia.
Qed.

(** X6: whatever [add_record], [update_record] and [delete_record] leave in
    memory when they return is what they have written to the file, and
    each writes the file once. *)
Theorem every_success_is_saved (now : Z) (s : session) :
  (forall nome data_inicio dias tipo cid motivo_texto,
      match add_record now s nome data_inicio dias tipo cid motivo_texto with
      | Ok (s', _) => saved s' = df_atestados s' :: saved s
      | Raise _ => True
      end)
  /\ (forall index nome data_inicio dias cid tipo_original motivo_original,
        match update_record now s index nome data_inicio dias cid
                tipo_original motivo_original with
        | Ok (s', _) => saved s' = df_atestados s' :: saved s
        | Raise _ => True
        end)
  /\ (forall index,
        match delete_record s index with
        | Ok s' => saved s' = df_atestados s' :: saved s
        | Raise _ => True
        end).
Proof.
  split; [| split].
  - intros nome data_inicio dias tipo cid motivo_texto.
    destruct (calcular_datas data_inicio dias) as [[data_final ret]|e] eqn:Hd.
    + destruct (add_record_ok now s nome data_inicio dias tipo cid motivo_texto
                  data_final ret Hd) as (s1 & novo & -> & _ & Hsav & _).
      exact Hsav.
    + unfold add_record. rewrite Hd. exact I.
  - intros index nome data_inicio dias cid tipo_original motivo_original.
    destruct (update_record now s index nome data_inicio dias cid
                tipo_original motivo_original) as [[s' ret]|e] eqn:E;
      [| exact I].
    destruct (update_record_frame _ _ _ _ _ _ _ _ _ _ _ E) as (r' & H & _).
    exact H.
  - intros index. unfold delete_record.
    destruct (drop (df_atestados s) index); [| exact I]. reflexivity.
Qed.

(** ** The service and the cache *)

Lemma add_record_other_calls (now : Z) (s : session) (nome : string)
    (data_inicio : date) (dias : Z) (tipo cid motivo_texto : string) :
  String.eqb tipo "Atestado" = false ->
  match add_record now s nome data_inicio dias tipo cid motivo_texto with
  | Ok (s', _) => calls s' = calls s
  | Raise _ => True
  end.
Proof.
  intros Ht.
  destruct (calcular_datas data_inicio dias) as [[data_final ret]|e] eqn:Hd.
  - destruct (add_record_ok now s nome data_inicio dias tipo cid motivo_texto
                data_final ret Hd) as (s1 & novo & -> & _ & _ & _ & Hc & _).
    rewrite Ht in Hc. exact Hc.
  - unfold add_record. rewrite Hd. exact I.
Qed.

Lemma run_calls (s : session) (r : result (session * date)) :
  match r with
  | Ok (s', _) => calls s' = calls s
  | Raise _ => True
  end ->
  calls (fst (run s r)) = calls s.
Proof. destruct r as [[s' ret]|e]; cbn; trivial. Qed.

(** X7: only certificates reach the service.  The forms for 'Banco de
    Horas', 'Falta' and 'Folga' send nothing to it, whether they add the
    record or refuse it; neither does a deletion, nor an update under a
    category other than 'Atestado'. *)
Theorem only_certificates_call_the_service (now : Z) (s : session)
    (nome : option string) (data_inicio : date) (dias : Z)
    (motivo_input : string) (index : Z) (nome' : cell) (cid : string)
    (tipo_original motivo_original : cell) :
  calls (fst (new_record_banco_form now s nome data_inicio dias)) = calls s
  /\ calls (fst (new_record_falta_form_simple now s nome data_inicio dias))
     = calls s
  /\ calls (fst (new_record_folga_form_motivo now s nome data_inicio dias
                   motivo_input)) = calls s
  /\ match delete_record s index with
     | Ok s' => calls s' = calls s
     | Raise _ => True
     end
  /\ (cell_eq_str tipo_original "Atestado" = false ->
      match update_record now s index nome' data_inicio dias cid
              tipo_original motivo_original with
      | Ok (s', _) => calls s' = calls s
      | Raise _ => True
      end).
Proof.
  unfold new_record_banco_form, new_record_falta_form_simple,
    new_record_folga_form_motivo. cbv zeta.
  split; [| split; [| split; [| split]]].
  - destruct (is_filled (nome_final nome)); [| reflexivity].
    apply run_calls, add_record_other_calls. reflexivity.
  - destruct (is_filled (nome_final nome)); [| reflexivity].
    apply run_calls, add_record_other_calls. reflexivity.
  - destruct (negb (truthy (strip motivo_input))); [reflexivity|].
    destruct (is_filled (nome_final nome)); [| reflexivity].
    apply run_calls, add_record_other_calls. reflexivity.
  - unfold delete_record. destruct (drop (df_atestados s) index);
      [reflexivity | exact I].
  - intros Ht. unfold update_record.
    destruct (calcular_datas data_inicio dias) as [[data_final ret]|e];
      [| exact I].
    cbn [bind]. rewrite Ht. reflexivity.
Qed.

Section SentCodes.

(** The two facts about Unicode's tables, as for the normalized codes. *)
Hypothesis upper_wide_fixed :
  forall s, ascii_text s = false -> upper (upper_wide s) = upper_wide s.
Hypothesis upper_wide_strip :
  forall s, ascii_text s = false -> upper (strip s) = strip (upper_wide s).

Lemma pesquisar_cid_sent_ok (now : Z) (s : session) (codigo_cid : string) :
  forallb sent_ok (calls s) = true ->
  forallb sent_ok (calls (snd (pesquisar_cid now s codigo_cid))) = true.
Proof.
  intros H. unfold pesquisar_cid.
  destruct (cache_get now codigo_cid (cache s)); [exact H|].
  unfold pesquisar_cid_uncached.
  destruct (truthy (upper (strip codigo_cid))) eqn:E; cbn [negb snd calls];
    [| exact H].
  cbn [forallb]. rewrite H, andb_true_r. unfold sent_ok.
  rewrite E, (normalize_twice upper_wide_fixed upper_wide_strip),
    String.eqb_refl.
  reflexivity.
Qed.

(** X8: the service is never sent an empty code, nor one that is not in
    upper case and trimmed: if every code sent so far is of that form, so is
    every code sent after a lookup, an addition, an update or a deletion,
    whatever code they are given. *)
Theorem sent_codes_are_normalized (now : Z) (s : session) :
  forallb sent_ok (calls s) = true ->
  (forall codigo_cid,
      forallb sent_ok (calls (snd (pesquisar_cid now s codigo_cid))) = true)
  /\ (forall nome data_inicio dias tipo cid motivo_texto,
        forallb sent_ok
          (calls (after (add_record now s nome data_inicio dias tipo cid
                           motivo_texto) s)) = true)
  /\ (forall index nome data_inicio dias cid tipo_original motivo_original,
        forallb sent_ok
          (calls (after (update_record now s index nome data_inicio dias cid
                           tipo_original motivo_original) s)) = true)
  /\ (forall index,
        forallb sent_ok
          (calls (after (bind (delete_record s index)
                           (fun s' => Ok (s', tt))) s)) = true).
Proof.
  intros H. split; [| split; [| split]].
  - intros c. apply pesquisar_cid_sent_ok. exact H.
  - intros nome data_inicio dias tipo cid motivo_texto.
    destruct (calcular_datas data_inicio dias) as [[data_final ret]|e] eqn:Hd.
    + destruct (add_record_ok now s nome data_inicio dias tipo cid motivo_texto
                  data_final ret Hd) as (s1 & novo & -> & _ & _ & _ & Hc & _).
      cbn [after]. rewrite Hc.
      destruct (String.eqb tipo "Atestado");
        [apply pesquisar_cid_sent_ok|]; exact H.
    + unfold add_record. rewrite Hd. exact H.
  - intros index nome data_inicio dias cid tipo_original motivo_original.
    destruct (update_record now s index nome data_inicio dias cid
                tipo_original motivo_original) as [[s' ret]|e] eqn:E;
      cbn [after]; [| exact H].
    destruct (update_record_lookup _ _ _ _ _ _ _ _ _ _ _ E)
      as [[_ Hc] | [_ Hc]]; rewrite Hc;
      [| apply pesquisar_cid_sent_ok]; exact H.
  - intros index. unfold delete_record.
    destruct (drop (df_atestados s) index); exact H.
Qed.

End SentCodes.

(** X9: a lookup that does not find its argument in the cache stores its
    answer: the same argument looked up again less than [ttl] = 3600
    seconds after it gets the same answer and leaves the session as it is,
    so the service is not called. *)
Theorem lookup_is_stored (now now' : Z) (s : session) (codigo_cid : string) :
  cache_get now codigo_cid (cache s) = None ->
  now' < now + ttl ->
  pesquisar_cid now' (snd (pesquisar_cid now s codigo_cid)) codigo_cid
  = pesquisar_cid now s codigo_cid.
Proof.
  intros Hmiss Hw. unfold pesquisar_cid at 2 3. rewrite Hmiss.
  destruct (pesquisar_cid_uncached (calls s) codigo_cid) as [v sent].
  cbn [snd]. unfold pesquisar_cid. cbn [cache cache_get].
  rewrite String.eqb_refl. replace (now' <? now + ttl) with true by lia.
  reflexivity.
Qed.

(** X10: the cache is keyed by the argument as it is passed, not by the
    normalized code, and an entry is not used once [ttl] seconds have
    passed.  After a lookup on an empty cache, a lookup of a different text
    that is not blank (it may normalize to the same code), or one of the
    same text [ttl] seconds later or more, sends its code to the service. *)
Theorem lookup_misses (now now' : Z) (s : session) (c c' : string) :
  cache s = [] ->
  blank_code c' = false ->
  c <> c' \/ now + ttl <= now' ->
  calls (snd (pesquisar_cid now' (snd (pesquisar_cid now s c)) c'))
  = upper (strip c') :: calls (snd (pesquisar_cid now s c)).
Proof.
  intros Hc Hb Hor. unfold pesquisar_cid at 2 3. rewrite Hc. cbn [cache_get].
  destruct (pesquisar_cid_uncached (calls s) c) as [v sent]. cbn [snd calls].
  unfold pesquisar_cid. cbn [cache cache_get calls].
  assert (E : String.eqb c c' && (now' <? now + ttl) = false).
  { destruct Hor as [Hne | Hexp].
    - apply String.eqb_neq in Hne. rewrite Hne. reflexivity.
    - replace (now' <? now + ttl) with false by lia. apply andb_false_r. }
  rewrite E. unfold pesquisar_cid_uncached. unfold blank_code in Hb.
  rewrite Hb. reflexivity.
Qed.

(** ** Files that [load_data] does not take *)

Lemma unique_app_false (l l' : list string) :
  unique l = false -> unique (l ++ l') = false.
Proof.
  induction l as [|x l IH]; cbn [unique app]; [discriminate|].
  intros H. apply andb_false_iff in H as [H | H].
  - apply andb_false_iff. left. rewrite existsb_app.
    apply negb_false_iff in H. rewrite H. reflexivity.
  - apply andb_false_iff. right. apply IH. exact H.
Qed.

Lemma names_add_column (f : Frame) (name : string) (v : nat -> cell) :
  names (add_column f name v) = (names f ++ [name])%list.
Proof. unfold names, add_column. cbn [fcolumns]. apply map_app. Qed.

Lemma unique_false_kept (f : Frame) (name : string) (v : nat -> cell) (b : bool) :
  unique (names f) = false ->
  unique (names (if b then add_column f name v else f)) = false.
Proof.
  intros H. destruct b; [| exact H].
  rewrite names_add_column. apply unique_app_false. exact H.
Qed.

Lemma getitem_absent (f : Frame) (name : string) :
  has_column f name = false -> getitem f name = Raise KeyError.
Proof.
  unfold has_column, names, getitem. intros H.
  replace (filter (fun p => String.eqb (fst p) name) (fcolumns f))
    with (@nil (string * (nat -> cell))); [reflexivity|].
  symmetry. induction (fcolumns f) as [|p l IH]; [reflexivity|].
  cbn [map existsb] in H. apply orb_false_iff in H as [H1 H2].
  cbn [filter]. rewrite String.eqb_sym, H1. apply IH. exact H2.
Qed.

(** X11: a file in which two columns come to bear the same name once the
    old names are mapped to the current ones (say 'Descricao_CID' beside
    'Motivo') is not loaded at all: [load_data] gives the empty frame with a
    warning.  So does a file that has neither a 'Tipo' nor a 'CID' column:
    the category cannot be filled in and the warning carries a [KeyError]. *)
Theorem load_data_gives_up (raw : Frame) :
  (unique (names (rename raw)) = false ->
   exists e, load_data (Some (Ok raw)) = ([], Some e))
  /\ (has_column (rename raw) "Tipo" = false ->
      has_column (rename raw) "CID" = false ->
      load_data (Some (Ok raw)) = ([], Some KeyError)).
Proof.
  split.
  - intros Hu. unfold load_data. cbn [bind]. unfold read_frame.
    destruct (negb (has_column (rename raw) "Tipo")).
    + destruct (getitem (rename raw) "CID") as [cid|e];
        [| eexists; reflexivity].
      cbn [bind]. unfold reindex.
      rewrite unique_false_kept; [eexists; reflexivity|].
      apply unique_false_kept. rewrite names_add_column.
      apply unique_app_false. exact Hu.
    + cbn [bind]. unfold reindex.
      rewrite unique_false_kept; [eexists; reflexivity|].
      apply unique_false_kept. exact Hu.
  - intros Ht Hc. unfold load_data. cbn [bind]. unfold read_frame.
    rewrite Ht. cbn [negb]. rewrite getitem_absent by exact Hc. reflexivity.
Qed.

Lemma find_absent (cs : list (string * (nat -> cell))) (name : string) :
  existsb (String.eqb name) (map fst cs) = false ->
  find (fun p => String.eqb (fst p) name) cs = None.
Proof.
  induction cs as [|c cs IH]; cbn [map existsb find]; [reflexivity|].
  intros H. apply orb_false_iff in H as [H1 H2].
  rewrite String.eqb_sym, H1. apply IH. exact H2.
Qed.

Lemma has_column_add (f : Frame) (name other : string) (v : nat -> cell) :
  String.eqb name other = false ->
  has_column (add_column f other v) name = has_column f name.
Proof.
  intros H. unfold has_column. rewrite names_add_column, existsb_app.
  cbn [existsb]. rewrite H. rewrite !orb_false_r. reflexivity.
Qed.

(** X12: rows are dropped for a missing name only when the file has a name
    column.  When it has none (under the old name or the current one) and
    the file is otherwise accepted, [load_data] keeps every row, each with
    the empty text as its name. *)
Theorem load_data_without_name_column (raw : Frame) (df : DataFrame) :
  has_column (rename raw) "Nome_do_Colaborador" = false ->
  load_data (Some (Ok raw)) = (df, None) ->
  List.length df = nrows raw
  /\ Forall (fun r => row_nome r = Str EmptyString) (records df).
Proof.
  intros Hno. unfold load_data. cbn [bind].
  destruct (read_frame raw) as [df0|e] eqn:E; [| discriminate].
  intros H. injection H as <-. unfold read_frame in E.
  set (df1 := if negb (has_column (rename raw) "Tipo") then _ else _) in E.
  assert (H1 : forall d, df1 = Ok d ->
             nrows d = nrows raw
             /\ has_column d "Nome_do_Colaborador" = false).
  { subst df1. intros d.
    destruct (negb (has_column (rename raw) "Tipo")).
    - destruct (getitem (rename raw) "CID"); [| discriminate].
      cbn [bind]. intros Hd. injection Hd as <-.
      split; [reflexivity|]. rewrite has_column_add by reflexivity. exact Hno.
    - intros Hd. injection Hd as <-. split; [reflexivity | exact Hno]. }
  destruct df1 as [d|e]; [| discriminate].
  destruct (H1 d eq_refl) as [Hn Hc]. cbn [bind] in E.
  set (d2 := if negb (has_column d "Motivo") then _ else d) in E.
  assert (H2 : nrows d2 = nrows raw
               /\ has_column d2 "Nome_do_Colaborador" = false).
  { subst d2. destruct (negb (has_column d "Motivo"));
      [rewrite has_column_add by reflexivity|]; split; assumption. }
  destruct H2 as [Hn2 Hc2].
  set (d3 := if negb (has_column d2 "CID") then _ else d2) in E.
  assert (H3 : nrows d3 = nrows raw
               /\ has_column d3 "Nome_do_Colaborador" = false).
  { subst d3. destruct (negb (has_column d2 "CID"));
      [rewrite has_column_add by reflexivity|]; split; assumption. }
  destruct H3 as [Hn3 Hc3].
  unfold reindex in E. destruct (unique (names d3)); [| discriminate].
  cbn [bind] in E. injection E as <-.
  cbn [column_name] in *.
  rewrite (find_absent (fcolumns d3) "Nome_do_Colaborador") by exact Hc3.
  rewrite Hn3.
  assert (Hall : forall (f : nat -> Row) (l : list nat),
             (forall i, row_nome (f i) = Str EmptyString) ->
             filter (fun r => negb (isna (row_nome r))) (map f l) = map f l).
  { intros f l Hf. induction l as [|i l IH]; [reflexivity|].
    cbn [map filter]. rewrite Hf. cbn [isna negb]. rewrite IH. reflexivity. }
  rewrite Hall by (intros i; reflexivity).
  rewrite length_number_from, length_map, length_seq, records_number_from.
  split; [reflexivity|].
  apply Forall_forall. intros r Hr. apply in_map_iff in Hr as (i & <- & _).
  reflexivity.
Qed.

(** ** The other forms *)

(** X13: with a name that is not blank and dates that can be computed, the
    forms for 'Banco de Horas' and 'Falta' add one record with the name
    trimmed, the empty code and their fixed reason; the form for 'Folga',
    given a reason that is not blank, adds one with the reason trimmed.
    Each returns the return date of [calcular_datas]. *)
Theorem other_forms_add_one_record (now : Z) (s : session) (n : string)
    (data_inicio : date) (dias : Z) (motivo_input : string)
    (data_final data_retorno : date) :
  truthy n = true -> truthy (strip n) = true ->
  calcular_datas data_inicio dias = Ok (data_final, data_retorno) ->
  let novo tipo motivo :=
    mkRow (Str (strip n)) (Str (strftime_Ymd data_inicio)) (Int dias)
      (Str (strftime_Ymd data_final)) (Str EmptyString) (Str tipo)
      (Str motivo) in
  (exists s',
      new_record_banco_form now s (Some n) data_inicio dias
      = (s', Success data_retorno)
      /\ records (df_atestados s')
         = (records (df_atestados s)
            ++ [novo "Banco de Horas" "Compensação de Banco de Horas"])%list)
  /\ (exists s',
        new_record_falta_form_simple now s (Some n) data_inicio dias
        = (s', Success data_retorno)
        /\ records (df_atestados s')
           = (records (df_atestados s) ++ [novo "Falta" "Falta"])%list)
  /\ (truthy (strip motivo_input) = true ->
      exists s',
        new_record_folga_form_motivo now s (Some n) data_inicio dias
          motivo_input = (s', Success data_retorno)
        /\ records (df_atestados s')
           = (records (df_atestados s)
              ++ [novo "Folga" (strip motivo_input)])%list).
Proof.
  intros Hn Hs Hd novo.
  unfold new_record_banco_form, new_record_falta_form_simple,
    new_record_folga_form_motivo. cbv zeta.
  cbn [nome_final]. rewrite Hn. cbn [is_filled the_name]. rewrite Hs.
  split; [| split].
  - destruct (add_record_ok now s (strip n) data_inicio dias "Banco de Horas"
                EmptyString EmptyString data_final data_retorno Hd)
      as (s' & r & -> & Hrec & _ & _ & _ & Hr).
    exists s'. split; [reflexivity|]. rewrite Hrec, Hr. reflexivity.
  - destruct (add_record_ok now s (strip n) data_inicio dias "Falta"
                EmptyString EmptyString data_final data_retorno Hd)
      as (s' & r & -> & Hrec & _ & _ & _ & Hr).
    exists s'. split; [reflexivity|]. rewrite Hrec, Hr. reflexivity.
  - intros Hm. rewrite Hm. cbn [negb].
    destruct (add_record_ok now s (strip n) data_inicio dias "Folga"
                EmptyString (strip motivo_input) data_final data_retorno Hd)
      as (s' & r & -> & Hrec & _ & _ & _ & Hr).
    exists s'. split; [reflexivity|]. rewrite Hrec, Hr. reflexivity.
Qed.

(** ** The edit form *)

Lemma map_at_same (df : DataFrame) (index : Z) (r : Row) :
  filter (fun p => fst p =? index) df = [(index, r)] ->
  map (at_label index (fun _ => r)) df = df.
Proof.
  induction df as [|[i r0] df IH]; cbn [filter map]; [reflexivity|].
  change (at_label index (fun _ => r) (i, r0))
    with (if i =? index then (i, r) else (i, r0)).
  cbn [fst]. destruct (i =? index) eqn:E.
  - intros H. injection H as _ Hr Hrest.
    assert (Hl : has_label df index = false)
      by (apply has_label_filter; assumption).
    rewrite (map_at_absent df index _ Hl), Hr. reflexivity.
  - intros H. rewrite (IH H). reflexivity.
Qed.

Lemma filter_map_at_other (df : DataFrame) (index j : Z) (f : Row -> Row) :
  j <> index ->
  filter (fun p => fst p =? j) (map (at_label index f) df)
  = filter (fun p => fst p =? j) df.
Proof.
  intros Hj. induction df as [|[i r0] df IH]; [reflexivity|].
  cbn [map filter]. rewrite IH.
  change (at_label index f (i, r0))
    with (if i =? index then (i, f r0) else (i, r0)).
  destruct (Z.eqb_spec i index) as [->|Hi]; cbn [fst]; [| reflexivity].
  destruct (Z.eqb_spec index j) as [E|_]; [congruence | reflexivity].
Qed.

(** X14: the edit form submitted without a change of the code (for an
    'Atestado' the stored code typed back in whatever case and spacing; any
    record of another category) calls no service, leaves the cache as it is
    and writes the file once; it rewrites the one record under [index] with
    its start and end dates as '%Y-%m-%d' texts, the day count as an integer
    and, under a category other than 'Atestado', the empty code, every other
    cell as it was.  For a record that holds these cells in that form, as
    [add_record] and [update_record] store them, and is submitted with its
    own dates and day count, that is the record itself and the frame is
    unchanged; a record read from the file, which holds its dates as date
    objects, gets them rewritten as texts. *)
Theorem edit_form_without_change (now : Z) (s : session) (index : Z) (r : Row)
    (data_inicio : date) (dias : Z) (cid_input : string)
    (data_final data_retorno : date) :
  filter (fun p => fst p =? index) (df_atestados s) = [(index, r)] ->
  calcular_datas data_inicio dias = Ok (data_final, data_retorno) ->
  (cell_eq_str (row_tipo r) "Atestado" = true ->
   row_cid r = Str (strip (upper cid_input))) ->
  let r' :=
    mkRow (row_nome r) (Str (strftime_Ymd data_inicio)) (Int dias)
      (Str (strftime_Ymd data_final))
      (if cell_eq_str (row_tipo r) "Atestado" then row_cid r
       else Str EmptyString)
      (row_tipo r) (row_motivo r) in
  let df' := map (at_label index (fun _ => r')) (df_atestados s) in
  edit_form now s index r data_inicio dias cid_input
  = (mkSession df' (df' :: saved s) (cache s) (calls s), Success data_retorno)
  /\ filter (fun p => fst p =? index) df' = [(index, r')]
  /\ (row_inicio r = Str (strftime_Ymd data_inicio) ->
      row_dias r = Int dias ->
      row_final r = Str (strftime_Ymd data_final) ->
      (cell_eq_str (row_tipo r) "Atestado" = false ->
       row_cid r = Str EmptyString) ->
      r' = r /\ df' = df_atestados s)
  /\ (row_inicio r = Date data_inicio -> r' <> r /\ df' <> df_atestados s).
Proof.
  intros Hrow Hd Hcid r' df'.
  pose proof (update_record_ok now s index (row_nome r) data_inicio dias
                (strip (upper cid_input)) (row_tipo r) (row_motivo r) r
                data_final data_retorno Hrow Hd) as H.
  cbv zeta in H.
  assert (Hl : cell_eq_str (row_tipo r) "Atestado"
               && cell_ne_str (row_cid r) (strip (upper cid_input)) = false).
  { destruct (cell_eq_str (row_tipo r) "Atestado"); [| reflexivity].
    rewrite (Hcid eq_refl). unfold cell_ne_str. cbn [cell_eq_str andb].
    rewrite String.eqb_refl. reflexivity. }
  rewrite Hl in H.
  assert (Hr : mkRow (row_nome r) (Str (strftime_Ymd data_inicio)) (Int dias)
                 (Str (strftime_Ymd data_final))
                 (if cell_eq_str (row_tipo r) "Atestado"
                  then Str (strip (upper cid_input)) else Str EmptyString)
                 (row_tipo r) (row_motivo r) = r').
  { subst r'. destruct (cell_eq_str (row_tipo r) "Atestado");
      [rewrite (Hcid eq_refl)|]; reflexivity. }
  rewrite Hr in H. fold df' in H.
  assert (Hf : filter (fun p => fst p =? index) df' = [(index, r')])
    by (apply filter_map_at_unique with r; exact Hrow).
  split; [unfold edit_form; cbv zeta; rewrite H; reflexivity|].
  split; [exact Hf|]. split.
  - intros Hi Hdias Hfin Hc.
    assert (E : r' = r).
    { subst r'. rewrite <- Hi, <- Hdias, <- Hfin.
      destruct (cell_eq_str (row_tipo r) "Atestado");
        [| rewrite <- (Hc eq_refl)]; destruct r; reflexivity. }
    split; [exact E|]. subst df'. rewrite E. apply map_at_same. exact Hrow.
  - intros Hi.
    assert (N : r' <> r).
    { intros E. apply (f_equal row_inicio) in E. subst r'.
      cbn [row_inicio] in E. rewrite Hi in E. discriminate. }
    split; [exact N|]. intros E. rewrite E, Hrow in Hf.
    injection Hf as Hf. apply N. symmetry. exact Hf.
Qed.

(** X15: the edit form cannot change the name or the category of the
    record it edits, nor touch any other position: when it succeeds on the
    one record under [index], that position holds a record of the same name
    and category (with the same reason and the empty code when the category
    is not 'Atestado') and every other position reads as before; when it
    fails the session is untouched. *)
Theorem edit_form_keeps_identity (now : Z) (s : session) (index : Z) (r : Row)
    (data_inicio : date) (dias : Z) (cid_input : string) :
  filter (fun p => fst p =? index) (df_atestados s) = [(index, r)] ->
  match edit_form now s index r data_inicio dias cid_input with
  | (s', Success _) =>
      exists r',
        filter (fun p => fst p =? index) (df_atestados s') = [(index, r')]
        /\ row_nome r' = row_nome r /\ row_tipo r' = row_tipo r
        /\ (cell_eq_str (row_tipo r) "Atestado" = false ->
            row_motivo r' = row_motivo r /\ row_cid r' = Str EmptyString)
        /\ labels (df_atestados s') = labels (df_atestados s)
        /\ forall j, j <> index ->
             filter (fun p => fst p =? j) (df_atestados s')
             = filter (fun p => fst p =? j) (df_atestados s)
  | (s', _) => s' = s
  end.
Proof.
  intros Hrow. unfold edit_form. cbv zeta.
  destruct (calcular_datas data_inicio dias) as [[data_final ret]|e] eqn:Hd.
  - pose proof (update_record_ok now s index (row_nome r) data_inicio dias
                  (strip (upper cid_input)) (row_tipo r) (row_motivo r) r
                  data_final ret Hrow Hd) as H.
    cbv zeta in H. rewrite H. cbn [run df_atestados].
    eexists. split; [apply filter_map_at_unique with r; exact Hrow|].
    cbn [row_nome row_tipo row_motivo row_cid].
    split; [reflexivity|]. split; [reflexivity|]. split; [| split].
    + intros Ht. rewrite Ht. cbn [andb]. split; reflexivity.
    + apply labels_map_at.
    + intros j Hj. apply filter_map_at_other. exact Hj.
  - unfold update_record. rewrite Hd. reflexivity.
Qed.

End Register.

(** * The list of names *)

Lemma compare_lt_trans (a b c : string) :
  String.compare a b = Lt -> String.compare b c = Lt -> String.compare a c = Lt.
Proof.
  revert b c. induction a as [|x a IH]; intros [|y b] [|z c]; cbn;
    try discriminate; try reflexivity.
  destruct (Ascii.compare x y) eqn:E1; try discriminate.
  - apply Ascii.compare_eq_iff in E1. subst y.
    destruct (Ascii.compare x z); try discriminate; [apply IH | reflexivity].
  - intros _. destruct (Ascii.compare y z) eqn:E2; try discriminate.
    + apply Ascii.compare_eq_iff in E2. subst z. rewrite E1. reflexivity.
    + intros _. unfold Ascii.compare in *.
      rewrite N.compare_lt_iff in *.
      replace (N_of_ascii x ?= N_of_ascii z)%N with Lt; [reflexivity|].
      symmetry. apply N.compare_lt_iff. lia.
Qed.

Lemma ltb_trans (a b c : string) :
  String.ltb a b = true -> String.ltb b c = true -> String.ltb a c = true.
Proof.
  unfold String.ltb. intros H1 H2.
  destruct (String.compare a b) eqn:E1; try discriminate.
  destruct (String.compare b c) eqn:E2; try discriminate.
  rewrite (compare_lt_trans _ _ _ E1 E2). reflexivity.
Qed.

Lemma leb_ne_ltb (a b : string) :
  String.leb a b = true -> a <> b -> String.ltb a b = true.
Proof.
  unfold String.leb, String.ltb. intros H N.
  destruct (String.compare a b) eqn:E; try discriminate; [| reflexivity].
  apply String.compare_eq_iff in E. contradiction.
Qed.

Lemma not_leb_ltb (a b : string) :
  String.leb a b = false -> String.ltb b a = true.
Proof.
  unfold String.leb, String.ltb. rewrite (String.compare_antisym a b).
  destruct (String.compare b a); cbn; congruence.
Qed.

Lemma ltb_irrefl (a : string) : String.ltb a a = false.
Proof.
  unfold String.ltb. pose proof (String.compare_antisym a a) as H.
  destruct (String.compare a a); cbn in H; congruence.
Qed.

Lemma insert_name_In (x y : string) (l : list string) :
  In y (insert_name x l) <-> y = x \/ In y l.
Proof.
  induction l as [|z l IH]; cbn [insert_name].
  - cbn. intuition congruence.
  - destruct (String.leb x z); cbn [In]; [intuition congruence|].
    rewrite IH. cbn. intuition congruence.
Qed.

Lemma insert_name_sorted (x : string) (l : list string) :
  StronglySorted (fun a b => String.ltb a b = true) l ->
  ~ In x l ->
  StronglySorted (fun a b => String.ltb a b = true) (insert_name x l).
Proof.
  intros Hs. induction Hs as [|y l Hs IH Hall]; intros Hx; cbn [insert_name].
  - constructor; constructor.
  - destruct (String.leb x y) eqn:E.
    + assert (Hxy : String.ltb x y = true).
      { apply leb_ne_ltb; [exact E|]. intros ->. apply Hx. left. reflexivity. }
      constructor; [constructor; assumption|].
      constructor; [exact Hxy|].
      eapply Forall_impl; [| exact Hall]. cbn. intros z Hz.
      apply ltb_trans with y; assumption.
    + constructor.
      * apply IH. intros H. apply Hx. right. exact H.
      * apply Forall_forall. intros z Hz. apply insert_name_In in Hz as [->|Hz].
        -- apply not_leb_ltb. exact E.
        -- rewrite Forall_forall in Hall. apply Hall. exact Hz.
Qed.

Lemma sorted_names_In (x : string) (l : list string) :
  In x (sorted_names l) <-> In x l.
Proof.
  induction l as [|y l IH]; cbn [sorted_names]; [reflexivity|].
  rewrite insert_name_In, IH. cbn. intuition congruence.
Qed.

Lemma sorted_names_sorted (l : list string) :
  NoDup l ->
  StronglySorted (fun a b => String.ltb a b = true) (sorted_names l).
Proof.
  induction 1 as [|x l Hx Hn IH]; cbn [sorted_names]; [constructor|].
  apply insert_name_sorted; [exact IH|]. rewrite sorted_names_In. exact Hx.
Qed.

Lemma unique_values_In (x : string) (l : list string) :
  In x (unique_values l) <-> In x l.
Proof.
  induction l as [|y l IH]; cbn [unique_values In]; [reflexivity|].
  rewrite filter_In, IH. destruct (String.eqb_spec y x) as [->|N]; cbn.
  - intuition congruence.
  - intuition congruence.
Qed.

Lemma unique_values_NoDup (l : list string) : NoDup (unique_values l).
Proof.
  induction l as [|y l IH]; cbn [unique_values]; constructor.
  - rewrite filter_In. intros [_ H]. rewrite String.eqb_refl in H. discriminate.
  - apply NoDup_filter. exact IH.
Qed.

Lemma sorted_NoDup (l : list string) :
  StronglySorted (fun a b => String.ltb a b = true) l -> NoDup l.
Proof.
  induction 1 as [|x l Hs IH Hall]; constructor; [| exact IH].
  intros Hin. rewrite Forall_forall in Hall. specialize (Hall _ Hin).
  rewrite ltb_irrefl in Hall. discriminate.
Qed.

Lemma getitem_present (f : Frame) (name : string) (col : nat -> cell) :
  getitem f name = Ok col -> has_column f name = true.
Proof.
  intros H. destruct (has_column f name) eqn:E; [reflexivity|].
  rewrite getitem_absent in H by exact E. discriminate.
Qed.

(** X16: the names [load_colaboradores] returns are in strictly ascending
    order (byte by byte, as Python orders text), so none is repeated, and
    they are exactly the texts of the cells of the 'Nome_do_Colaborador'
    column; without the file, without the column, or when reading fails, it
    returns the empty list and shows a message. *)
Theorem load_colaboradores_names (file : option (result Frame)) :
  let (nomes, shown) := load_colaboradores file in
  StronglySorted (fun a b => String.ltb a b = true) nomes
  /\ NoDup nomes
  /\ match file with
     | Some (Ok df_colaboradores) =>
         match getitem df_colaboradores "Nome_do_Colaborador" with
         | Ok col =>
             shown = Quiet
             /\ forall x, In x nomes
                  <-> exists i, (i < nrows df_colaboradores)%nat
                                /\ cell_str (col i) = x
         | Raise _ => nomes = [] /\ shown <> Quiet
         end
     | _ => nomes = [] /\ shown <> Quiet
     end.
Proof.
  unfold load_colaboradores. destruct file as [[df|e]|].
  - destruct (getitem df "Nome_do_Colaborador") as [col|e] eqn:G.
    + rewrite (getitem_present _ _ _ G).
      assert (Hs : StronglySorted (fun a b => String.ltb a b = true)
                     (sorted_names (unique_values
                        (map cell_str (series (nrows df) col)))))
        by (apply sorted_names_sorted, unique_values_NoDup).
      split; [exact Hs|]. split; [apply sorted_NoDup; exact Hs|].
      split; [reflexivity|]. intros x.
      rewrite sorted_names_In, unique_values_In, in_map_iff. unfold series.
      split.
      * intros (c & Hc & Hin). apply in_map_iff in Hin as (i & <- & Hi).
        apply in_seq in Hi. exists i. split; [lia | exact Hc].
      * intros (i & Hi & Hc). exists (col i). split; [exact Hc|].
        apply in_map. apply in_seq. lia.
    + destruct (has_column df "Nome_do_Colaborador");
        (split; [constructor|]; split; [constructor|]; split;
         [reflexivity | discriminate]).
  - split; [constructor|]. split; [constructor|]. split;
      [reflexivity | discriminate].
  - split; [constructor|]. split; [constructor|]. split;
      [reflexivity | discriminate].
Qed.

(** * Worked instances *)

(** The case tables of the examples are as Unicode's are. *)
Lemma demo_upper_wide_fixed (s : string) :
  ascii_text s = false ->
  upper demo_upper_wide (demo_upper_wide s) = demo_upper_wide s.
Proof.
  intros E. unfold upper, demo_upper_wide.
  rewrite ascii_text_upper_ascii, E. apply upper_ascii_idem.
Qed.

Lemma demo_upper_wide_strip (s : string) :
  ascii_text s = false ->
  upper demo_upper_wide (strip s) = strip (demo_upper_wide s).
Proof.
  intros E. unfold upper, demo_upper_wide. rewrite upper_ascii_strip.
  destruct (ascii_text (strip s)); reflexivity.
Qed.

Lemma calcular_datas_spec_witness :
  calcular_datas (mkdate 2024 12 31) 2
  = Ok (mkdate 2025 1 1, mkdate 2025 1 2).
Proof.
  destruct (calcular_datas_spec (mkdate 2024 12 31) 2) as [H _];
    [reflexivity | lia | exact H].
Defined.

(** C1 as stated fails at the end of the calendar: the day after
    9999-12-31 is not a [date], nor is a date three million days from 2024. *)
Lemma calcular_datas_overflow :
  valid_date (mkdate 9999 12 31) = true
  /\ calcular_datas (mkdate 9999 12 31) 1 = Raise OverflowError
  /\ valid_date (mkdate 2024 1 1) = true
  /\ calcular_datas (mkdate 2024 1 1) 3000000 = Raise OverflowError.
Proof. repeat split; reflexivity. Qed.

Lemma atestado_form_witness :
  exists s',
    new_record_atestado_form demo_upper_wide demo_service 0 empty_session (Some "Ana ")
      (mkdate 2024 1 30) 3 " m54 " = (s', Success (mkdate 2024 2 2))
    /\ records (df_atestados s')
       = [mkRow (Str "Ana") (Str "2024-01-30") (Int 3) (Str "2024-02-01")
            (Str "M54") (Str "Atestado") (Str "M54 - Dor nas costas")]
    /\ saved s' = [df_atestados s']
    /\ upper demo_upper_wide (strip "M54") = "M54"
    /\ strip (upper demo_upper_wide "m54") = "M54".
Proof.
  exact (atestado_form_stores_normalized_code demo_upper_wide demo_service
           demo_upper_wide_fixed demo_upper_wide_strip 0 empty_session
           (Some "Ana ") (mkdate 2024 1 30) 3 " m54 "
           (mkdate 2024 2 1) (mkdate 2024 2 2) eq_refl eq_refl eq_refl).
Defined.

Lemma forms_validate_witness :
  (exists m, new_record_banco_form demo_upper_wide demo_service 0 demo_session None
               (mkdate 2024 1 30) 1 = (demo_session, Error m))
  /\ (exists m, new_record_atestado_form demo_upper_wide demo_service 0 demo_session
                  (Some "Ana") (mkdate 2024 1 30) 1 "  "
                = (demo_session, Error m))
  /\ (exists m, new_record_folga_form_motivo demo_upper_wide demo_service 0 demo_session
                  (Some "Ana") (mkdate 2024 1 30) 1 EmptyString
                = (demo_session, Error m)).
Proof.
  split; [| split].
  - destruct (forms_validate_before_adding demo_upper_wide demo_service 0 demo_session None
                (mkdate 2024 1 30) 1 EmptyString EmptyString)
      as [H _].
    destruct (H eq_refl) as (_ & Hb & _). exact Hb.
  - destruct (forms_validate_before_adding demo_upper_wide demo_service 0 demo_session
                (Some "Ana") (mkdate 2024 1 30) 1 "  " EmptyString)
      as (_ & H & _).
    exact (H eq_refl).
  - destruct (forms_validate_before_adding demo_upper_wide demo_service 0 demo_session
                (Some "Ana") (mkdate 2024 1 30) 1 EmptyString EmptyString)
      as (_ & _ & H & _).
    exact (H eq_refl).
Defined.

Lemma update_record_witness :
  exists s' r',
    update_record demo_upper_wide demo_service 0 demo_session 0 (Str "Ana") (mkdate 2024 1 30)
      4 "J11" (Str "Atestado") (Str "M54 - Dor nas costas")
    = Ok (s', mkdate 2024 2 3)
    /\ filter (fun p => fst p =? 0) (df_atestados s') = [(0, r')]
    /\ row_tipo r' = Str "Atestado"
    /\ row_cid r' = Str "J11"
    /\ row_motivo r' = Str "J11 - Gripe".
Proof.
  destruct (update_record_category_and_reason demo_upper_wide demo_service 0 demo_session 0
              (Str "Ana") (mkdate 2024 1 30) 4 "J11" (Str "Atestado")
              (Str "M54 - Dor nas costas")
              (mkRow (Str "Ana") (Str "2024-01-30") (Int 3) (Str "2024-02-01")
                 (Str "M54") (Str "Atestado") (Str "M54 - Dor nas costas"))
              (mkdate 2024 2 2) (mkdate 2024 2 3) eq_refl eq_refl)
    as (s' & r' & H1 & _ & H3 & H4 & _ & H6 & _ & H8).
  exists s', r'. repeat split; assumption.
Defined.



(** A session as [load_data] leaves it, from a file of a certificate and a
    'Falta' whose code field is empty: it is coherent, and stays so. *)
Lemma coherent_witness :
  forallb coherent
    (records (fst (load_data demo_to_datetime (Some (Ok demo_file))))) = true
  /\ forall s' ret,
       update_record demo_upper_wide demo_service 0
         (mkSession (fst (load_data demo_to_datetime (Some (Ok demo_file))))
            [] [] [])
         0 (Str "Ana") (mkdate 2024 3 4) 2 "J11" (Str "Atestado") (Str "x")
       = Ok (s', ret) ->
       forallb coherent (records (df_atestados s')) = true.
Proof.
  split; [vm_compute; reflexivity|]. intros s' ret.
  destruct (operations_keep_records_coherent demo_upper_wide demo_service 0
              (mkSession
                 (fst (load_data demo_to_datetime (Some (Ok demo_file))))
                 [] [] []))
    as (_ & _ & _ & H).
  destruct (H eq_refl) as (_ & Hup & _).
  apply Hup.
Defined.

Lemma update_record_with_empty_code_witness :
  exists s',
    update_record demo_upper_wide demo_service 0 demo_session 0 (Str "Ana") (mkdate 2024 1 30)
      3 EmptyString (Str "Atestado") (Str "M54 - Dor nas costas")
    = Ok (s', mkdate 2024 2 2)
    /\ calls s' = []
    /\ filter (fun p => fst p =? 0) (df_atestados s')
       = [(0, mkRow (Str "Ana") (Str "2024-01-30") (Int 3) (Str "2024-02-01")
                 (Str EmptyString) (Str "Atestado")
                 (Str " - N/A - Nenhum CID fornecido."))]
    /\ saved s' = [df_atestados s'].
Proof.
  exact (update_record_with_empty_code demo_upper_wide demo_service 0 demo_session 0
           (Str "Ana") (mkdate 2024 1 30) 3 (Str "M54 - Dor nas costas")
           (mkRow (Str "Ana") (Str "2024-01-30") (Int 3) (Str "2024-02-01")
              (Str "M54") (Str "Atestado") (Str "M54 - Dor nas costas"))
           "M54" (mkdate 2024 2 1) (mkdate 2024 2 2)
           (Forall_nil _) eq_refl eq_refl eq_refl eq_refl eq_refl).
Defined.

(** Two updates to the code J11, 100 seconds apart: one call. *)
Lemma lookup_cached_witness :
  calls (after (update_record demo_upper_wide demo_service 100
                  (after (update_record demo_upper_wide demo_service 0 demo_session 0
                            (Str "Ana") (mkdate 2024 1 30) 3 "J11"
                            (Str "Atestado") (Str "M54 - Dor nas costas"))
                     demo_session)
                  1 (Str "Bia") (mkdate 2024 2 5) 1 "J11" (Str "Atestado")
                  (Str "M54 - Dor nas costas"))
           demo_session)
  = ["J11"]
  /\ (List.length
        (calls (after (update_record demo_upper_wide demo_service 100
                         (after (update_record demo_upper_wide demo_service 0 demo_session 0
                                   (Str "Ana") (mkdate 2024 1 30) 3 "J11"
                                   (Str "Atestado") (Str "M54 - Dor nas costas"))
                            demo_session)
                         1 (Str "Bia") (mkdate 2024 2 5) 1 "J11" (Str "Atestado")
                         (Str "M54 - Dor nas costas"))
                  demo_session))
      <= S (List.length (calls demo_session)))%nat.
Proof.
  split; [vm_compute; reflexivity|].
  refine (proj1 (lookup_cached_until_cleared demo_upper_wide demo_service 0 100 demo_session
                   _ _ "J11" 0 1 (Str "Ana") (Str "Bia") (mkdate 2024 1 30)
                   (mkdate 2024 2 5) 3 1 (Str "Atestado") (Str "Atestado")
                   (Str "M54 - Dor nas costas") (Str "M54 - Dor nas costas")
                   (mkdate 2024 2 2) (mkdate 2024 2 6) _ _ _));
    vm_compute; reflexivity.
Defined.

(** C9 as stated fails: the same code added twice, ten seconds apart, is
    sent to the service twice, because the first addition emptied the cache. *)
Lemma second_add_calls_service_again :
  exists s1 s2,
    new_record_atestado_form demo_upper_wide demo_service 0 empty_session (Some "Ana")
      (mkdate 2024 1 30) 3 "m54" = (s1, Success (mkdate 2024 2 2))
    /\ calls s1 = ["M54"] /\ cache s1 = []
    /\ new_record_atestado_form demo_upper_wide demo_service 10 s1 (Some "Bia")
         (mkdate 2024 2 5) 1 "m54" = (s2, Success (mkdate 2024 2 6))
    /\ calls s2 = ["M54"; "M54"].
Proof.
  exists (fst (new_record_atestado_form demo_upper_wide demo_service 0 empty_session
                 (Some "Ana") (mkdate 2024 1 30) 3 "m54")).
  exists (fst (new_record_atestado_form demo_upper_wide demo_service 10
                 (fst (new_record_atestado_form demo_upper_wide demo_service 0 empty_session
                         (Some "Ana") (mkdate 2024 1 30) 3 "m54"))
                 (Some "Bia") (mkdate 2024 2 5) 1 "m54")).
  repeat (split; [vm_compute; reflexivity|]). vm_compute. reflexivity.
Qed.


(** The complete table of the five example records and one whose start
    date cannot be read: latest first, the unreadable one last. *)
Lemma df_display_sorted_example :
  map (fun p => (fst (snd p), row_nome (snd (snd p))))
    (df_display_sorted demo_to_datetime
       ((7, mkRow (Str "Zeca") (Str "ontem") (Int 1) NaT (Str EmptyString)
               (Str "Falta") (Str "Falta"))
        :: df_atestados demo_session))
  = [(4, Str "Edu"); (3, Str "Duda"); (2, Str "Caio"); (1, Str "Bia");
     (0, Str "Ana"); (7, Str "Zeca")].
Proof. vm_compute. reflexivity. Qed.

(** * Worked instances of the further properties *)

(** A day count of zero or less: the absence ends before it starts. *)
Lemma calcular_datas_any_dias_witness :
  calcular_datas (mkdate 2024 3 1) 0 = Ok (mkdate 2024 2 29, mkdate 2024 3 1)
  /\ calcular_datas (mkdate 2024 3 1) (-1)
     = Ok (mkdate 2024 2 28, mkdate 2024 2 29)
  /\ calcular_datas (mkdate 1 1 1) 0 = Raise OverflowError.
Proof.
  split; [| split].
  - destruct (calcular_datas_any_dias (mkdate 2024 3 1) 0 eq_refl) as [H _].
    rewrite H. vm_compute. reflexivity.
  - destruct (calcular_datas_any_dias (mkdate 2024 3 1) (-1) eq_refl) as [H _].
    rewrite H. vm_compute. reflexivity.
  - destruct (calcular_datas_any_dias (mkdate 1 1 1) 0 eq_refl) as [H _].
    rewrite H. vm_compute. reflexivity.
Defined.

Lemma date_text_round_trip_witness :
  String.length (isoformat (mkdate 2024 2 29)) = 10%nat
  /\ strptime_Ymd (isoformat (mkdate 2024 2 29)) = Ok (mkdate 2024 2 29).
Proof.
  destruct (date_text_round_trip (mkdate 2024 2 29) eq_refl) as (H1 & H2 & _).
  split; assumption.
Defined.

(** Position 2 of the five example records deleted. *)
Lemma delete_record_compacts_witness :
  exists s',
    delete_record demo_session 2 = Ok s'
    /\ map row_nome (records (df_atestados s'))
       = [Str "Ana"; Str "Bia"; Str "Duda"; Str "Edu"]
    /\ range_index (df_atestados s')
    /\ saved s' = [df_atestados s'].
Proof.
  destruct (delete_record_compacts demo_session 2)
    as (s' & Hd & Hrec & Hr & _ & Hs & _).
  - reflexivity.
  - cbn. lia.
  - exists s'. split; [exact Hd|]. split; [rewrite Hrec; reflexivity|].
    split; [exact Hr | exact Hs].
Defined.

Lemma add_then_delete_restores_witness :
  exists s1 s2,
    add_record demo_upper_wide demo_service 0 demo_session "Zeca" (mkdate 2024 1 30) 1 "Falta"
      EmptyString EmptyString = Ok (s1, mkdate 2024 1 31)
    /\ loc (df_atestados s1) 5 Nome_do_Colaborador = Ok (Str "Zeca")
    /\ delete_record s1 5 = Ok s2
    /\ records (df_atestados s2) = demo_rows.
Proof.
  destruct (add_then_delete_restores demo_upper_wide demo_service 0 demo_session "Zeca"
              (mkdate 2024 1 30) 1 "Falta" EmptyString EmptyString
              (mkdate 2024 1 30) (mkdate 2024 1 31) eq_refl)
    as (s1 & s2 & H1 & H2 & H3 & H4 & _).
  exists s1, s2. split; [exact H1|]. split; [exact H2|]. split; [exact H3|].
  rewrite H4. reflexivity.
Defined.

(** The five example records have the positions 0 to 4. *)
Lemma positions_are_contiguous_witness :
  (has_label (df_atestados demo_session) 4 = true <-> 0 <= 4 < 5)
  /\ (has_label (df_atestados demo_session) 5 = true <-> 0 <= 5 < 5)
  /\ labels (df_atestados
               (after (update_record demo_upper_wide demo_service 0 demo_session 3 (Str "Duda")
                         (mkdate 2024 3 4) 2 EmptyString (Str "Falta")
                         (Str "Falta")) demo_session))
     = [0; 1; 2; 3; 4].
Proof.
  destruct (positions_are_contiguous demo_upper_wide demo_service demo_to_datetime 0
              demo_session) as (_ & _ & Hup & _ & Hpos).
  split; [exact (Hpos eq_refl 4)|]. split; [exact (Hpos eq_refl 5)|].
  specialize (Hup 3 (Str "Duda") (mkdate 2024 3 4) 2 EmptyString (Str "Falta")
                (Str "Falta") eq_refl).
  destruct (update_record demo_upper_wide demo_service 0 demo_session 3 (Str "Duda")
              (mkdate 2024 3 4) 2 EmptyString (Str "Falta") (Str "Falta"))
    as [[s' ret]|e] eqn:E.
  - cbn [after]. rewrite Hup. reflexivity.
  - vm_compute in E. discriminate E.
Defined.

(** An update under the category 'Folga' sends nothing. *)
Lemma only_certificates_witness :
  match update_record demo_upper_wide demo_service 0 demo_session 4 (Str "Edu")
          (mkdate 2024 3 11) 2 "M54" (Str "Folga") (Str "Abono") with
  | Ok (s', _) => calls s' = calls demo_session
  | Raise _ => True
  end.
Proof.
  destruct (only_certificates_call_the_service demo_upper_wide demo_service 0 demo_session
              None (mkdate 2024 3 11) 2 EmptyString 4 (Str "Edu") "M54"
              (Str "Folga") (Str "Abono")) as (_ & _ & _ & _ & H).
  exact (H eq_refl).
Defined.

(** A certificate added with the code as typed: the code sent is 'M54'. *)
Lemma sent_codes_are_normalized_witness :
  forallb (sent_ok demo_upper_wide)
    (calls (after (add_record demo_upper_wide demo_service 0 demo_session "Ana"
                     (mkdate 2024 1 30) 3 "Atestado" " m54 " EmptyString)
              demo_session)) = true
  /\ calls (after (add_record demo_upper_wide demo_service 0 demo_session "Ana"
                     (mkdate 2024 1 30) 3 "Atestado" " m54 " EmptyString)
              demo_session) = ["M54"].
Proof.
  destruct (sent_codes_are_normalized demo_upper_wide demo_service
              demo_upper_wide_fixed demo_upper_wide_strip 0 demo_session eq_refl)
    as (_ & H & _).
  split; [apply H | vm_compute; reflexivity].
Defined.

Lemma lookup_is_stored_witness :
  pesquisar_cid demo_upper_wide demo_service 3599
    (snd (pesquisar_cid demo_upper_wide demo_service 0 empty_session "M54")) "M54"
  = pesquisar_cid demo_upper_wide demo_service 0 empty_session "M54".
Proof.
  apply (lookup_is_stored demo_upper_wide demo_service 0 3599 empty_session "M54");
    [reflexivity | unfold ttl; lia].
Defined.

(** 'm54' after 'M54', and 'M54' again an hour later: three calls. *)
Lemma lookup_misses_witness :
  calls (snd (pesquisar_cid demo_upper_wide demo_service 10
                (snd (pesquisar_cid demo_upper_wide demo_service 0 empty_session "M54"))
                "m54"))
  = ["M54"; "M54"]
  /\ calls (snd (pesquisar_cid demo_upper_wide demo_service 3600
                   (snd (pesquisar_cid demo_upper_wide demo_service 0 empty_session "M54"))
                   "M54"))
     = ["M54"; "M54"].
Proof.
  split.
  - rewrite (lookup_misses demo_upper_wide demo_service 0 10 empty_session "M54" "m54");
      [vm_compute; reflexivity | reflexivity | reflexivity |].
    left. discriminate.
  - rewrite (lookup_misses demo_upper_wide demo_service 0 3600 empty_session "M54" "M54");
      [vm_compute; reflexivity | reflexivity | reflexivity |].
    right. unfold ttl. lia.
Defined.

(** A file with both 'Descricao_CID' and 'Motivo', and one with neither
    'Tipo' nor 'CID'. *)
Lemma load_data_gives_up_witness :
  (exists e,
      load_data demo_to_datetime
        (Some (Ok (mkFrame 1
                     [("Nome_do_Colaborador", fun _ => Str "Ana");
                      ("Tipo", fun _ => Str "Falta");
                      ("Descricao_CID", fun _ => Str "Dor");
                      ("Motivo", fun _ => Str "Falta")])))
      = ([], Some e))
  /\ load_data demo_to_datetime
       (Some (Ok (mkFrame 1
                    [("Nome_do_Colaborador", fun _ => Str "Ana");
                     ("Dias", fun _ => Int 2)])))
     = ([], Some KeyError).
Proof.
  split.
  - destruct (load_data_gives_up demo_to_datetime
                (mkFrame 1
                   [("Nome_do_Colaborador", fun _ => Str "Ana");
                    ("Tipo", fun _ => Str "Falta");
                    ("Descricao_CID", fun _ => Str "Dor");
                    ("Motivo", fun _ => Str "Falta")])) as [H _].
    exact (H eq_refl).
  - destruct (load_data_gives_up demo_to_datetime
                (mkFrame 1
                   [("Nome_do_Colaborador", fun _ => Str "Ana");
                    ("Dias", fun _ => Int 2)])) as [_ H].
    exact (H eq_refl eq_refl).
Defined.

(** A file with no name column: both rows are kept, with the empty name. *)
Lemma load_data_without_name_column_witness :
  List.length
    (fst (load_data demo_to_datetime
            (Some (Ok (mkFrame 2
                         [("Data_de_Inicio", fun _ => Str "2023-05-02");
                          ("Dias", fun _ => Int 2);
                          ("CID", fun _ => Str "M54")])))))
  = 2%nat
  /\ Forall (fun r => row_nome r = Str EmptyString)
       (records
          (fst (load_data demo_to_datetime
                  (Some (Ok (mkFrame 2
                               [("Data_de_Inicio", fun _ => Str "2023-05-02");
                                ("Dias", fun _ => Int 2);
                                ("CID", fun _ => Str "M54")])))))).
Proof.
  apply (load_data_without_name_column demo_to_datetime
           (mkFrame 2
              [("Data_de_Inicio", fun _ => Str "2023-05-02");
               ("Dias", fun _ => Int 2);
               ("CID", fun _ => Str "M54")])).
  - reflexivity.
  - vm_compute. reflexivity.
Defined.

Lemma other_forms_witness :
  exists s',
    new_record_folga_form_motivo demo_upper_wide demo_service 0 demo_session (Some " Bia ")
      (mkdate 2024 1 30) 1 " Abono " = (s', Success (mkdate 2024 1 31))
    /\ records (df_atestados s')
       = (demo_rows
          ++ [mkRow (Str "Bia") (Str "2024-01-30") (Int 1) (Str "2024-01-30")
                (Str EmptyString) (Str "Folga") (Str "Abono")])%list.
Proof.
  destruct (other_forms_add_one_record demo_upper_wide demo_service 0 demo_session " Bia "
              (mkdate 2024 1 30) 1 " Abono " (mkdate 2024 1 30)
              (mkdate 2024 1 31) eq_refl eq_refl eq_refl) as (_ & _ & H).
  destruct (H eq_refl) as (s' & H1 & H2).
  exists s'. split; [exact H1|]. rewrite H2. vm_compute. reflexivity.
Defined.

(** The first example record saved again with its code typed as ' m54 ':
    the frame is as it was.  The same record held with date objects, as read
    from the file: its dates are rewritten as texts. *)
Lemma edit_form_without_change_witness :
  edit_form demo_upper_wide demo_service 0 demo_session 0
    (mkRow (Str "Ana") (Str "2024-01-30") (Int 3) (Str "2024-02-01")
       (Str "M54") (Str "Atestado") (Str "M54 - Dor nas costas"))
    (mkdate 2024 1 30) 3 " m54 "
  = (mkSession (df_atestados demo_session) [df_atestados demo_session] [] [],
     Success (mkdate 2024 2 2))
  /\ edit_form demo_upper_wide demo_service 0
       (mkSession
          [(0, mkRow (Str "Ana") (Date (mkdate 2024 1 30)) (Int 3)
                 (Date (mkdate 2024 2 1)) (Str "M54") (Str "Atestado")
                 (Str "M54 - Dor nas costas"))] [] [] [])
       0
       (mkRow (Str "Ana") (Date (mkdate 2024 1 30)) (Int 3)
          (Date (mkdate 2024 2 1)) (Str "M54") (Str "Atestado")
          (Str "M54 - Dor nas costas"))
       (mkdate 2024 1 30) 3 "M54"
     = (mkSession
          [(0, mkRow (Str "Ana") (Str "2024-01-30") (Int 3) (Str "2024-02-01")
                 (Str "M54") (Str "Atestado") (Str "M54 - Dor nas costas"))]
          [[(0, mkRow (Str "Ana") (Str "2024-01-30") (Int 3)
                  (Str "2024-02-01") (Str "M54") (Str "Atestado")
                  (Str "M54 - Dor nas costas"))]] [] [],
        Success (mkdate 2024 2 2)).
Proof.
  split.
  - destruct (edit_form_without_change demo_upper_wide demo_service 0
                demo_session 0
                (mkRow (Str "Ana") (Str "2024-01-30") (Int 3) (Str "2024-02-01")
                   (Str "M54") (Str "Atestado") (Str "M54 - Dor nas costas"))
                (mkdate 2024 1 30) 3 " m54 " (mkdate 2024 2 1)
                (mkdate 2024 2 2) eq_refl eq_refl (fun _ => eq_refl))
      as (H & _ & Hsame & _).
    rewrite H.
    destruct (Hsame eq_refl eq_refl eq_refl
                (fun E => False_ind _ (Bool.diff_true_false E)))
      as [_ ->].
    reflexivity.
  - destruct (edit_form_without_change demo_upper_wide demo_service 0
                (mkSession
                   [(0, mkRow (Str "Ana") (Date (mkdate 2024 1 30)) (Int 3)
                          (Date (mkdate 2024 2 1)) (Str "M54") (Str "Atestado")
                          (Str "M54 - Dor nas costas"))] [] [] [])
                0
                (mkRow (Str "Ana") (Date (mkdate 2024 1 30)) (Int 3)
                   (Date (mkdate 2024 2 1)) (Str "M54") (Str "Atestado")
                   (Str "M54 - Dor nas costas"))
                (mkdate 2024 1 30) 3 "M54" (mkdate 2024 2 1)
                (mkdate 2024 2 2) eq_refl eq_refl (fun _ => eq_refl))
      as (H & _).
    rewrite H. vm_compute. reflexivity.
Defined.

(** The first example record saved with another code, start and day count. *)
Lemma edit_form_keeps_identity_witness :
  match edit_form demo_upper_wide demo_service 0 demo_session 0
          (mkRow (Str "Ana") (Str "2024-01-30") (Int 3) (Str "2024-02-01")
             (Str "M54") (Str "Atestado") (Str "M54 - Dor nas costas"))
          (mkdate 2024 2 10) 5 "j11" with
  | (s', Success ret) =>
      ret = mkdate 2024 2 15
      /\ exists r',
           filter (fun p => fst p =? 0) (df_atestados s') = [(0, r')]
           /\ row_nome r' = Str "Ana" /\ row_tipo r' = Str "Atestado"
           /\ labels (df_atestados s') = [0; 1; 2; 3; 4]
  | _ => False
  end.
Proof.
  pose proof (edit_form_keeps_identity demo_upper_wide demo_service 0 demo_session 0
                (mkRow (Str "Ana") (Str "2024-01-30") (Int 3) (Str "2024-02-01")
                   (Str "M54") (Str "Atestado") (Str "M54 - Dor nas costas"))
                (mkdate 2024 2 10) 5 "j11" eq_refl) as H.
  destruct (edit_form demo_upper_wide demo_service 0 demo_session 0
              (mkRow (Str "Ana") (Str "2024-01-30") (Int 3) (Str "2024-02-01")
                 (Str "M54") (Str "Atestado") (Str "M54 - Dor nas costas"))
              (mkdate 2024 2 10) 5 "j11") as [s' [ret|m|e]] eqn:E.
  - destruct H as (r' & H1 & H2 & H3 & _ & H5 & _).
    split; [vm_compute in E; congruence|].
    exists r'. repeat split; assumption.
  - vm_compute in E. discriminate E.
  - vm_compute in E. discriminate E.
Defined.

(** A column of four cells, one name twice and one cell empty. *)
Lemma load_colaboradores_example :
  load_colaboradores
    (Some (Ok (mkFrame 4
                 [("Nome_do_Colaborador",
                   fun i => nth i [Str "Caio"; Str "Ana"; NaN; Str "Caio"] NaN)])))
  = (["Ana"; "Caio"; "nan"], Quiet).
Proof. vm_compute. reflexivity. Qed.

(** Texts of white space outside ASCII are blank to the forms: a name, a
    code or a reason made of them is refused, and such white space around a
    name is trimmed. *)
Lemma unicode_blank_inputs :
  strip blank_text = EmptyString
  /\ strip (nbsp ++ "Bia" ++ blank_text) = "Bia"
  /\ (exists m,
        new_record_atestado_form demo_upper_wide demo_service 0 demo_session
          (Some "Ana") (mkdate 2024 1 30) 1 nbsp = (demo_session, Error m))
  /\ (exists m,
        new_record_banco_form demo_upper_wide demo_service 0 demo_session
          (Some blank_text) (mkdate 2024 1 30) 1 = (demo_session, Error m))
  /\ (exists m,
        new_record_folga_form_motivo demo_upper_wide demo_service 0
          demo_session (Some "Ana") (mkdate 2024 1 30) 1 blank_text
        = (demo_session, Error m)).
Proof.
  split; [vm_compute; reflexivity|]. split; [vm_compute; reflexivity|].
  repeat split; eexists; vm_compute; reflexivity.
Qed.
